(** * METAR / TAF decoder (package [metar] and its [wind], [clouds] packages)

    A shallow embedding of the Go sources [metar.go], [trend.go], [taf.go],
    [remarks.go], [wind/wind.go] and [clouds/clouds.go], followed by the
    properties of the decoder.

    Conventions of the embedding:
    - a Go [string] is a byte string ([string] of the Standard Library);
    - a Go run-time panic (index or slice bounds out of range) is the
      [Panic] outcome of the [result] type;
    - [*T] receivers that are mutated become explicit state passing: a method
      takes the old record and returns the new one with its Go result;
    - the packages [visibility], [phenomena], [runways] and [conversion] are
      imported by the sources but are not part of them; they are the fields
      of the class [Collaborators]. *)

From Stdlib Require Import ZArith List String Ascii Bool Lia Arith.
Import ListNotations.
Open Scope string_scope.
Open Scope list_scope.

(** ** Outcomes of Go code *)

Inductive RuntimeError : Type :=
| IndexOutOfRange
| SliceBoundsOutOfRange.

Inductive result (A : Type) : Type :=
| Ok (a : A)
| Panic (e : RuntimeError)
| OutOfFuel.

Arguments Ok {A} a.
Arguments Panic {A} e.
Arguments OutOfFuel {A}.

Definition bind {A B : Type} (x : result A) (f : A -> result B) : result B :=
  match x with
  | Ok a => f a
  | Panic e => Panic e
  | OutOfFuel => OutOfFuel
  end.

Notation "x <- c1 ;; c2" := (bind c1 (fun x => c2))
  (at level 61, c1 at next level, right associativity).
Notation "' pat <- c1 ;; c2" := (bind c1 (fun x => match x with pat => c2 end))
  (at level 61, pat pattern, c1 at next level, right associativity).

(** ** Go strings and slices *)

Module GoString.

Definition is_digit (c : ascii) : bool :=
  ((48 <=? nat_of_ascii c) && (nat_of_ascii c <=? 57))%nat.

Definition is_upper (c : ascii) : bool :=
  ((65 <=? nat_of_ascii c) && (nat_of_ascii c <=? 90))%nat.

Definition is_lower (c : ascii) : bool :=
  ((97 <=? nat_of_ascii c) && (nat_of_ascii c <=? 122))%nat.

(** [\w] of Go's regexp syntax: [0-9A-Za-z_]. *)
Definition is_word (c : ascii) : bool :=
  is_digit c || is_upper c || is_lower c || (nat_of_ascii c =? 95)%nat.

(** [\s] of Go's regexp syntax: tab, newline, form feed, carriage return,
    space. *)
Definition is_space (c : ascii) : bool :=
  let n := nat_of_ascii c in
  ((n =? 9) || (n =? 10) || (n =? 12) || (n =? 13) || (n =? 32))%nat.

Definition digit_val (c : ascii) : Z := Z.of_nat (nat_of_ascii c) - 48.

(** [s[n:]] for [n <= len(s)]. *)
Fixpoint drop (n : nat) (s : string) : string :=
  match n, s with
  | O, _ => s
  | S n', String _ s' => drop n' s'
  | S _, EmptyString => EmptyString
  end.

(** [s[:n]] for [n <= len(s)]. *)
Fixpoint take (n : nat) (s : string) : string :=
  match n, s with
  | O, _ => EmptyString
  | S n', String c s' => String c (take n' s')
  | S _, EmptyString => EmptyString
  end.

(** [s[lo:]]; panics when [lo > len(s)]. *)
Definition slice_from (s : string) (lo : nat) : result string :=
  if (lo <=? String.length s)%nat then Ok (drop lo s)
  else Panic SliceBoundsOutOfRange.

(** [s[:hi]]; panics when [hi > len(s)]. *)
Definition slice_to (s : string) (hi : nat) : result string :=
  if (hi <=? String.length s)%nat then Ok (take hi s)
  else Panic SliceBoundsOutOfRange.

(** [s[lo:hi]]; panics unless [lo <= hi <= len(s)]. *)
Definition slice (s : string) (lo hi : nat) : result string :=
  if ((lo <=? hi) && (hi <=? String.length s))%nat
  then Ok (take (hi - lo) (drop lo s))
  else Panic SliceBoundsOutOfRange.

(** [strings.HasPrefix]. *)
Definition HasPrefix (s p : string) : bool := String.prefix p s.

(** [strings.Split(s, " ")]: cuts at every single space; the result is
    never empty (the empty string gives one empty token). *)
Fixpoint Split (s : string) : list string :=
  match s with
  | EmptyString => [EmptyString]
  | String c s' =>
      if Ascii.eqb c " "%char then EmptyString :: Split s'
      else match Split s' with
           | t :: ts => String c t :: ts
           | [] => [String c EmptyString]
           end
  end.

(** [strings.Join(a, " ")]. *)
Fixpoint Join (a : list string) : string :=
  match a with
  | [] => EmptyString
  | [t] => t
  | t :: ts => (t ++ " " ++ Join ts)%string
  end.

(** Value of a string of decimal digits, most significant first. *)
Fixpoint digits_val (acc : Z) (s : string) : Z :=
  match s with
  | EmptyString => acc
  | String c s' => digits_val (10 * acc + digit_val c)%Z s'
  end.

Fixpoint all_digits (s : string) : bool :=
  match s with
  | EmptyString => true
  | String c s' => is_digit c && all_digits s'
  end.

Definition maxInt : Z := (2 ^ 63 - 1)%Z.
Definition minInt : Z := (- 2 ^ 63)%Z.

(** [strconv.Atoi] with its error dropped ([n, _ = strconv.Atoi(s)]): an
    optional sign and decimal digits; 0 on a syntax error, the nearest
    bound of [int] on a range error. *)
Definition Atoi (s : string) : Z :=
  let '(neg, body) :=
    match s with
    | String c s' =>
        if Ascii.eqb c "-"%char then (true, s')
        else if Ascii.eqb c "+"%char then (false, s')
        else (false, s)
    | EmptyString => (false, s)
    end in
  match body with
  | EmptyString => 0%Z
  | _ =>
      if all_digits body then
        let v := digits_val 0 body in
        if neg then (if (v <=? 2 ^ 63)%Z then (- v)%Z else minInt)
        else (if (v <=? maxInt)%Z then v else maxInt)
      else 0%Z
  end.

End GoString.
Import GoString.

Module GoSlice.
Section Slices.
Variable A : Type.

(** [a[i]]; panics when [i >= len(a)]. *)
Definition index (a : list A) (i : nat) : result A :=
  match nth_error a i with
  | Some x => Ok x
  | None => Panic IndexOutOfRange
  end.

(** [a[lo:]]; panics when [lo > len(a)]. *)
Definition from (a : list A) (lo : nat) : result (list A) :=
  if (lo <=? List.length a)%nat then Ok (skipn lo a)
  else Panic SliceBoundsOutOfRange.

(** [a[lo:hi]]; panics unless [lo <= hi <= len(a)]. *)
Definition sub (a : list A) (lo hi : nat) : result (list A) :=
  if ((lo <=? hi) && (hi <=? List.length a))%nat
  then Ok (firstn (hi - lo) (skipn lo a))
  else Panic SliceBoundsOutOfRange.
End Slices.
Arguments index {A} a i.
Arguments from {A} a lo.
Arguments sub {A} a lo hi.
End GoSlice.

(** The part of a slice between two positions, where no panic is at stake. *)
Definition segment {A : Type} (lo hi : nat) (a : list A) : list A :=
  firstn (hi - lo) (skipn lo a).

(** The positions at which consecutive slices begin, the first at [pos]. *)
Fixpoint starts {A : Type} (pos : nat) (slices : list (list A)) : list nat :=
  match slices with
  | [] => []
  | sl :: slices' => pos :: starts (pos + List.length sl) slices'
  end.

(** ** Go regular expressions

    The sources use [regexp] patterns built from literals, the classes
    [\d], [\w], [\s] and bracket sets, concatenation, alternation, [?],
    counted repetition [{n}], capture groups and the anchors [^] and [$].
    Go's matcher returns the leftmost match and, among those, the one a
    backtracking search finds first; [run] is that search, written in
    continuation-passing style. *)

Module Regexp.

Inductive regex : Type :=
| Eps
| Chr (c : ascii)
| Cls (p : ascii -> bool)
| Cat (r1 r2 : regex)
| Alt (r1 r2 : regex)
| Opt (r : regex)
| Times (n : nat) (r : regex)
| Group (i : nat) (r : regex)
| Bol
| Eol.

(** Submatches: entry 0 is the whole match, entry [i] is group [i]; a group
    that took no part in the match is the empty string. *)
Definition submatches : Type := list string.

Fixpoint set_nth (i : nat) (v : string) (l : submatches) : submatches :=
  match i, l with
  | O, _ :: l' => v :: l'
  | S i', x :: l' => x :: set_nth i' v l'
  | _, [] => []
  end.

Fixpoint run (r : regex) (pos : nat) (s : string) (c : submatches)
    (k : nat -> string -> submatches -> option submatches)
    : option submatches :=
  match r with
  | Eps => k pos s c
  | Chr a =>
      match s with
      | String b s' => if Ascii.eqb a b then k (S pos) s' c else None
      | EmptyString => None
      end
  | Cls p =>
      match s with
      | String b s' => if p b then k (S pos) s' c else None
      | EmptyString => None
      end
  | Cat r1 r2 => run r1 pos s c (fun pos' s' c' => run r2 pos' s' c' k)
  | Alt r1 r2 =>
      match run r1 pos s c k with
      | Some res => Some res
      | None => run r2 pos s c k
      end
  | Opt r1 =>
      match run r1 pos s c k with
      | Some res => Some res
      | None => k pos s c
      end
  | Times n r1 =>
      (fix rep (n : nat) (pos : nat) (s : string) (c : submatches) :=
         match n with
         | O => k pos s c
         | S n' => run r1 pos s c (fun pos' s' c' => rep n' pos' s' c')
         end) n pos s c
  | Group i r1 =>
      run r1 pos s c
        (fun pos' s' c' => k pos' s' (set_nth i (take (pos' - pos) s) c'))
  | Bol => if (pos =? 0)%nat then k pos s c else None
  | Eol =>
      match s with
      | EmptyString => k pos s c
      | String _ _ => None
      end
  end.

Fixpoint groups (r : regex) : nat :=
  match r with
  | Cat r1 r2 | Alt r1 r2 => Nat.max (groups r1) (groups r2)
  | Opt r1 | Times _ r1 => groups r1
  | Group i r1 => Nat.max i (groups r1)
  | _ => O
  end.

Fixpoint search (r : regex) (pos : nat) (s : string) : option submatches :=
  match
    run r pos s (repeat EmptyString (S (groups r)))
      (fun pos' _ c => Some (set_nth 0 (take (pos' - pos) s) c))
  with
  | Some c => Some c
  | None =>
      match s with
      | EmptyString => None
      | String _ s' => search r (S pos) s'
      end
  end.

(** [regex.FindStringSubmatch(s)]; [None] is Go's [nil]. *)
Definition FindStringSubmatch (r : regex) (s : string) : option submatches :=
  search r 0 s.

(** [regexp.MatchString(pattern, s)] for a pattern that compiles. *)
Definition MatchString (r : regex) (s : string) : bool :=
  match FindStringSubmatch r s with Some _ => true | None => false end.

(** [matches[i]] for a group [i] of the pattern. *)
Definition sub (m : submatches) (i : nat) : string := nth i m EmptyString.

Fixpoint Lit (s : string) : regex :=
  match s with
  | EmptyString => Eps
  | String c EmptyString => Chr c
  | String c s' => Cat (Chr c) (Lit s')
  end.

Definition d : regex := Cls is_digit.
Definition w : regex := Cls is_word.
Definition sp : regex := Cls is_space.
(** A bracket set [[...]] listing its members. *)
Definition OneOf (members : string) : regex :=
  Cls (fun c => existsb (Ascii.eqb c) (list_ascii_of_string members)).

(** Concatenation and alternation of several expressions, in order. *)
Fixpoint seq (rs : list regex) : regex :=
  match rs with
  | [] => Eps
  | [r] => r
  | r :: rs' => Cat r (seq rs')
  end.

Fixpoint alt (rs : list regex) : regex :=
  match rs with
  | [] => Cls (fun _ => false)
  | [r] => r
  | r :: rs' => Alt r (alt rs')
  end.

End Regexp.
Import Regexp.

(** ** Package [wind] *)

Module wind.

Definition MPS : string := "MPS".
Definition KT : string := "KT".
Definition KPH : string := "KPH".
Definition KMH : string := "KMH".

Record Wind : Type := mkWind {
  WindDirection : Z;
  Speed : Z;
  GustsSpeed : Z;
  Variable_ : bool;
  VariableFrom : Z;
  VariableTo : Z;
  Above50MPS : bool;
  SpeedNotDefined : bool;
  DirectionNotDefined : bool;
  unit : string
}.

(** The zero value [Wind{}]. *)
Definition zero : Wind :=
  mkWind 0 0 0 false 0 0 false false false EmptyString.

(** [^(\d{3}|VRB|///)(P)?(\d{2}|//)(G\d\d)?(MPS|KT|KPH|KMH)\s?(\d{3}V\d{3})?] *)
Definition rx : regex :=
  seq [ Bol;
        Group 1 (alt [Times 3 d; Lit "VRB"; Lit "///"]);
        Opt (Group 2 (Lit "P"));
        Group 3 (alt [Times 2 d; Lit "//"]);
        Opt (Group 4 (seq [Lit "G"; d; d]));
        Group 5 (alt [Lit MPS; Lit KT; Lit KPH; Lit KMH]);
        Opt sp;
        Opt (Group 6 (seq [Times 3 d; Lit "V"; Times 3 d])) ].

(** [func (w *Wind) ParseWind(token string) (tokensused int)];
    [matches[1]] of the [nil] that [FindStringSubmatch] gives for no match
    would be out of range. *)
Definition ParseWind (w : Wind) (token : string) : result (Wind * nat) :=
  if negb (MatchString rx token) then Ok (w, 0%nat)
  else
  let tokensused := 1%nat in
  match FindStringSubmatch rx token with
  | None => Panic IndexOutOfRange
  | Some matches =>
      let variable := String.eqb (sub matches 1) "VRB" in
      let dirnd := String.eqb (sub matches 1) "///" in
      let dir :=
        if negb variable && negb dirnd then Atoi (sub matches 1)
        else WindDirection w in
      let above := negb (String.eqb (sub matches 2) EmptyString) in
      let speednd := String.eqb (sub matches 3) "//" in
      let speed :=
        if negb (String.eqb (sub matches 3) EmptyString) && negb speednd
        then Atoi (sub matches 3) else Speed w in
      gusts <-
        (if negb (String.eqb (sub matches 4) EmptyString)
         then (g <- slice_from (sub matches 4) 1 ;; Ok (Atoi g))
         else Ok (GustsSpeed w)) ;;
      let u := sub matches 5 in
      (* Two tokens have been used *)
      if negb (String.eqb (sub matches 6) EmptyString) then
        vf <- slice (sub matches 6) 0 3 ;;
        vt <- slice_from (sub matches 6) 4 ;;
        Ok (mkWind dir speed gusts variable (Atoi vf) (Atoi vt)
              above speednd dirnd u, S tokensused)
      else
        Ok (mkWind dir speed gusts variable (VariableFrom w) (VariableTo w)
              above speednd dirnd u, tokensused)
  end.

End wind.

(** ** Package [clouds] *)

Module clouds.

Definition FEW : string := "FEW".
Definition SCT : string := "SCT".
Definition BKN : string := "BKN".
Definition OVC : string := "OVC".
Definition NSC : string := "NSC".
Definition NCD : string := "NCD".
Definition SKC : string := "SKC".
Definition CLR : string := "CLR".
Definition NotDefined : string := "///".

Record Cloud : Type := mkCloud {
  Type_ : string;
  Height : Z;
  HeightNotDefined : bool;
  Cumulonimbus : bool;
  ToweringCumulus : bool;
  CBNotDefined : bool
}.

Definition Clouds : Type := list Cloud.

(** [^(FEW|SCT|BKN|OVC|NSC|SKC|NCD|CLR|///)(\\d{3}|///)?(TCU|CB|///)?] *)
Definition pattern : regex :=
  seq [ Bol;
        Group 1 (alt [Lit FEW; Lit SCT; Lit BKN; Lit OVC; Lit NSC; Lit SKC;
                      Lit NCD; Lit CLR; Lit NotDefined]);
        Opt (Group 2 (alt [Times 3 d; Lit "///"]));
        Opt (Group 3 (alt [Lit "TCU"; Lit "CB"; Lit "///"])) ].

(** [func ParseCloud(token string) (cl Cloud, ok bool)]; the source asks
    [regexp.MatchString] first and [FindStringSubmatch] next, for the
    same pattern and token. *)
Definition ParseCloud (token : string) : Cloud * bool :=
  match FindStringSubmatch pattern token with
  | None => (mkCloud EmptyString 0 false false false false, false)
  | Some matches =>
      let ty := sub matches 1 in
      if String.eqb ty NSC || String.eqb ty NCD || String.eqb ty CLR
         || String.eqb ty SKC
      then (mkCloud ty 0 false false false false, true) (* no clouds *)
      else
        let defined :=
          negb (String.eqb (sub matches 2) "///")
          && negb (String.eqb (sub matches 2) EmptyString) in
        (mkCloud ty
           (if defined then Atoi (sub matches 2) else 0%Z)
           (negb defined)
           (String.eqb (sub matches 3) "CB")
           (String.eqb (sub matches 3) "TCU")
           (String.eqb (sub matches 3) "///"),
         true)
  end.

(** [func (m *Clouds) AppendCloud(input string) bool] *)
Definition AppendCloud (m : Clouds) (input : string) : Clouds * bool :=
  let '(cl, ok) := ParseCloud input in
  if ok then (m ++ [cl], true) else (m, false).

(** [func (cl Cloud) HeightFt() int] *)
Definition HeightFt (cl : Cloud) : Z := (Height cl * 100)%Z.

End clouds.

(** ** The part of Go's [time] package the decoder uses

    An instant is kept by its UTC calendar fields. Every layout of the
    sources stops at the hour or the minute, so seconds and below are always
    zero and are left out. *)

Module time.

Record Time : Type := mkTime {
  Year : Z;
  Month : Z;
  Day : Z;
  Hour : Z;
  Minute : Z
}.

(** [time.Time{}]: January 1, year 1, 00:00 UTC. *)
Definition zero : Time := mkTime 1 1 1 0 0.

Definition eqb (a b : Time) : bool :=
  ((Year a =? Year b) && (Month a =? Month b) && (Day a =? Day b)
   && (Hour a =? Hour b) && (Minute a =? Minute b))%Z.

(** [t.IsZero()] *)
Definition IsZero (t : Time) : bool := eqb t zero.

Definition isLeap (year : Z) : bool :=
  ((year mod 4 =? 0) && (negb (year mod 100 =? 0) || (year mod 400 =? 0)))%Z.

Definition daysIn (month year : Z) : Z :=
  if (month =? 2)%Z then (if isLeap year then 29 else 28)%Z
  else if ((month =? 4) || (month =? 6) || (month =? 9) || (month =? 11))%Z
       then 30%Z else 31%Z.

(** [t.Add(time.Hour)] *)
Definition AddHour (t : Time) : Time :=
  if (Hour t <? 23)%Z
  then mkTime (Year t) (Month t) (Day t) (Hour t + 1) (Minute t)
  else if (Day t <? daysIn (Month t) (Year t))%Z
  then mkTime (Year t) (Month t) (Day t + 1) 0 (Minute t)
  else if (Month t <? 12)%Z
  then mkTime (Year t) (Month t + 1) 1 0 (Minute t)
  else mkTime (Year t + 1) 1 1 0 (Minute t).

(** [t.AddDate(0, 1, 0)]: [Date(year, month+1, day, ...)] normalised, so
    that a day past the end of the target month runs over into the month
    after it (October 31 plus one month is December 1). *)
Definition AddMonth (t : Time) : Time :=
  let '(y, m) := if (Month t <? 12)%Z then (Year t, Month t + 1)%Z
                 else (Year t + 1, 1)%Z in
  if (Day t <=? daysIn m y)%Z then mkTime y m (Day t) (Hour t) (Minute t)
  else mkTime y (m + 1) (Day t - daysIn m y) (Hour t) (Minute t).

Inductive ParseError : Type :=
| errBad (elem : string)    (* the value does not fit the layout element *)
| errRange (what : string)  (* month, day, hour or minute out of range *)
| errExtraText.             (* text is left after the layout is used up *)

(** The layout chunks that occur in the sources' layouts. *)
Inductive chunk : Type :=
| stdLongYear      (* 2006 *)
| stdZeroMonth     (* 01 *)
| stdZeroDay       (* 02 *)
| stdHour          (* 15 *)
| stdZeroMinute    (* 04 *)
| literal (c : ascii).

Definition layout_2006010215 : list chunk :=
  [stdLongYear; stdZeroMonth; stdZeroDay; stdHour].
Definition layout_2006010215Z : list chunk :=
  [stdLongYear; stdZeroMonth; stdZeroDay; stdHour; literal "Z"].
Definition layout_200601021504 : list chunk :=
  [stdLongYear; stdZeroMonth; stdZeroDay; stdHour; stdZeroMinute].
Definition layout_200601021504Z : list chunk :=
  [stdLongYear; stdZeroMonth; stdZeroDay; stdHour; stdZeroMinute;
   literal "Z"].

(** [getnum(s, fixed)]: one or two leading digits, exactly two when
    [fixed]. *)
Definition getnum (s : string) (fixed : bool) : option (Z * string) :=
  match s with
  | String a rest =>
      if is_digit a then
        match rest with
        | String b rest' =>
            if is_digit b
            then Some (10 * digit_val a + digit_val b, rest')%Z
            else if fixed then None else Some (digit_val a, rest)
        | EmptyString => if fixed then None else Some (digit_val a, rest)
        end
      else None
  | EmptyString => None
  end.

(** The calendar fields read so far. *)
Record fields : Type := mkFields {
  f_year : Z; f_month : Z; f_day : Z; f_hour : Z; f_min : Z
}.

Fixpoint parse_chunks (layout : list chunk) (value : string) (f : fields)
    : fields + ParseError :=
  match layout with
  | [] =>
      match value with
      | EmptyString => inl f
      | String _ _ => inr errExtraText
      end
  | stdLongYear :: layout' =>
      if (4 <=? String.length value)%nat && all_digits (take 4 value)
      then parse_chunks layout' (drop 4 value)
             (mkFields (digits_val 0 (take 4 value)) (f_month f) (f_day f)
                (f_hour f) (f_min f))
      else inr (errBad "2006")
  | stdZeroMonth :: layout' =>
      match getnum value true with
      | None => inr (errBad "01")
      | Some (month, value') =>
          if ((month <=? 0) || (12 <? month))%Z then inr (errRange "month")
          else parse_chunks layout' value'
                 (mkFields (f_year f) month (f_day f) (f_hour f) (f_min f))
      end
  | stdZeroDay :: layout' =>
      match getnum value true with
      | None => inr (errBad "02")
      | Some (day, value') =>
          parse_chunks layout' value'
            (mkFields (f_year f) (f_month f) day (f_hour f) (f_min f))
      end
  | stdHour :: layout' =>
      match getnum value false with
      | None => inr (errBad "15")
      | Some (hour, value') =>
          if ((hour <? 0) || (24 <=? hour))%Z then inr (errRange "hour")
          else parse_chunks layout' value'
                 (mkFields (f_year f) (f_month f) (f_day f) hour (f_min f))
      end
  | stdZeroMinute :: layout' =>
      match getnum value true with
      | None => inr (errBad "04")
      | Some (min, value') =>
          if ((min <? 0) || (60 <=? min))%Z then inr (errRange "minute")
          else parse_chunks layout' value'
                 (mkFields (f_year f) (f_month f) (f_day f) (f_hour f) min)
      end
  | literal c :: layout' =>
      match value with
      | String c' value' =>
          if Ascii.eqb c c' then parse_chunks layout' value' f
          else inr (errBad (String c EmptyString))
      | EmptyString => inr (errBad (String c EmptyString))
      end
  end.

(** [time.Parse(layout, value)]: the instant and the error; the instant is
    [Time{}] when the error is set. *)
Definition Parse (layout : list chunk) (value : string)
    : Time * option ParseError :=
  match parse_chunks layout value (mkFields 0 1 1 0 0) with
  | inr e => (zero, Some e)
  | inl f =>
      if ((f_day f <? 1) || (daysIn (f_month f) (f_year f) <? f_day f))%Z
      then (zero, Some (errRange "day"))
      else (mkTime (f_year f) (f_month f) (f_day f) (f_hour f) (f_min f),
            None)
  end.

End time.

(** ** Collaborators outside the sources

    The field grammars of horizontal visibility, weather phenomena and
    runway groups, and the pressure conversion, live in packages that the
    sources import. The decoder only calls them; they are taken as
    parameters. A [Parse...] or [Append...] function returns the updated
    value with the Go result; a token count is a natural number. *)

Class Collaborators : Type := {
  (** [vis.Visibility] and [func (v *Visibility) ParseVisibility([]string) int] *)
  Visibility : Type;
  Visibility_zero : Visibility;
  vis_ParseVisibility : Visibility -> list string -> Visibility * nat;
  (** [ph.Phenomena], [AppendPhenomena(string) bool] and
      [AppendRecentPhenomena(string) bool] *)
  Phenomena : Type;
  Phenomena_zero : Phenomena;
  ph_AppendPhenomena : Phenomena -> string -> Phenomena * bool;
  ph_AppendRecentPhenomena : Phenomena -> string -> Phenomena * bool;
  (** [rwy.VisualRange] and [rwy.ParseVisualRange(string) (VisualRange, bool)] *)
  VisualRange : Type;
  rwy_ParseVisualRange : string -> VisualRange * bool;
  (** [rwy.State], the state [State{SNOCLO: true}] and
      [rwy.ParseState(string) (State, bool)] *)
  State : Type;
  State_SNOCLO : State;
  rwy_ParseState : string -> State * bool;
  (** [rwy.RunwayDesignator], the designator [RunwayDesignator{AllRunways: true}]
      and [rwy.NewRD(string) RunwayDesignator] *)
  RunwayDesignator : Type;
  RunwayDesignator_AllRunways : RunwayDesignator;
  rwy_NewRD : string -> RunwayDesignator;
  (** [int(cnv.InHgTohPa(x))] for the inches of mercury [x] written as the
      decimal [whole.frac] *)
  cnv_InHgTohPa : string -> string -> Z
}.

(** ** Package [metar]: the records *)

Module Trend.
Section Fields.
Context {C : Collaborators}.

(** [type Trend struct]: forecast of changes for a specified period *)
Record t : Type := mk {
  Type_ : string;
  Probability : Z;
  FM : time.Time;
  TL : time.Time;
  AT : time.Time;
  Visibility_ : Visibility;
  VerticalVisibility : Z;
  VerticalVisibilityNotDefined : bool;
  Wind : wind.Wind;
  CAVOK : bool;
  Phenomena_ : Phenomena;
  Clouds : clouds.Clouds
}.

Definition set_Type_ (v : string) (r : t) : t :=
  mk v (Probability r) (FM r) (TL r) (AT r) (Visibility_ r)
    (VerticalVisibility r) (VerticalVisibilityNotDefined r) (Wind r)
    (CAVOK r) (Phenomena_ r) (Clouds r).
Definition set_Probability (v : Z) (r : t) : t :=
  mk (Type_ r) v (FM r) (TL r) (AT r) (Visibility_ r) (VerticalVisibility
    r) (VerticalVisibilityNotDefined r) (Wind r) (CAVOK r) (Phenomena_ r)
    (Clouds r).
Definition set_FM (v : time.Time) (r : t) : t :=
  mk (Type_ r) (Probability r) v (TL r) (AT r) (Visibility_ r)
    (VerticalVisibility r) (VerticalVisibilityNotDefined r) (Wind r)
    (CAVOK r) (Phenomena_ r) (Clouds r).
Definition set_TL (v : time.Time) (r : t) : t :=
  mk (Type_ r) (Probability r) (FM r) v (AT r) (Visibility_ r)
    (VerticalVisibility r) (VerticalVisibilityNotDefined r) (Wind r)
    (CAVOK r) (Phenomena_ r) (Clouds r).
Definition set_AT (v : time.Time) (r : t) : t :=
  mk (Type_ r) (Probability r) (FM r) (TL r) v (Visibility_ r)
    (VerticalVisibility r) (VerticalVisibilityNotDefined r) (Wind r)
    (CAVOK r) (Phenomena_ r) (Clouds r).
Definition set_Visibility_ (v : Visibility) (r : t) : t :=
  mk (Type_ r) (Probability r) (FM r) (TL r) (AT r) v (VerticalVisibility
    r) (VerticalVisibilityNotDefined r) (Wind r) (CAVOK r) (Phenomena_ r)
    (Clouds r).
Definition set_VerticalVisibility (v : Z) (r : t) : t :=
  mk (Type_ r) (Probability r) (FM r) (TL r) (AT r) (Visibility_ r) v
    (VerticalVisibilityNotDefined r) (Wind r) (CAVOK r) (Phenomena_ r)
    (Clouds r).
Definition set_VerticalVisibilityNotDefined (v : bool) (r : t) : t :=
  mk (Type_ r) (Probability r) (FM r) (TL r) (AT r) (Visibility_ r)
    (VerticalVisibility r) v (Wind r) (CAVOK r) (Phenomena_ r) (Clouds r).
Definition set_Wind (v : wind.Wind) (r : t) : t :=
  mk (Type_ r) (Probability r) (FM r) (TL r) (AT r) (Visibility_ r)
    (VerticalVisibility r) (VerticalVisibilityNotDefined r) v (CAVOK r)
    (Phenomena_ r) (Clouds r).
Definition set_CAVOK (v : bool) (r : t) : t :=
  mk (Type_ r) (Probability r) (FM r) (TL r) (AT r) (Visibility_ r)
    (VerticalVisibility r) (VerticalVisibilityNotDefined r) (Wind r) v
    (Phenomena_ r) (Clouds r).
Definition set_Phenomena_ (v : Phenomena) (r : t) : t :=
  mk (Type_ r) (Probability r) (FM r) (TL r) (AT r) (Visibility_ r)
    (VerticalVisibility r) (VerticalVisibilityNotDefined r) (Wind r)
    (CAVOK r) v (Clouds r).
Definition set_Clouds (v : clouds.Clouds) (r : t) : t :=
  mk (Type_ r) (Probability r) (FM r) (TL r) (AT r) (Visibility_ r)
    (VerticalVisibility r) (VerticalVisibilityNotDefined r) (Wind r)
    (CAVOK r) (Phenomena_ r) v.

(** [&Trend{}] *)
Definition zero : t :=
  mk EmptyString 0 time.zero time.zero time.zero Visibility_zero 0 false
    wind.zero false Phenomena_zero [].
End Fields.
Arguments t {C}.
End Trend.

Module WindOnRWY.

(** [type WindOnRWY struct]: surface wind observations on the runways *)
Record t : Type := mk {
  Runway : string;
  Wind : wind.Wind
}.

Definition set_Runway (v : string) (r : t) : t :=
  mk v (Wind r).
Definition set_Wind (v : wind.Wind) (r : t) : t :=
  mk (Runway r) v.

Definition zero : t := mk EmptyString wind.zero.
End WindOnRWY.

Module Remark.

(** [type Remark struct]; the source spells the field [MTOBSC] with Cyrillic letters *)
Record t : Type := mk {
  WindOnRWY_ : list WindOnRWY.t;
  QBB : Z;
  MTOBSC : bool;
  MASTOBSC : bool;
  OBSTOBSC : bool;
  QFE : Z
}.

Definition set_WindOnRWY_ (v : list WindOnRWY.t) (r : t) : t :=
  mk v (QBB r) (MTOBSC r) (MASTOBSC r) (OBSTOBSC r) (QFE r).
Definition set_QBB (v : Z) (r : t) : t :=
  mk (WindOnRWY_ r) v (MTOBSC r) (MASTOBSC r) (OBSTOBSC r) (QFE r).
Definition set_MTOBSC (v : bool) (r : t) : t :=
  mk (WindOnRWY_ r) (QBB r) v (MASTOBSC r) (OBSTOBSC r) (QFE r).
Definition set_MASTOBSC (v : bool) (r : t) : t :=
  mk (WindOnRWY_ r) (QBB r) (MTOBSC r) v (OBSTOBSC r) (QFE r).
Definition set_OBSTOBSC (v : bool) (r : t) : t :=
  mk (WindOnRWY_ r) (QBB r) (MTOBSC r) (MASTOBSC r) v (QFE r).
Definition set_QFE (v : Z) (r : t) : t :=
  mk (WindOnRWY_ r) (QBB r) (MTOBSC r) (MASTOBSC r) (OBSTOBSC r) v.

Definition zero : t := mk [] 0 false false false 0.
End Remark.

Module MetarMessage.
Section Fields.
Context {C : Collaborators}.

(** [type MetarMessage struct] *)
Record t : Type := mk {
  RawData : string;
  COR : bool;
  Station : string;
  DateTime : time.Time;
  Auto : bool;
  NIL : bool;
  Wind : wind.Wind;
  CAVOK : bool;
  Visibility_ : Visibility;
  RWYvisibility : list VisualRange;
  Phenomena_ : Phenomena;
  PhenomenaNotDefined : bool;
  VerticalVisibility : Z;
  VerticalVisibilityNotDefined : bool;
  Clouds : clouds.Clouds;
  Temperature : Z;
  Dewpoint : Z;
  QNHhPa : Z;
  RecentPhenomena : Phenomena;
  RWYState : list State;
  WindShear : list RunwayDesignator;
  TREND : list Trend.t;
  NOSIG : bool;
  Remarks : option Remark.t;
  NotDecodedTokens : list string
}.

Definition set_RawData (v : string) (r : t) : t :=
  mk v (COR r) (Station r) (DateTime r) (Auto r) (NIL r) (Wind r) (CAVOK
    r) (Visibility_ r) (RWYvisibility r) (Phenomena_ r)
    (PhenomenaNotDefined r) (VerticalVisibility r)
    (VerticalVisibilityNotDefined r) (Clouds r) (Temperature r) (Dewpoint
    r) (QNHhPa r) (RecentPhenomena r) (RWYState r) (WindShear r) (TREND r)
    (NOSIG r) (Remarks r) (NotDecodedTokens r).
Definition set_COR (v : bool) (r : t) : t :=
  mk (RawData r) v (Station r) (DateTime r) (Auto r) (NIL r) (Wind r)
    (CAVOK r) (Visibility_ r) (RWYvisibility r) (Phenomena_ r)
    (PhenomenaNotDefined r) (VerticalVisibility r)
    (VerticalVisibilityNotDefined r) (Clouds r) (Temperature r) (Dewpoint
    r) (QNHhPa r) (RecentPhenomena r) (RWYState r) (WindShear r) (TREND r)
    (NOSIG r) (Remarks r) (NotDecodedTokens r).
Definition set_Station (v : string) (r : t) : t :=
  mk (RawData r) (COR r) v (DateTime r) (Auto r) (NIL r) (Wind r) (CAVOK
    r) (Visibility_ r) (RWYvisibility r) (Phenomena_ r)
    (PhenomenaNotDefined r) (VerticalVisibility r)
    (VerticalVisibilityNotDefined r) (Clouds r) (Temperature r) (Dewpoint
    r) (QNHhPa r) (RecentPhenomena r) (RWYState r) (WindShear r) (TREND r)
    (NOSIG r) (Remarks r) (NotDecodedTokens r).
Definition set_DateTime (v : time.Time) (r : t) : t :=
  mk (RawData r) (COR r) (Station r) v (Auto r) (NIL r) (Wind r) (CAVOK r)
    (Visibility_ r) (RWYvisibility r) (Phenomena_ r) (PhenomenaNotDefined
    r) (VerticalVisibility r) (VerticalVisibilityNotDefined r) (Clouds r)
    (Temperature r) (Dewpoint r) (QNHhPa r) (RecentPhenomena r) (RWYState
    r) (WindShear r) (TREND r) (NOSIG r) (Remarks r) (NotDecodedTokens r).
Definition set_Auto (v : bool) (r : t) : t :=
  mk (RawData r) (COR r) (Station r) (DateTime r) v (NIL r) (Wind r)
    (CAVOK r) (Visibility_ r) (RWYvisibility r) (Phenomena_ r)
    (PhenomenaNotDefined r) (VerticalVisibility r)
    (VerticalVisibilityNotDefined r) (Clouds r) (Temperature r) (Dewpoint
    r) (QNHhPa r) (RecentPhenomena r) (RWYState r) (WindShear r) (TREND r)
    (NOSIG r) (Remarks r) (NotDecodedTokens r).
Definition set_NIL (v : bool) (r : t) : t :=
  mk (RawData r) (COR r) (Station r) (DateTime r) (Auto r) v (Wind r)
    (CAVOK r) (Visibility_ r) (RWYvisibility r) (Phenomena_ r)
    (PhenomenaNotDefined r) (VerticalVisibility r)
    (VerticalVisibilityNotDefined r) (Clouds r) (Temperature r) (Dewpoint
    r) (QNHhPa r) (RecentPhenomena r) (RWYState r) (WindShear r) (TREND r)
    (NOSIG r) (Remarks r) (NotDecodedTokens r).
Definition set_Wind (v : wind.Wind) (r : t) : t :=
  mk (RawData r) (COR r) (Station r) (DateTime r) (Auto r) (NIL r) v
    (CAVOK r) (Visibility_ r) (RWYvisibility r) (Phenomena_ r)
    (PhenomenaNotDefined r) (VerticalVisibility r)
    (VerticalVisibilityNotDefined r) (Clouds r) (Temperature r) (Dewpoint
    r) (QNHhPa r) (RecentPhenomena r) (RWYState r) (WindShear r) (TREND r)
    (NOSIG r) (Remarks r) (NotDecodedTokens r).
Definition set_CAVOK (v : bool) (r : t) : t :=
  mk (RawData r) (COR r) (Station r) (DateTime r) (Auto r) (NIL r) (Wind
    r) v (Visibility_ r) (RWYvisibility r) (Phenomena_ r)
    (PhenomenaNotDefined r) (VerticalVisibility r)
    (VerticalVisibilityNotDefined r) (Clouds r) (Temperature r) (Dewpoint
    r) (QNHhPa r) (RecentPhenomena r) (RWYState r) (WindShear r) (TREND r)
    (NOSIG r) (Remarks r) (NotDecodedTokens r).
Definition set_Visibility_ (v : Visibility) (r : t) : t :=
  mk (RawData r) (COR r) (Station r) (DateTime r) (Auto r) (NIL r) (Wind
    r) (CAVOK r) v (RWYvisibility r) (Phenomena_ r) (PhenomenaNotDefined
    r) (VerticalVisibility r) (VerticalVisibilityNotDefined r) (Clouds r)
    (Temperature r) (Dewpoint r) (QNHhPa r) (RecentPhenomena r) (RWYState
    r) (WindShear r) (TREND r) (NOSIG r) (Remarks r) (NotDecodedTokens r).
Definition set_RWYvisibility (v : list VisualRange) (r : t) : t :=
  mk (RawData r) (COR r) (Station r) (DateTime r) (Auto r) (NIL r) (Wind
    r) (CAVOK r) (Visibility_ r) v (Phenomena_ r) (PhenomenaNotDefined r)
    (VerticalVisibility r) (VerticalVisibilityNotDefined r) (Clouds r)
    (Temperature r) (Dewpoint r) (QNHhPa r) (RecentPhenomena r) (RWYState
    r) (WindShear r) (TREND r) (NOSIG r) (Remarks r) (NotDecodedTokens r).
Definition set_Phenomena_ (v : Phenomena) (r : t) : t :=
  mk (RawData r) (COR r) (Station r) (DateTime r) (Auto r) (NIL r) (Wind
    r) (CAVOK r) (Visibility_ r) (RWYvisibility r) v (PhenomenaNotDefined
    r) (VerticalVisibility r) (VerticalVisibilityNotDefined r) (Clouds r)
    (Temperature r) (Dewpoint r) (QNHhPa r) (RecentPhenomena r) (RWYState
    r) (WindShear r) (TREND r) (NOSIG r) (Remarks r) (NotDecodedTokens r).
Definition set_PhenomenaNotDefined (v : bool) (r : t) : t :=
  mk (RawData r) (COR r) (Station r) (DateTime r) (Auto r) (NIL r) (Wind
    r) (CAVOK r) (Visibility_ r) (RWYvisibility r) (Phenomena_ r) v
    (VerticalVisibility r) (VerticalVisibilityNotDefined r) (Clouds r)
    (Temperature r) (Dewpoint r) (QNHhPa r) (RecentPhenomena r) (RWYState
    r) (WindShear r) (TREND r) (NOSIG r) (Remarks r) (NotDecodedTokens r).
Definition set_VerticalVisibility (v : Z) (r : t) : t :=
  mk (RawData r) (COR r) (Station r) (DateTime r) (Auto r) (NIL r) (Wind
    r) (CAVOK r) (Visibility_ r) (RWYvisibility r) (Phenomena_ r)
    (PhenomenaNotDefined r) v (VerticalVisibilityNotDefined r) (Clouds r)
    (Temperature r) (Dewpoint r) (QNHhPa r) (RecentPhenomena r) (RWYState
    r) (WindShear r) (TREND r) (NOSIG r) (Remarks r) (NotDecodedTokens r).
Definition set_VerticalVisibilityNotDefined (v : bool) (r : t) : t :=
  mk (RawData r) (COR r) (Station r) (DateTime r) (Auto r) (NIL r) (Wind
    r) (CAVOK r) (Visibility_ r) (RWYvisibility r) (Phenomena_ r)
    (PhenomenaNotDefined r) (VerticalVisibility r) v (Clouds r)
    (Temperature r) (Dewpoint r) (QNHhPa r) (RecentPhenomena r) (RWYState
    r) (WindShear r) (TREND r) (NOSIG r) (Remarks r) (NotDecodedTokens r).
Definition set_Clouds (v : clouds.Clouds) (r : t) : t :=
  mk (RawData r) (COR r) (Station r) (DateTime r) (Auto r) (NIL r) (Wind
    r) (CAVOK r) (Visibility_ r) (RWYvisibility r) (Phenomena_ r)
    (PhenomenaNotDefined r) (VerticalVisibility r)
    (VerticalVisibilityNotDefined r) v (Temperature r) (Dewpoint r)
    (QNHhPa r) (RecentPhenomena r) (RWYState r) (WindShear r) (TREND r)
    (NOSIG r) (Remarks r) (NotDecodedTokens r).
Definition set_Temperature (v : Z) (r : t) : t :=
  mk (RawData r) (COR r) (Station r) (DateTime r) (Auto r) (NIL r) (Wind
    r) (CAVOK r) (Visibility_ r) (RWYvisibility r) (Phenomena_ r)
    (PhenomenaNotDefined r) (VerticalVisibility r)
    (VerticalVisibilityNotDefined r) (Clouds r) v (Dewpoint r) (QNHhPa r)
    (RecentPhenomena r) (RWYState r) (WindShear r) (TREND r) (NOSIG r)
    (Remarks r) (NotDecodedTokens r).
Definition set_Dewpoint (v : Z) (r : t) : t :=
  mk (RawData r) (COR r) (Station r) (DateTime r) (Auto r) (NIL r) (Wind
    r) (CAVOK r) (Visibility_ r) (RWYvisibility r) (Phenomena_ r)
    (PhenomenaNotDefined r) (VerticalVisibility r)
    (VerticalVisibilityNotDefined r) (Clouds r) (Temperature r) v (QNHhPa
    r) (RecentPhenomena r) (RWYState r) (WindShear r) (TREND r) (NOSIG r)
    (Remarks r) (NotDecodedTokens r).
Definition set_QNHhPa (v : Z) (r : t) : t :=
  mk (RawData r) (COR r) (Station r) (DateTime r) (Auto r) (NIL r) (Wind
    r) (CAVOK r) (Visibility_ r) (RWYvisibility r) (Phenomena_ r)
    (PhenomenaNotDefined r) (VerticalVisibility r)
    (VerticalVisibilityNotDefined r) (Clouds r) (Temperature r) (Dewpoint
    r) v (RecentPhenomena r) (RWYState r) (WindShear r) (TREND r) (NOSIG
    r) (Remarks r) (NotDecodedTokens r).
Definition set_RecentPhenomena (v : Phenomena) (r : t) : t :=
  mk (RawData r) (COR r) (Station r) (DateTime r) (Auto r) (NIL r) (Wind
    r) (CAVOK r) (Visibility_ r) (RWYvisibility r) (Phenomena_ r)
    (PhenomenaNotDefined r) (VerticalVisibility r)
    (VerticalVisibilityNotDefined r) (Clouds r) (Temperature r) (Dewpoint
    r) (QNHhPa r) v (RWYState r) (WindShear r) (TREND r) (NOSIG r)
    (Remarks r) (NotDecodedTokens r).
Definition set_RWYState (v : list State) (r : t) : t :=
  mk (RawData r) (COR r) (Station r) (DateTime r) (Auto r) (NIL r) (Wind
    r) (CAVOK r) (Visibility_ r) (RWYvisibility r) (Phenomena_ r)
    (PhenomenaNotDefined r) (VerticalVisibility r)
    (VerticalVisibilityNotDefined r) (Clouds r) (Temperature r) (Dewpoint
    r) (QNHhPa r) (RecentPhenomena r) v (WindShear r) (TREND r) (NOSIG r)
    (Remarks r) (NotDecodedTokens r).
Definition set_WindShear (v : list RunwayDesignator) (r : t) : t :=
  mk (RawData r) (COR r) (Station r) (DateTime r) (Auto r) (NIL r) (Wind
    r) (CAVOK r) (Visibility_ r) (RWYvisibility r) (Phenomena_ r)
    (PhenomenaNotDefined r) (VerticalVisibility r)
    (VerticalVisibilityNotDefined r) (Clouds r) (Temperature r) (Dewpoint
    r) (QNHhPa r) (RecentPhenomena r) (RWYState r) v (TREND r) (NOSIG r)
    (Remarks r) (NotDecodedTokens r).
Definition set_TREND (v : list Trend.t) (r : t) : t :=
  mk (RawData r) (COR r) (Station r) (DateTime r) (Auto r) (NIL r) (Wind
    r) (CAVOK r) (Visibility_ r) (RWYvisibility r) (Phenomena_ r)
    (PhenomenaNotDefined r) (VerticalVisibility r)
    (VerticalVisibilityNotDefined r) (Clouds r) (Temperature r) (Dewpoint
    r) (QNHhPa r) (RecentPhenomena r) (RWYState r) (WindShear r) v (NOSIG
    r) (Remarks r) (NotDecodedTokens r).
Definition set_NOSIG (v : bool) (r : t) : t :=
  mk (RawData r) (COR r) (Station r) (DateTime r) (Auto r) (NIL r) (Wind
    r) (CAVOK r) (Visibility_ r) (RWYvisibility r) (Phenomena_ r)
    (PhenomenaNotDefined r) (VerticalVisibility r)
    (VerticalVisibilityNotDefined r) (Clouds r) (Temperature r) (Dewpoint
    r) (QNHhPa r) (RecentPhenomena r) (RWYState r) (WindShear r) (TREND r)
    v (Remarks r) (NotDecodedTokens r).
Definition set_Remarks (v : option Remark.t) (r : t) : t :=
  mk (RawData r) (COR r) (Station r) (DateTime r) (Auto r) (NIL r) (Wind
    r) (CAVOK r) (Visibility_ r) (RWYvisibility r) (Phenomena_ r)
    (PhenomenaNotDefined r) (VerticalVisibility r)
    (VerticalVisibilityNotDefined r) (Clouds r) (Temperature r) (Dewpoint
    r) (QNHhPa r) (RecentPhenomena r) (RWYState r) (WindShear r) (TREND r)
    (NOSIG r) v (NotDecodedTokens r).
Definition set_NotDecodedTokens (v : list string) (r : t) : t :=
  mk (RawData r) (COR r) (Station r) (DateTime r) (Auto r) (NIL r) (Wind
    r) (CAVOK r) (Visibility_ r) (RWYvisibility r) (Phenomena_ r)
    (PhenomenaNotDefined r) (VerticalVisibility r)
    (VerticalVisibilityNotDefined r) (Clouds r) (Temperature r) (Dewpoint
    r) (QNHhPa r) (RecentPhenomena r) (RWYState r) (WindShear r) (TREND r)
    (NOSIG r) (Remarks r) v.

(** [&MetarMessage{RawData: inputtext}] *)
Definition new (inputtext : string) : t :=
  mk inputtext false EmptyString time.zero false false wind.zero false
    Visibility_zero [] Phenomena_zero false 0 false [] 0 0 0 Phenomena_zero
    [] [] [] false None [].
End Fields.
Arguments t {C}.
End MetarMessage.

Module TemperatureForecast.

(** [type TemperatureForecast struct] *)
Record t : Type := mk {
  Temp : Z;
  DateTime : time.Time;
  IsMax : bool;
  IsMin : bool
}.

Definition set_Temp (v : Z) (r : t) : t :=
  mk v (DateTime r) (IsMax r) (IsMin r).
Definition set_DateTime (v : time.Time) (r : t) : t :=
  mk (Temp r) v (IsMax r) (IsMin r).
Definition set_IsMax (v : bool) (r : t) : t :=
  mk (Temp r) (DateTime r) v (IsMin r).
Definition set_IsMin (v : bool) (r : t) : t :=
  mk (Temp r) (DateTime r) (IsMax r) v.

End TemperatureForecast.

Module TAFMessage.
Section Fields.
Context {C : Collaborators}.

(** [type TAFMessage struct] *)
Record t : Type := mk {
  RawData : string;
  COR : bool;
  AMD : bool;
  NIL : bool;
  Station : string;
  DateTime : time.Time;
  ValidFrom : time.Time;
  ValidTo : time.Time;
  CNL : bool;
  Wind : wind.Wind;
  CAVOK : bool;
  Visibility_ : Visibility;
  Phenomena_ : Phenomena;
  VerticalVisibility : Z;
  Clouds : clouds.Clouds;
  Temperature : list TemperatureForecast.t;
  TREND : list Trend.t;
  NotDecodedTokens : list string
}.

Definition set_RawData (v : string) (r : t) : t :=
  mk v (COR r) (AMD r) (NIL r) (Station r) (DateTime r) (ValidFrom r)
    (ValidTo r) (CNL r) (Wind r) (CAVOK r) (Visibility_ r) (Phenomena_ r)
    (VerticalVisibility r) (Clouds r) (Temperature r) (TREND r)
    (NotDecodedTokens r).
Definition set_COR (v : bool) (r : t) : t :=
  mk (RawData r) v (AMD r) (NIL r) (Station r) (DateTime r) (ValidFrom r)
    (ValidTo r) (CNL r) (Wind r) (CAVOK r) (Visibility_ r) (Phenomena_ r)
    (VerticalVisibility r) (Clouds r) (Temperature r) (TREND r)
    (NotDecodedTokens r).
Definition set_AMD (v : bool) (r : t) : t :=
  mk (RawData r) (COR r) v (NIL r) (Station r) (DateTime r) (ValidFrom r)
    (ValidTo r) (CNL r) (Wind r) (CAVOK r) (Visibility_ r) (Phenomena_ r)
    (VerticalVisibility r) (Clouds r) (Temperature r) (TREND r)
    (NotDecodedTokens r).
Definition set_NIL (v : bool) (r : t) : t :=
  mk (RawData r) (COR r) (AMD r) v (Station r) (DateTime r) (ValidFrom r)
    (ValidTo r) (CNL r) (Wind r) (CAVOK r) (Visibility_ r) (Phenomena_ r)
    (VerticalVisibility r) (Clouds r) (Temperature r) (TREND r)
    (NotDecodedTokens r).
Definition set_Station (v : string) (r : t) : t :=
  mk (RawData r) (COR r) (AMD r) (NIL r) v (DateTime r) (ValidFrom r)
    (ValidTo r) (CNL r) (Wind r) (CAVOK r) (Visibility_ r) (Phenomena_ r)
    (VerticalVisibility r) (Clouds r) (Temperature r) (TREND r)
    (NotDecodedTokens r).
Definition set_DateTime (v : time.Time) (r : t) : t :=
  mk (RawData r) (COR r) (AMD r) (NIL r) (Station r) v (ValidFrom r)
    (ValidTo r) (CNL r) (Wind r) (CAVOK r) (Visibility_ r) (Phenomena_ r)
    (VerticalVisibility r) (Clouds r) (Temperature r) (TREND r)
    (NotDecodedTokens r).
Definition set_ValidFrom (v : time.Time) (r : t) : t :=
  mk (RawData r) (COR r) (AMD r) (NIL r) (Station r) (DateTime r) v
    (ValidTo r) (CNL r) (Wind r) (CAVOK r) (Visibility_ r) (Phenomena_ r)
    (VerticalVisibility r) (Clouds r) (Temperature r) (TREND r)
    (NotDecodedTokens r).
Definition set_ValidTo (v : time.Time) (r : t) : t :=
  mk (RawData r) (COR r) (AMD r) (NIL r) (Station r) (DateTime r)
    (ValidFrom r) v (CNL r) (Wind r) (CAVOK r) (Visibility_ r) (Phenomena_
    r) (VerticalVisibility r) (Clouds r) (Temperature r) (TREND r)
    (NotDecodedTokens r).
Definition set_CNL (v : bool) (r : t) : t :=
  mk (RawData r) (COR r) (AMD r) (NIL r) (Station r) (DateTime r)
    (ValidFrom r) (ValidTo r) v (Wind r) (CAVOK r) (Visibility_ r)
    (Phenomena_ r) (VerticalVisibility r) (Clouds r) (Temperature r)
    (TREND r) (NotDecodedTokens r).
Definition set_Wind (v : wind.Wind) (r : t) : t :=
  mk (RawData r) (COR r) (AMD r) (NIL r) (Station r) (DateTime r)
    (ValidFrom r) (ValidTo r) (CNL r) v (CAVOK r) (Visibility_ r)
    (Phenomena_ r) (VerticalVisibility r) (Clouds r) (Temperature r)
    (TREND r) (NotDecodedTokens r).
Definition set_CAVOK (v : bool) (r : t) : t :=
  mk (RawData r) (COR r) (AMD r) (NIL r) (Station r) (DateTime r)
    (ValidFrom r) (ValidTo r) (CNL r) (Wind r) v (Visibility_ r)
    (Phenomena_ r) (VerticalVisibility r) (Clouds r) (Temperature r)
    (TREND r) (NotDecodedTokens r).
Definition set_Visibility_ (v : Visibility) (r : t) : t :=
  mk (RawData r) (COR r) (AMD r) (NIL r) (Station r) (DateTime r)
    (ValidFrom r) (ValidTo r) (CNL r) (Wind r) (CAVOK r) v (Phenomena_ r)
    (VerticalVisibility r) (Clouds r) (Temperature r) (TREND r)
    (NotDecodedTokens r).
Definition set_Phenomena_ (v : Phenomena) (r : t) : t :=
  mk (RawData r) (COR r) (AMD r) (NIL r) (Station r) (DateTime r)
    (ValidFrom r) (ValidTo r) (CNL r) (Wind r) (CAVOK r) (Visibility_ r) v
    (VerticalVisibility r) (Clouds r) (Temperature r) (TREND r)
    (NotDecodedTokens r).
Definition set_VerticalVisibility (v : Z) (r : t) : t :=
  mk (RawData r) (COR r) (AMD r) (NIL r) (Station r) (DateTime r)
    (ValidFrom r) (ValidTo r) (CNL r) (Wind r) (CAVOK r) (Visibility_ r)
    (Phenomena_ r) v (Clouds r) (Temperature r) (TREND r)
    (NotDecodedTokens r).
Definition set_Clouds (v : clouds.Clouds) (r : t) : t :=
  mk (RawData r) (COR r) (AMD r) (NIL r) (Station r) (DateTime r)
    (ValidFrom r) (ValidTo r) (CNL r) (Wind r) (CAVOK r) (Visibility_ r)
    (Phenomena_ r) (VerticalVisibility r) v (Temperature r) (TREND r)
    (NotDecodedTokens r).
Definition set_Temperature (v : list TemperatureForecast.t) (r : t) : t :=
  mk (RawData r) (COR r) (AMD r) (NIL r) (Station r) (DateTime r)
    (ValidFrom r) (ValidTo r) (CNL r) (Wind r) (CAVOK r) (Visibility_ r)
    (Phenomena_ r) (VerticalVisibility r) (Clouds r) v (TREND r)
    (NotDecodedTokens r).
Definition set_TREND (v : list Trend.t) (r : t) : t :=
  mk (RawData r) (COR r) (AMD r) (NIL r) (Station r) (DateTime r)
    (ValidFrom r) (ValidTo r) (CNL r) (Wind r) (CAVOK r) (Visibility_ r)
    (Phenomena_ r) (VerticalVisibility r) (Clouds r) (Temperature r) v
    (NotDecodedTokens r).
Definition set_NotDecodedTokens (v : list string) (r : t) : t :=
  mk (RawData r) (COR r) (AMD r) (NIL r) (Station r) (DateTime r)
    (ValidFrom r) (ValidTo r) (CNL r) (Wind r) (CAVOK r) (Visibility_ r)
    (Phenomena_ r) (VerticalVisibility r) (Clouds r) (Temperature r)
    (TREND r) v.

(** [&TAFMessage{RawData: inputtext}] *)
Definition new (inputtext : string) : t :=
  mk inputtext false false false EmptyString time.zero time.zero time.zero
    false wind.zero false Visibility_zero Phenomena_zero 0 [] [] [] [].
End Fields.
Arguments t {C}.
End TAFMessage.

(** ** Package [metar]: the decoder *)

(** [CurYearStr], [CurMonthStr], [CurDayStr]: the package variables holding
    the date every message is read in. [init] sets them from the clock and
    they can be redefined; the decoder only reads them. *)
Class Globals : Type := {
  CurYearStr : string;
  CurMonthStr : string;
  CurDayStr : string
}.

(** How one turn of a [for] body ends: by [return] or by reaching its end. *)
Inductive flow (R S : Type) : Type :=
| Return (r : R)
| Continue (s : S).
Arguments Return {R S} r.
Arguments Continue {R S} s.

(** [type weatherCondition interface] *)
Class weatherCondition (T : Type) : Type := {
  ParseVisibility : T -> list string -> T * nat;
  AppendPhenomena : T -> string -> T * bool;
  setVerticalVisibility : T -> string -> T * bool;
  AppendCloud : T -> string -> T * bool
}.

(** [for count < len(tokens) && f(tokens[count]) { count++ }], where [rest]
    is [tokens[count:]]. *)
Fixpoint repeatWhile {T : Type} (f : T -> string -> T * bool) (t : T)
    (count : nat) (rest : list string) : T * nat :=
  match rest with
  | [] => (t, count)
  | tok :: rest' =>
      let '(t', ok) := f t tok in
      if ok then repeatWhile f t' (S count) rest' else (t', count)
  end.

(** [BECMG], [TEMPO], [FM] *)
Definition BECMG : string := "BECMG".
Definition TEMPO : string := "TEMPO".
Definition FM : string := "FM".

Section Decoder.
Context {C : Collaborators} {G : Globals}.

(** [func decodeWeatherCondition(t weatherCondition, count int, tokens []string) int] *)
Definition decodeWeatherCondition {T : Type} `{weatherCondition T}
    (t : T) (count : nat) (tokens : list string) : T * nat :=
  (* Horizontal visibility. *)
  let '(t, count) :=
    if (count <? List.length tokens)%nat then
      let '(t', n) := ParseVisibility t (skipn count tokens) in
      (t', (count + n)%nat)
    else (t, count) in
  (* Weather or NSW - no significant weather *)
  let '(t, count) := repeatWhile AppendPhenomena t count (skipn count tokens) in
  (* Vertical visibility *)
  let '(t, count) :=
    match nth_error tokens count with
    | Some tok =>
        let '(t', ok) := setVerticalVisibility t tok in
        if ok then (t', S count) else (t', count)
    | None => (t, count)
    end in
  (* Clouds. *)
  repeatWhile AppendCloud t count (skipn count tokens).

(** [VV(\\d{3}|///)] *)
Definition rxVerticalVisibility : regex :=
  seq [Lit "VV"; Group 1 (alt [Times 3 d; Lit "///"])].

(** [func parseVerticalVisibility(input string) (vv int, nd bool, ok bool)] *)
Definition parseVerticalVisibility (input : string) : Z * bool * bool :=
  match FindStringSubmatch rxVerticalVisibility input with
  | Some matches =>
      if negb (String.eqb (sub matches 0) EmptyString) then
        if negb (String.eqb (sub matches 1) "///")
        then ((Atoi (sub matches 1) * 100)%Z, false, true)
        else (0%Z, true, true)
      else (0%Z, false, false)
  | None => (0%Z, false, false)
  end.

(** *** [trend.go] *)

(** [func parseTime(input string) (t time.Time, err error)]: parses the
    transmitted string, taking into account that the number of hours can
    be 24. *)
Definition parseTime (input : string)
    : result (time.Time * option time.ParseError) :=
  hh <- slice_from input 2 ;;
  if String.eqb hh "24" then
    dd <- slice_to input 2 ;;
    let inputString := (dd ++ "23")%string in
    let '(t, err) :=
      time.Parse time.layout_2006010215
        (CurYearStr ++ CurMonthStr ++ inputString)%string in
    Ok (time.AddHour t, err)
  else
    Ok (time.Parse time.layout_2006010215
          (CurYearStr ++ CurMonthStr ++ input)%string).

(** [^(\\d{4})/(\\d{4})] *)
Definition rxDateTime : regex :=
  seq [Bol; Group 1 (Times 4 d); Lit "/"; Group 2 (Times 4 d)].

(** [func (trend *Trend) setDateTime(input string) (ok bool)]; the two
    [log.Println(err)] calls write to the process log and leave the trend
    as it is. *)
Definition setDateTime (trend : Trend.t) (input : string)
    : result (Trend.t * bool) :=
  match FindStringSubmatch rxDateTime input with
  | Some matches =>
      if negb (String.eqb (sub matches 0) EmptyString) then
        let ok := true in
        '(t, err) <- parseTime (sub matches 1) ;;
        let '(trend, ok) :=
          match err with
          | None => (Trend.set_FM t trend, ok)
          | Some _ => (trend, false)
          end in
        '(t, err) <- parseTime (sub matches 2) ;;
        match err with
        | None => Ok (Trend.set_TL t trend, ok)
        | Some _ => Ok (trend, false)
        end
      else Ok (trend, false)
  | None => Ok (trend, false)
  end.

(** [func (trend *Trend) setProbability(input string) bool] *)
Definition setProbability (trend : Trend.t) (input : string)
    : Trend.t * bool :=
  (* Other probability values are not allowed *)
  if String.eqb input "PROB30" then
    (Trend.set_Type_ TEMPO (Trend.set_Probability 30 trend), true)
  else if String.eqb input "PROB40" then
    (Trend.set_Probability 40 (Trend.set_Type_ TEMPO trend), true)
  else (trend, false).

(** [func (trend *Trend) setPeriodOfChanges(input string) bool]; a failed
    [time.Parse] is logged and the next prefix is tried. [input[2:]] is in
    bounds behind each prefix test. *)
Definition setPeriodOfChanges (trend : Trend.t) (input : string)
    : Trend.t * bool :=
  let today := (CurYearStr ++ CurMonthStr ++ CurDayStr)%string in
  let tryAT :=
    if HasPrefix input "AT" then
      match time.Parse time.layout_200601021504 (today ++ drop 2 input) with
      | (timeofaction, None) => Some (Trend.set_AT timeofaction trend)
      | (_, Some _) => None
      end
    else None in
  let tryFM :=
    if HasPrefix input "FM" then
      match time.Parse time.layout_200601021504 (today ++ drop 2 input) with
      | (timeofaction, None) => Some (Trend.set_FM timeofaction trend)
      | (_, Some _) => None
      end
    else None in
  let tryTL :=
    if HasPrefix input "TL" then
      let '(t, err) :=
        if String.eqb (drop 2 input) "2400" then
          let '(t, err) :=
            time.Parse time.layout_200601021504 (today ++ "2300") in
          (time.AddHour t, err)
        else time.Parse time.layout_200601021504 (today ++ drop 2 input) in
      match err with
      | None => Some (Trend.set_TL t trend)
      | Some _ => None
      end
    else None in
  match tryAT with
  | Some trend' => (trend', true)
  | None =>
      match tryFM with
      | Some trend' => (trend', true)
      | None =>
          match tryTL with
          | Some trend' => (trend', true)
          | None => (trend, false)
          end
      end
  end.

(** [func (trend *Trend) setTypeOfTrend(input string) bool] *)
Definition setTypeOfTrend (trend : Trend.t) (input : string)
    : Trend.t * bool :=
  if String.eqb input TEMPO || String.eqb input BECMG then
    (Trend.set_Type_ input trend, true)
  else if HasPrefix input "FM" then
    let '(t, _) :=
      time.Parse time.layout_200601021504
        (CurYearStr ++ CurMonthStr ++ drop 2 input)%string in
    (Trend.set_FM t (Trend.set_Type_ FM trend), true)
  else (trend, false).

(** [func (trend *Trend) setVerticalVisibility(input string) bool] *)
Definition Trend_setVerticalVisibility (trend : Trend.t) (input : string)
    : Trend.t * bool :=
  let '(vv, nd, ok) := parseVerticalVisibility input in
  if ok then
    (Trend.set_VerticalVisibilityNotDefined nd
       (Trend.set_VerticalVisibility vv trend), true)
  else (trend, false).

(** [Trend] satisfies [weatherCondition] through its embedded
    [v.Visibility], [ph.Phenomena] and [clouds.Clouds]. *)
#[export] Instance Trend_weatherCondition : weatherCondition Trend.t := {
  ParseVisibility trend input :=
    let '(v, n) := vis_ParseVisibility (Trend.Visibility_ trend) input in
    (Trend.set_Visibility_ v trend, n);
  AppendPhenomena trend input :=
    let '(p, ok) := ph_AppendPhenomena (Trend.Phenomena_ trend) input in
    (Trend.set_Phenomena_ p trend, ok);
  setVerticalVisibility := Trend_setVerticalVisibility;
  AppendCloud trend input :=
    let '(c, ok) := clouds.AppendCloud (Trend.Clouds trend) input in
    (Trend.set_Clouds c trend, ok)
}.

(** [for trend.setPeriodOfChanges(tokens[count]) { count++ }], where [rest]
    is [tokens[count:]]; the index is out of range once [rest] is used
    up. *)
Fixpoint periodsOfChanges (trend : Trend.t) (count : nat)
    (rest : list string) : result (Trend.t * nat) :=
  match rest with
  | [] => Panic IndexOutOfRange
  | tok :: rest' =>
      let '(trend', ok) := setPeriodOfChanges trend tok in
      if ok then periodsOfChanges trend' (S count) rest'
      else Ok (trend', count)
  end.

(** One turn of the [for] loop of [parseTrendData], without the loop's own
    [count++]. *)
Definition parseTrendData_body (trend : Trend.t) (count : nat)
    (tokens : list string) : result (flow Trend.t (Trend.t * nat)) :=
  (* PROB30 (40) *)
  tok <- GoSlice.index tokens count ;;
  let '(trend, ok) := setProbability trend tok in
  let count := if ok then S count else count in
  (* TEMPO, BECMG or FM *)
  tok <- GoSlice.index tokens count ;;
  let '(trend, ok) := setTypeOfTrend trend tok in
  let count := if ok then S count else count in
  (* AT, FM, TL used in METAR trends *)
  '(trend, count) <- periodsOfChanges trend count (skipn count tokens) ;;
  (* date/time for TAF *)
  tok <- GoSlice.index tokens count ;;
  '(trend, ok) <- setDateTime trend tok ;;
  let count := if ok then S count else count in
  (* Wind. Only the prevailing direction. *)
  tok <- GoSlice.index tokens count ;;
  '(w, tokensused) <- wind.ParseWind (Trend.Wind trend) tok ;;
  let trend := Trend.set_Wind w trend in
  let count := (count + tokensused)%nat in
  if (count <? List.length tokens)%nat
     && match nth_error tokens count with
        | Some tok => String.eqb tok "CAVOK"
        | None => false
        end
  then
    (* no data after CAVOK *)
    Ok (Return (Trend.set_CAVOK true trend))
  else
    Ok (Continue (decodeWeatherCondition trend count tokens)).

(** [for count := 0; count < len(tokens); count++ { ... }] *)
Fixpoint parseTrendData_loop (fuel : nat) (trend : Trend.t) (count : nat)
    (tokens : list string) : result Trend.t :=
  if (count <? List.length tokens)%nat then
    match fuel with
    | O => OutOfFuel
    | S fuel' =>
        step <- parseTrendData_body trend count tokens ;;
        match step with
        | Return trend' => Ok trend'
        | Continue (trend', count') =>
            parseTrendData_loop fuel' trend' (S count') tokens
        end
    end
  else Ok trend.

(** [func parseTrendData(tokens []string) (trend *Trend)]; the result is
    never [nil]. *)
Definition parseTrendData (tokens : list string) : result Trend.t :=
  parseTrendData_loop (List.length tokens) Trend.zero 0 tokens.

(** *** [remarks.go] *)

(** [^(R\\d{2}[LCR]?)/((\\d{3})?(VRB)?(\\d{2})?(G\\d\\d)?(MPS|KT))] *)
Definition rxWindOnRWY : regex :=
  seq [ Bol;
        Group 1 (seq [Lit "R"; Times 2 d; Opt (OneOf "LCR")]);
        Lit "/";
        Group 2 (seq [ Opt (Group 3 (Times 3 d));
                       Opt (Group 4 (Lit "VRB"));
                       Opt (Group 5 (Times 2 d));
                       Opt (Group 6 (seq [Lit "G"; d; d]));
                       Group 7 (alt [Lit "MPS"; Lit "KT"]) ]) ].

(** [for count < len(tokens)-1 && tokens[count+1] == "OBSC" { ... }], where
    [rest] is [tokens[count:]]. *)
Fixpoint obscurations (RMK : Remark.t) (count : nat) (rest : list string)
    : Remark.t * nat :=
  match rest with
  | tok :: next :: rest' =>
      if String.eqb next "OBSC" then
        let RMK :=
          if String.eqb tok "MT" then Remark.set_MTOBSC true RMK
          else if String.eqb tok "MAST" then Remark.set_MASTOBSC true RMK
          else if String.eqb tok "OBST" then Remark.set_OBSTOBSC true RMK
          else RMK in
        obscurations RMK (count + 2) rest'
      else (RMK, count)
  | _ => (RMK, count)
  end.

(** One turn of the [for] loop of [parseRemarks], up to and with the
    [count++] that ends its body. *)
Definition parseRemarks_body (RMK : Remark.t) (count : nat)
    (tokens : list string) : result (Remark.t * nat) :=
  (* Wind value on runway. Not documented, but used in URSS and UHMA *)
  tok <- GoSlice.index tokens count ;;
  '(RMK, count) <-
    match FindStringSubmatch rxWindOnRWY tok with
    | Some matches =>
        if negb (String.eqb (sub matches 0) EmptyString) then
          runway <- slice_from (sub matches 1) 1 ;;
          let input := sub matches 2 in
          input <-
            (if (count <? List.length tokens - 1)%nat
             then (next <- GoSlice.index tokens (count + 1) ;;
                   Ok (input ++ next)%string)
             else Ok input) ;;
          '(w, tokensused) <- wind.ParseWind wind.zero input ;;
          Ok (Remark.set_WindOnRWY_
                (Remark.WindOnRWY_ RMK ++ [WindOnRWY.mk runway w]) RMK,
              (count + tokensused)%nat)
        else Ok (RMK, count)
    | None => Ok (RMK, count)
    end ;;
  let '(RMK, count) :=
    match nth_error tokens count with
    | Some tok =>
        if HasPrefix tok "QBB"
        then (Remark.set_QBB (Atoi (drop 3 tok)) RMK, S count)
        else (RMK, count)
    | None => (RMK, count)
    end in
  let '(RMK, count) := obscurations RMK count (skipn count tokens) in
  (* may be QFE767/1022 (mmHg/hPa) *)
  '(RMK, count) <-
    match nth_error tokens count with
    | Some tok =>
        if HasPrefix tok "QFE"
        then (q <- slice tok 3 6 ;; Ok (Remark.set_QFE (Atoi q) RMK, S count))
        else Ok (RMK, count)
    | None => Ok (RMK, count)
    end ;;
  Ok (RMK, S count).

(** [for count := 0; count < len(tokens); { ... }] *)
Fixpoint parseRemarks_loop (fuel : nat) (RMK : Remark.t) (count : nat)
    (tokens : list string) : result Remark.t :=
  if (count <? List.length tokens)%nat then
    match fuel with
    | O => OutOfFuel
    | S fuel' =>
        '(RMK', count') <- parseRemarks_body RMK count tokens ;;
        parseRemarks_loop fuel' RMK' count' tokens
    end
  else Ok RMK.

(** [func parseRemarks(tokens []string) *Remark]; [None] is [nil]. *)
Definition parseRemarks (tokens : list string) : result (option Remark.t) :=
  match tokens with
  | [] => Ok None
  | _ =>
      RMK <- parseRemarks_loop (List.length tokens) Remark.zero 0 tokens ;;
      Ok (Some RMK)
  end.

(** *** [metar.go] *)

(** [type myRegexp struct { *regexp.Regexp }] with the names of its
    groups ([SubexpNames]; an unnamed group has the empty name). *)
Record myRegexp : Type := mkRegexp {
  Regexp_ : regex;
  SubexpNames : list string
}.

(** [func (r *myRegexp) FindStringSubmatchMap(s string) map[string]string];
    the map is kept as the list of its entries. *)
Definition FindStringSubmatchMap (r : myRegexp) (s : string)
    : list (string * string) :=
  match FindStringSubmatch (Regexp_ r) s with
  | None => []
  | Some match_ =>
      (* Ignore the whole regexp match and unnamed groups *)
      filter (fun kv => negb (String.eqb (fst kv) EmptyString))
        (tl (combine (SubexpNames r) match_))
  end.

(** [headermap[key]]: the empty string for a key that is not in the map. *)
Definition get (headermap : list (string * string)) (key : string) : string :=
  match find (fun kv => String.eqb (fst kv) key) headermap with
  | Some kv => snd kv
  | None => EmptyString
  end.

(** [^(?P<type>(METAR|SPECI)\\s)?(?P<cor>COR\\s)?(?P<station>\\w{4})\\s(?P<time>\\d{6}Z)(?P<auto>\\sAUTO)?(?P<nil>\\sNIL)?] *)
Definition metarHeaderRx : myRegexp :=
  mkRegexp
    (seq [ Bol;
           Opt (Group 1 (seq [Group 2 (alt [Lit "METAR"; Lit "SPECI"]); sp]));
           Opt (Group 3 (seq [Lit "COR"; sp]));
           Group 4 (Times 4 w);
           sp;
           Group 5 (seq [Times 6 d; Lit "Z"]);
           Opt (Group 6 (seq [sp; Lit "AUTO"]));
           Opt (Group 7 (seq [sp; Lit "NIL"])) ])
    [EmptyString; "type"; EmptyString; "cor"; "station"; "time"; "auto";
     "nil"].

(** [^(M)?(\\d{2})/(M)?(\\d{2})$] *)
Definition rxTemperature : regex :=
  seq [ Bol; Opt (Group 1 (Lit "M")); Group 2 (Times 2 d); Lit "/";
        Opt (Group 3 (Lit "M")); Group 4 (Times 2 d); Eol ].

(** [func (m *MetarMessage) setTemperature(input string) bool] *)
Definition setTemperature (m : MetarMessage.t) (input : string)
    : MetarMessage.t * bool :=
  match FindStringSubmatch rxTemperature input with
  | Some matches =>
      let temperature := Atoi (sub matches 2) in
      let dewpoint := Atoi (sub matches 4) in
      let temperature :=
        if String.eqb (sub matches 1) "M" then (- temperature)%Z
        else temperature in
      let dewpoint :=
        if String.eqb (sub matches 3) "M" then (- dewpoint)%Z
        else dewpoint in
      (MetarMessage.set_Dewpoint dewpoint
         (MetarMessage.set_Temperature temperature m), true)
  | None => (m, false)
  end.

(** [([Q|A])(\\d{4})] *)
Definition rxAltimetr : regex :=
  seq [Group 1 (OneOf "Q|A"); Group 2 (Times 4 d)].

(** [func (m *MetarMessage) setAltimetr(input string) bool] *)
Definition setAltimetr (m : MetarMessage.t) (input : string)
    : result (MetarMessage.t * bool) :=
  match FindStringSubmatch rxAltimetr input with
  | Some matches =>
      if String.eqb (sub matches 1) "A" then
        whole <- slice_to (sub matches 2) 2 ;;
        frac <- slice (sub matches 2) 2 4 ;;
        Ok (MetarMessage.set_QNHhPa (cnv_InHgTohPa whole frac) m, true)
      else
        Ok (MetarMessage.set_QNHhPa (Atoi (sub matches 2)) m, true)
  | None => Ok (m, false)
  end.

(** [func (m *MetarMessage) appendRunwayVisualRange(input string) bool] *)
Definition appendRunwayVisualRange (m : MetarMessage.t) (input : string)
    : MetarMessage.t * bool :=
  let '(RWYvis, ok) := rwy_ParseVisualRange input in
  if ok then
    (MetarMessage.set_RWYvisibility
       (MetarMessage.RWYvisibility m ++ [RWYvis]) m, true)
  else (m, false).

(** [func (m *MetarMessage) setVerticalVisibility(input string) bool] *)
Definition Metar_setVerticalVisibility (m : MetarMessage.t) (input : string)
    : MetarMessage.t * bool :=
  let '(vv, nd, ok) := parseVerticalVisibility input in
  if ok then
    (MetarMessage.set_VerticalVisibilityNotDefined nd
       (MetarMessage.set_VerticalVisibility vv m), true)
  else (m, false).

(** [func (m *MetarMessage) appendRunwayState(input string) bool] *)
Definition appendRunwayState (m : MetarMessage.t) (input : string)
    : MetarMessage.t * bool :=
  if String.eqb input "R/SNOCLO" then
    (MetarMessage.set_RWYState (MetarMessage.RWYState m ++ [State_SNOCLO]) m,
     true)
  else
    let '(rwc, ok) := rwy_ParseState input in
    if ok then
      (MetarMessage.set_RWYState (MetarMessage.RWYState m ++ [rwc]) m, true)
    else (m, false).

(** [^WS\\s((R\\d{2}[LCR]?)|(ALL\\sRWY))] *)
Definition rxWindShear : regex :=
  seq [ Bol; Lit "WS"; sp;
        Group 1 (alt [ Group 2 (seq [Lit "R"; Times 2 d; Opt (OneOf "LCR")]);
                       Group 3 (seq [Lit "ALL"; sp; Lit "RWY"]) ]) ].

(** The [for] loop of [appendWindShears]; its condition and its post
    statement both take the submatches of [strings.Join(tokens[count:], " ")]. *)
Fixpoint appendWindShears_loop (fuel : nat) (m : MetarMessage.t)
    (tokens : list string) (count : nat) (ok : bool) (tokensused : nat)
    : result (MetarMessage.t * bool * nat) :=
  rest <- GoSlice.from tokens count ;;
  match FindStringSubmatch rxWindShear (Join rest) with
  | None => Ok (m, ok, tokensused)
  | Some matches =>
      match fuel with
      | O => OutOfFuel
      | S fuel' =>
          let '(m, tokensused, count) :=
            if negb (String.eqb (sub matches 3) EmptyString) then
              (* WS ALL RWY *)
              (MetarMessage.set_WindShear
                 (MetarMessage.WindShear m ++ [RunwayDesignator_AllRunways]) m,
               (tokensused + 3)%nat, (count + 3)%nat)
            else (m, tokensused, count) in
          let '(m, tokensused, count) :=
            if negb (String.eqb (sub matches 2) EmptyString) then
              (* WS R03 *)
              (MetarMessage.set_WindShear
                 (MetarMessage.WindShear m ++ [rwy_NewRD (sub matches 1)]) m,
               (tokensused + 2)%nat, (count + 2)%nat)
            else (m, tokensused, count) in
          appendWindShears_loop fuel' m tokens count true tokensused
      end
  end.

(** [func (m *MetarMessage) appendWindShears(tokens []string, count int) (ok bool, tokensused int)] *)
Definition appendWindShears (m : MetarMessage.t) (tokens : list string)
    (count : nat) : result (MetarMessage.t * bool * nat) :=
  appendWindShears_loop (List.length tokens) m tokens count false 0.

(** [MetarMessage] satisfies [weatherCondition] through its embedded
    [vis.Visibility], [ph.Phenomena] and [clouds.Clouds]. *)
#[export] Instance Metar_weatherCondition : weatherCondition MetarMessage.t := {
  ParseVisibility m input :=
    let '(v, n) := vis_ParseVisibility (MetarMessage.Visibility_ m) input in
    (MetarMessage.set_Visibility_ v m, n);
  AppendPhenomena m input :=
    let '(p, ok) := ph_AppendPhenomena (MetarMessage.Phenomena_ m) input in
    (MetarMessage.set_Phenomena_ p m, ok);
  setVerticalVisibility := Metar_setVerticalVisibility;
  AppendCloud m input :=
    let '(c, ok) := clouds.AppendCloud (MetarMessage.Clouds m) input in
    (MetarMessage.set_Clouds c m, ok)
}.

(** [func setMetarWeatherCondition(m *MetarMessage, count int, tokens []string) int] *)
Definition setMetarWeatherCondition (m : MetarMessage.t) (count : nat)
    (tokens : list string) : result (MetarMessage.t * nat) :=
  (* Horizontal visibility *)
  rest <- GoSlice.from tokens count ;;
  let '(m, tokensused) := ParseVisibility m rest in
  let count := if (0 <? tokensused)%nat then (count + tokensused)%nat
               else count in
  (* Runway visual range *)
  let '(m, count) :=
    repeatWhile appendRunwayVisualRange m count (skipn count tokens) in
  (* Present Weather *)
  let '(m, count) :=
    match nth_error tokens count with
    | Some tok =>
        if String.eqb tok "//"
        then (MetarMessage.set_PhenomenaNotDefined true m, S count)
        else (m, count)
    | None => (m, count)
    end in
  let '(m, count) :=
    repeatWhile AppendPhenomena m count (skipn count tokens) in
  (* Vertical visibility *)
  let '(m, count) :=
    match nth_error tokens count with
    | Some tok =>
        let '(m', ok) := setVerticalVisibility m tok in
        if ok then (m', S count) else (m', count)
    | None => (m, count)
    end in
  (* Cloudiness description *)
  Ok (repeatWhile AppendCloud m count (skipn count tokens)).

(** [m.RecentPhenomena.AppendRecentPhenomena(tokens[count])] *)
Definition appendRecentPhenomena (m : MetarMessage.t) (input : string)
    : MetarMessage.t * bool :=
  let '(p, ok) :=
    ph_AppendRecentPhenomena (MetarMessage.RecentPhenomena m) input in
  (MetarMessage.set_RecentPhenomena p m, ok).

(** One turn of the [for] loop of [decodeMetar], from the surface wind to
    the state of the runways. *)
Definition decodeMetar_groups (m : MetarMessage.t) (count : nat)
    (tokens : list string) : result (MetarMessage.t * nat) :=
  (* Surface wind *)
  rest <- GoSlice.from tokens count ;;
  '(w, tokensused) <- wind.ParseWind (MetarMessage.Wind m) (Join rest) ;;
  let m := MetarMessage.set_Wind w m in
  let count := (count + tokensused)%nat in
  tok <- GoSlice.index tokens count ;;
  '(m, count) <-
    (if String.eqb tok "CAVOK"
     then Ok (MetarMessage.set_CAVOK true m, S count)
     else setMetarWeatherCondition m count tokens) ;;
  (* Temperature and dew point *)
  tok <- GoSlice.index tokens count ;;
  let '(m, ok) := setTemperature m tok in
  let count := if ok then S count else count in
  (* Altimeter setting *)
  tok <- GoSlice.index tokens count ;;
  '(m, ok) <- setAltimetr m tok ;;
  let count := if ok then S count else count in
  (* All the following elements are optional *)
  (* Recent weather *)
  let '(m, count) :=
    repeatWhile appendRecentPhenomena m count (skipn count tokens) in
  (* Wind shear *)
  '(m, ok, tokensused) <- appendWindShears m tokens count ;;
  let count := if ok then (count + tokensused)%nat else count in
  (* State of the runway(s) *)
  Ok (repeatWhile appendRunwayState m count (skipn count tokens)).

(** The end of a turn: the token is not recognized or is located in the
    wrong position. *)
Definition Metar_notDecoded (m : MetarMessage.t) (count : nat)
    (tokens : list string) : result (MetarMessage.t * nat) :=
  if (count <? List.length tokens)%nat then
    tok <- GoSlice.index tokens count ;;
    Ok (MetarMessage.set_NotDecodedTokens
          (MetarMessage.NotDecodedTokens m ++ [tok]) m, S count)
  else Ok (m, count).

(** One whole turn of the [for] loop of [decodeMetar]; [totalcount] is
    [len(tokens)]. *)
Definition decodeMetar_body (m : MetarMessage.t) (count : nat)
    (tokens : list string) : result (MetarMessage.t * nat) :=
  '(m, count) <- decodeMetar_groups m count tokens ;;
  Metar_notDecoded m count tokens.

(** [for count := 0; count < totalcount; { ... }] *)
Fixpoint decodeMetar_loop (fuel : nat) (m : MetarMessage.t) (count : nat)
    (tokens : list string) : result MetarMessage.t :=
  if (count <? List.length tokens)%nat then
    match fuel with
    | O => OutOfFuel
    | S fuel' =>
        '(m', count') <- decodeMetar_body m count tokens ;;
        decodeMetar_loop fuel' m' count' tokens
    end
  else Ok m.

(** [func (m *MetarMessage) decodeMetar(tokens []string)] *)
Definition decodeMetar (m : MetarMessage.t) (tokens : list string)
    : result MetarMessage.t :=
  last <- GoSlice.index tokens (List.length tokens - 1) ;;
  let '(m, tokens) :=
    if String.eqb last "NOSIG"
    then (MetarMessage.set_NOSIG true m, removelast tokens)
    else (m, tokens) in
  decodeMetar_loop (List.length tokens) m 0 tokens.

(** [func (m *MetarMessage) appendTrend(input []string)] *)
Definition appendTrend (m : MetarMessage.t) (input : list string)
    : result MetarMessage.t :=
  trend <- parseTrendData input ;;
  Ok (MetarMessage.set_TREND (MetarMessage.TREND m ++ [trend]) m).

(** [for _, trendstr := range trends { m.appendTrend(trendstr) }] *)
Fixpoint appendTrends (m : MetarMessage.t) (trends : list (list string))
    : result MetarMessage.t :=
  match trends with
  | [] => Ok m
  | trendstr :: trends' =>
      m' <- appendTrend m trendstr ;;
      appendTrends m' trends'
  end.

(** First loop of [NewMETAR]:
    [for i := totalcount - 1; i > count; i-- { if tokens[i] == "RMK" { ... } }].
    Inside the loop [i < totalcount <= len(tokens)], so [tokens[i]] and
    [tokens[i:totalcount]] are in bounds. *)
Fixpoint splitRemarks (tokens : list string) (count : nat) (i : nat)
    (remarks : list string) (totalcount : nat) : list string * nat :=
  match i with
  | O => (remarks, totalcount)
  | S i' =>
      if (count <? i)%nat then
        if String.eqb (nth i tokens EmptyString) "RMK"
        then splitRemarks tokens count i'
               (remarks ++ segment i totalcount tokens) i
        else splitRemarks tokens count i' remarks totalcount
      else (remarks, totalcount)
  end.

(** The test of the second loop of [NewMETAR]:
    [tokens[i] == TEMPO || tokens[i] == BECMG]. *)
Definition isMetarTrendStart (tok : string) : bool :=
  String.eqb tok TEMPO || String.eqb tok BECMG.

(** Second loop of [NewMETAR]:
    [for i := totalcount - 1; i > count; i-- { if tokens[i] == TEMPO || tokens[i] == BECMG { ... } }];
    a trend found is put in front of the trends found so far. *)
Fixpoint splitTrends (tokens : list string) (count : nat) (i : nat)
    (trends : list (list string)) (totalcount : nat)
    : list (list string) * nat :=
  match i with
  | O => (trends, totalcount)
  | S i' =>
      if (count <? i)%nat then
        if isMetarTrendStart (nth i tokens EmptyString)
        then splitTrends tokens count i'
               (segment i totalcount tokens :: trends) i
        else splitTrends tokens count i' trends totalcount
      else (trends, totalcount)
  end.

(** The two loops of [NewMETAR] that split the tokens into the main
    section, the remarks and the trends: the remarks, the trends and the
    end of the main section. *)
Definition Metar_split (tokens : list string) (count : nat)
    : list string * list (list string) * nat :=
  let totalcount := List.length tokens in
  (* First, let's remove the RMK group, as it can contain TEMPO *)
  let '(remarks, totalcount) :=
    splitRemarks tokens count (totalcount - 1) [] totalcount in
  let '(trends, totalcount) :=
    splitTrends tokens count (totalcount - 1) [] totalcount in
  (remarks, trends, totalcount).

(** [for _, value := range headermap { ... count++ }]: the number of
    entries with a value that is not empty. *)
Definition Metar_headerCount (headermap : list (string * string)) : nat :=
  List.length
    (filter (fun kv => negb (String.eqb (snd kv) EmptyString)) headermap).

(** [fmt.Errorf("not valid message in input")] *)
Definition notValidMessage : string := "not valid message in input".

(** The first statements of [NewMETAR]: the message with the fields of its
    header, and the header map. *)
Definition NewMETAR_header (inputtext : string)
    : MetarMessage.t * list (string * string) :=
  let m := MetarMessage.new inputtext in
  let headermap := FindStringSubmatchMap metarHeaderRx (MetarMessage.RawData m) in
  let m := MetarMessage.set_Station (get headermap "station") m in
  let m :=
    MetarMessage.set_DateTime
      (fst (time.Parse time.layout_200601021504Z
              (CurYearStr ++ CurMonthStr ++ get headermap "time")%string)) m in
  let m := MetarMessage.set_COR
             (negb (String.eqb (get headermap "cor") EmptyString)) m in
  let m := MetarMessage.set_Auto
             (negb (String.eqb (get headermap "auto") EmptyString)) m in
  let m := MetarMessage.set_NIL
             (negb (String.eqb (get headermap "nil") EmptyString)) m in
  (m, headermap).

(** The test [m.Station] empty [&& m.DateTime.IsZero()]. *)
Definition Metar_notValid (m : MetarMessage.t) : bool :=
  String.eqb (MetarMessage.Station m) EmptyString
  && time.IsZero (MetarMessage.DateTime m).

(** [func NewMETAR(inputtext string)], which returns a [*MetarMessage] and
    an [error]; the error is [None] for [nil]. *)
Definition NewMETAR (inputtext : string)
    : result (MetarMessage.t * option string) :=
  let '(m, headermap) := NewMETAR_header inputtext in
  if Metar_notValid m then Ok (m, Some notValidMessage)
  else if MetarMessage.NIL m then Ok (m, None)
  else
    let tokens := Split (MetarMessage.RawData m) in
    (* skip station info, date/time, etc. *)
    let count := Metar_headerCount headermap in
    (* split the array of tokens to parts: main section, remarks and trends *)
    let '(remarks, trends, totalcount) := Metar_split tokens count in
    (* trends *)
    m <- appendTrends m trends ;;
    (* remarks *)
    RMK <- parseRemarks remarks ;;
    let m := MetarMessage.set_Remarks RMK m in
    (* main section *)
    body <- GoSlice.sub tokens count totalcount ;;
    m <- decodeMetar m body ;;
    Ok (m, None).

(** [func (m *MetarMessage) RAW() string] *)
Definition Metar_RAW (m : MetarMessage.t) : string := MetarMessage.RawData m.

(** *** [taf.go] *)

(** [^(?P<taf>TAF\\s)?(?P<cor>COR\\s)?(?P<amd>AMD\\s)?(?P<station>\\w{4})\\s(?P<time>\\d{6}Z)(?P<nil>\\sNIL)?(\\s(?P<from>\\d{4})/(?P<to>\\d{4}))?(?P<cnl>\\sCNL)?] *)
Definition tafHeaderRx : myRegexp :=
  mkRegexp
    (seq [ Bol;
           Opt (Group 1 (seq [Lit "TAF"; sp]));
           Opt (Group 2 (seq [Lit "COR"; sp]));
           Opt (Group 3 (seq [Lit "AMD"; sp]));
           Group 4 (Times 4 w);
           sp;
           Group 5 (seq [Times 6 d; Lit "Z"]);
           Opt (Group 6 (seq [sp; Lit "NIL"]));
           Opt (Group 7 (seq [sp; Group 8 (Times 4 d); Lit "/";
                              Group 9 (Times 4 d)]));
           Opt (Group 10 (seq [sp; Lit "CNL"])) ])
    [EmptyString; "taf"; "cor"; "amd"; "station"; "time"; "nil";
     EmptyString; "from"; "to"; "cnl"].

(** [func (t *TAFMessage) setTimeRange(fromStr, toStr string)] *)
Definition setTimeRange (t : TAFMessage.t) (fromStr toStr : string)
    : result TAFMessage.t :=
  let t :=
    TAFMessage.set_ValidFrom
      (fst (time.Parse time.layout_2006010215
              (CurYearStr ++ CurMonthStr ++ fromStr)%string)) t in
  (* hours maybe 24 *)
  hh <- slice_from toStr 2 ;;
  t <-
    (if String.eqb hh "24" then
       dd <- slice_to toStr 2 ;;
       let validTo :=
         fst (time.Parse time.layout_2006010215
                (CurYearStr ++ CurMonthStr ++ dd ++ "23")%string) in
       Ok (TAFMessage.set_ValidTo (time.AddHour validTo) t)
     else
       Ok (TAFMessage.set_ValidTo
             (fst (time.Parse time.layout_2006010215
                     (CurYearStr ++ CurMonthStr ++ toStr)%string)) t)) ;;
  (* forecast for next month *)
  let t :=
    if (time.Day (TAFMessage.ValidFrom t) <? time.Day (TAFMessage.DateTime t))%Z
    then TAFMessage.set_ValidFrom (time.AddMonth (TAFMessage.ValidFrom t)) t
    else t in
  let t :=
    if (time.Day (TAFMessage.ValidTo t) <? time.Day (TAFMessage.DateTime t))%Z
    then TAFMessage.set_ValidTo (time.AddMonth (TAFMessage.ValidTo t)) t
    else t in
  Ok t.

(** [^T(X|N)(M)?(\\d\\d)\\/(\\d{4}Z)] *)
Definition rxTempForecast : regex :=
  seq [ Bol; Lit "T"; Group 1 (alt [Lit "X"; Lit "N"]);
        Opt (Group 2 (Lit "M")); Group 3 (seq [d; d]); Lit "/";
        Group 4 (seq [Times 4 d; Lit "Z"]) ].

(** [func (t *TAFMessage) addTempForecast(input string) bool]; group 4 of a
    match has five bytes, which keeps [matches[4][2:]] and
    [matches[4][:2]] in bounds. *)
Definition addTempForecast (t : TAFMessage.t) (input : string)
    : TAFMessage.t * bool :=
  match FindStringSubmatch rxTempForecast input with
  | Some matches =>
      let temp := Atoi (sub matches 3) in
      let temp := if String.eqb (sub matches 2) "M" then (- temp)%Z else temp in
      let isMin := String.eqb (sub matches 1) "N" in
      let isMax := String.eqb (sub matches 1) "X" in
      let dateTime :=
        if String.eqb (drop 2 (sub matches 4)) "24Z" then
          let inputString := (take 2 (sub matches 4) ++ "23")%string in
          time.AddHour
            (fst (time.Parse time.layout_2006010215
                    (CurYearStr ++ CurMonthStr ++ inputString)%string))
        else
          fst (time.Parse time.layout_2006010215Z
                 (CurYearStr ++ CurMonthStr ++ sub matches 4)%string) in
      (* if date in next month *)
      let dateTime :=
        if (time.Day dateTime <? time.Day (TAFMessage.DateTime t))%Z
        then time.AddMonth dateTime else dateTime in
      (TAFMessage.set_Temperature
         (TAFMessage.Temperature t
            ++ [TemperatureForecast.mk temp dateTime isMax isMin]) t,
       true)
  | None => (t, false)
  end.

(** [VV(\\d{3})] *)
Definition rxTafVerticalVisibility : regex :=
  seq [Lit "VV"; Group 1 (Times 3 d)].

(** [func (t *TAFMessage) setVerticalVisibility(input string) bool] *)
Definition TAF_setVerticalVisibility (t : TAFMessage.t) (input : string)
    : TAFMessage.t * bool :=
  match FindStringSubmatch rxTafVerticalVisibility input with
  | Some matches =>
      if negb (String.eqb (sub matches 1) EmptyString) then
        (TAFMessage.set_VerticalVisibility (Atoi (sub matches 1) * 100)%Z t,
         true)
      else (t, false)
  | None => (t, false)
  end.

(** [TAFMessage] satisfies [weatherCondition] through its embedded
    [v.Visibility], [ph.Phenomena] and [clouds.Clouds]. *)
#[export] Instance TAF_weatherCondition : weatherCondition TAFMessage.t := {
  ParseVisibility t input :=
    let '(v, n) := vis_ParseVisibility (TAFMessage.Visibility_ t) input in
    (TAFMessage.set_Visibility_ v t, n);
  AppendPhenomena t input :=
    let '(p, ok) := ph_AppendPhenomena (TAFMessage.Phenomena_ t) input in
    (TAFMessage.set_Phenomena_ p t, ok);
  setVerticalVisibility := TAF_setVerticalVisibility;
  AppendCloud t input :=
    let '(c, ok) := clouds.AppendCloud (TAFMessage.Clouds t) input in
    (TAFMessage.set_Clouds c t, ok)
}.

(** One turn of the [for] loop of [decodeTAF], from the surface wind to
    the temperature forecasts. *)
Definition decodeTAF_groups (t : TAFMessage.t) (count : nat)
    (tokens : list string) : result (TAFMessage.t * nat) :=
  (* Surface wind. Required element *)
  tok <- GoSlice.index tokens count ;;
  '(w, tokensused) <- wind.ParseWind (TAFMessage.Wind t) tok ;;
  let t := TAFMessage.set_Wind w t in
  let count := (count + tokensused)%nat in
  tok <- GoSlice.index tokens count ;;
  let '(t, count) :=
    if String.eqb tok "CAVOK"
    then (TAFMessage.set_CAVOK true t, S count)
    else decodeWeatherCondition t count tokens in
  (* Temperature *)
  Ok (repeatWhile addTempForecast t count (skipn count tokens)).

(** The end of a turn: the token is not recognized or is located in the
    wrong position. *)
Definition TAF_notDecoded (t : TAFMessage.t) (count : nat)
    (tokens : list string) : result (TAFMessage.t * nat) :=
  if (count <? List.length tokens)%nat then
    tok <- GoSlice.index tokens count ;;
    Ok (TAFMessage.set_NotDecodedTokens
          (TAFMessage.NotDecodedTokens t ++ [tok]) t, S count)
  else Ok (t, count).

(** One whole turn of the [for] loop of [decodeTAF]. *)
Definition decodeTAF_body (t : TAFMessage.t) (count : nat)
    (tokens : list string) : result (TAFMessage.t * nat) :=
  '(t, count) <- decodeTAF_groups t count tokens ;;
  TAF_notDecoded t count tokens.

(** [for count := 0; count < len(tokens); { ... }] *)
Fixpoint decodeTAF_loop (fuel : nat) (t : TAFMessage.t) (count : nat)
    (tokens : list string) : result TAFMessage.t :=
  if (count <? List.length tokens)%nat then
    match fuel with
    | O => OutOfFuel
    | S fuel' =>
        '(t', count') <- decodeTAF_body t count tokens ;;
        decodeTAF_loop fuel' t' count' tokens
    end
  else Ok t.

(** [func (t *TAFMessage) decodeTAF(tokens []string)] *)
Definition decodeTAF (t : TAFMessage.t) (tokens : list string)
    : result TAFMessage.t :=
  decodeTAF_loop (List.length tokens) t 0 tokens.

(** The test of the first [if] in the loop of [findTrendsInMessage]. *)
Definition isTrendStart (tok : string) : bool :=
  String.eqb tok TEMPO || String.eqb tok BECMG || HasPrefix tok "PROB"
  || HasPrefix tok "FM".

(** The body of the loop of [findTrendsInMessage] at index [i], with
    [0 < i < len(tokens)]: whether [i--] was run, and the new [trends] and
    [endposition]. *)
Definition findTrends_body (tokens : list string) (i : nat)
    (trends : list (list string)) (endposition : nat)
    : bool * list (list string) * nat :=
  let '(dec, i, trends, endposition) :=
    if isTrendStart (nth i tokens EmptyString) then
      let '(dec, i) :=
        if HasPrefix (nth (i - 1) tokens EmptyString) "PROB"
        then (true, (i - 1)%nat) else (false, i) in
      (dec, i, segment i endposition tokens :: trends, i)
    else (false, i, trends, endposition) in
  let trends :=
    if String.eqb (nth i tokens EmptyString) "RMK" then [] else trends in
  (dec, trends, endposition).

(** [for i := len(tokens) - 1; i > startposition; i-- { ... }]; after a
    turn that ran [i--] the loop goes on two places below. *)
Fixpoint findTrends_loop (tokens : list string) (startposition : nat)
    (i : nat) (trends : list (list string)) (endposition : nat)
    : list (list string) * nat :=
  match i with
  | O => (trends, endposition)
  | S i1 =>
      if (startposition <? i)%nat then
        let '(dec, trends, endposition) :=
          findTrends_body tokens i trends endposition in
        if dec then
          match i1 with
          | O => (trends, endposition)
          | S i2 => findTrends_loop tokens startposition i2 trends endposition
          end
        else findTrends_loop tokens startposition i1 trends endposition
      else (trends, endposition)
  end.

(** [for _, trendstr := range trends { ... t.TREND = append(t.TREND, *trend) }] *)
Fixpoint TAF_appendTrends (t : TAFMessage.t) (trends : list (list string))
    : result TAFMessage.t :=
  match trends with
  | [] => Ok t
  | trendstr :: trends' =>
      trend <- parseTrendData trendstr ;;
      TAF_appendTrends
        (TAFMessage.set_TREND (TAFMessage.TREND t ++ [trend]) t) trends'
  end.

(** [func (t *TAFMessage) findTrendsInMessage(tokens []string, startposition int) (endposition int)] *)
Definition findTrendsInMessage (t : TAFMessage.t) (tokens : list string)
    (startposition : nat) : result (TAFMessage.t * nat) :=
  let '(trends, endposition) :=
    findTrends_loop tokens startposition (List.length tokens - 1) []
      (List.length tokens) in
  t <- TAF_appendTrends t trends ;;
  Ok (t, endposition).

(** [for key, value := range headermap { ... position++ }]: the number
    of entries with a value that is not empty, the key "to" left out. *)
Definition TAF_headerCount (headermap : list (string * string)) : nat :=
  List.length
    (filter (fun kv => negb (String.eqb (snd kv) EmptyString)
                       && negb (String.eqb (fst kv) "to")) headermap).

(** The first statements of [NewTAF]: the message with the fields of its
    header, and the header map. *)
Definition NewTAF_header (inputtext : string)
    : TAFMessage.t * list (string * string) :=
  let t := TAFMessage.new inputtext in
  let headermap := FindStringSubmatchMap tafHeaderRx (TAFMessage.RawData t) in
  let t := TAFMessage.set_Station (get headermap "station") t in
  let t :=
    TAFMessage.set_DateTime
      (fst (time.Parse time.layout_200601021504Z
              (CurYearStr ++ CurMonthStr ++ get headermap "time")%string)) t in
  let t := TAFMessage.set_COR
             (negb (String.eqb (get headermap "cor") EmptyString)) t in
  let t := TAFMessage.set_AMD
             (negb (String.eqb (get headermap "amd") EmptyString)) t in
  let t := TAFMessage.set_NIL
             (negb (String.eqb (get headermap "nil") EmptyString)) t in
  let t := TAFMessage.set_CNL
             (negb (String.eqb (get headermap "cnl") EmptyString)) t in
  (t, headermap).

(** The test [t.Station] empty [&& t.DateTime.IsZero()]. *)
Definition TAF_notValid (t : TAFMessage.t) : bool :=
  String.eqb (TAFMessage.Station t) EmptyString
  && time.IsZero (TAFMessage.DateTime t).

(** [func NewTAF(inputtext string) *TAFMessage] *)
Definition NewTAF (inputtext : string) : result TAFMessage.t :=
  let '(t, headermap) := NewTAF_header inputtext in
  if TAF_notValid t then
    (* not valid message? *)
    Ok (TAFMessage.set_NotDecodedTokens
          (TAFMessage.NotDecodedTokens t ++ [TAFMessage.RawData t]) t)
  else if TAFMessage.NIL t then Ok t (* End of TAF, if the forecast is lost *)
  else
    t <- setTimeRange t (get headermap "from") (get headermap "to") ;;
    if TAFMessage.CNL t then Ok t (* End of TAF, if the forecast is cancelled *)
    else
      let tokens := Split (TAFMessage.RawData t) in
      (* field "from" and "to" - it's one token (DDhh/DDhh) *)
      let position := TAF_headerCount headermap in
      '(t, endposition) <- findTrendsInMessage t tokens position ;;
      body <- GoSlice.sub tokens position endposition ;;
      decodeTAF t body.

(** [func (t *TAFMessage) RAW() string] *)
Definition TAF_RAW (t : TAFMessage.t) : string := TAFMessage.RawData t.

End Decoder.

(** ** A set of collaborators for running the decoder *)

Module Sample.

(** [phenomena.Phenomenon] as the trend tests build it. *)
Record Phenomenon : Type := mkPhenomenon {
  Vicinity : bool;
  Abbreviation : string;
  Intensity : string
}.

(** Modelled from the spec: the packages [visibility], [phenomena],
    [runways] and [conversion] are missing from the sources. The spec leaves
    their grammars out of scope and fixes them by examples only: "0500" is a
    horizontal visibility of one token, "FG" a phenomenon with no intensity
    and not in the vicinity. This set knows these two groups and nothing
    else; it stands in for the real packages on inputs that hold no other
    visibility, phenomena or runway group. *)
Definition collaborators : Collaborators := {|
  Visibility := list string;
  Visibility_zero := [];
  vis_ParseVisibility v input :=
    match input with
    | tok :: _ => if String.eqb tok "0500" then ([tok], 1%nat) else (v, 0%nat)
    | [] => (v, 0%nat)
    end;
  Phenomena := list Phenomenon;
  Phenomena_zero := [];
  ph_AppendPhenomena p input :=
    if String.eqb input "FG"
    then (p ++ [mkPhenomenon false "FG" EmptyString], true)
    else (p, false);
  ph_AppendRecentPhenomena p input := (p, false);
  VisualRange := string;
  rwy_ParseVisualRange input := (EmptyString, false);
  State := string;
  State_SNOCLO := "SNOCLO";
  rwy_ParseState input := (EmptyString, false);
  RunwayDesignator := string;
  RunwayDesignator_AllRunways := "ALL RWY";
  rwy_NewRD input := input;
  cnv_InHgTohPa whole frac := 0%Z
|}.

(** The reference dates used in the examples. *)
Definition may2023 : Globals := {|
  CurYearStr := "2023"; CurMonthStr := "05"; CurDayStr := "31" |}.
Definition june2023 : Globals := {|
  CurYearStr := "2023"; CurMonthStr := "06"; CurDayStr := "30" |}.

End Sample.

(** ** Vocabulary of the properties *)

(** The raw text, the trends and the fields of the header are the same in
    [m'] as in [m]. *)
Definition Metar_kept {C : Collaborators} (m m' : MetarMessage.t) : Prop :=
  MetarMessage.RawData m' = MetarMessage.RawData m
  /\ MetarMessage.TREND m' = MetarMessage.TREND m
  /\ MetarMessage.NIL m' = MetarMessage.NIL m
  /\ MetarMessage.Station m' = MetarMessage.Station m
  /\ MetarMessage.DateTime m' = MetarMessage.DateTime m.

(** So are, besides, the tokens that were not decoded. *)
Definition Metar_frame {C : Collaborators} (m m' : MetarMessage.t) : Prop :=
  Metar_kept m m'
  /\ MetarMessage.NotDecodedTokens m' = MetarMessage.NotDecodedTokens m.

(** Words for the tokens the TAF splitter looks at. *)
Definition startsTrend (tokens : list string) (p : nat) : Prop :=
  isTrendStart (nth p tokens EmptyString) = true.
Definition isPROB (tokens : list string) (p : nat) : Prop :=
  HasPrefix (nth p tokens EmptyString) "PROB" = true.
Definition isRMK (tokens : list string) (p : nat) : Prop :=
  nth p tokens EmptyString = "RMK".

(** What holds of the trends cut out so far by the loop of
    [findTrendsInMessage], the tokens behind [i] being done. *)
Record TAF_split_inv (tokens : list string) (startposition i : nat)
    (trends : list (list string)) (endposition : nat) : Prop := {
  (** the trends are consecutive pieces of the tokens, in message order *)
  inv_tiles :
    exists hi, (endposition <= hi <= List.length tokens)%nat
               /\ List.concat trends = segment endposition hi tokens;
  inv_nonempty : Forall (fun sl => sl <> []) trends;
  (** a trend begins at a start marker, and at a marker that is not a PROB
      token only if no PROB token stands before it *)
  inv_sound :
    forall p, In p (starts endposition trends) ->
      startsTrend tokens p /\ (startposition <= p)%nat
      /\ (isPROB tokens p \/ ~ isPROB tokens (p - 1));
  (** every start marker behind [i] with no RMK between the start position
      and itself begins a trend, or the PROB token before it does *)
  inv_complete :
    forall k, (i < k < List.length tokens)%nat -> (startposition < k)%nat ->
      startsTrend tokens k ->
      (forall j, (startposition < j <= k)%nat -> ~ isRMK tokens j) ->
      In k (starts endposition trends)
      \/ (isPROB tokens (k - 1) /\ In (k - 1) (starts endposition trends))
}.

(** The raw text, the trends and the fields of the header are the same in
    [t'] as in [t]. *)
Definition TAF_kept {C : Collaborators} (t t' : TAFMessage.t) : Prop :=
  TAFMessage.RawData t' = TAFMessage.RawData t
  /\ TAFMessage.TREND t' = TAFMessage.TREND t
  /\ TAFMessage.NIL t' = TAFMessage.NIL t
  /\ TAFMessage.CNL t' = TAFMessage.CNL t
  /\ TAFMessage.Station t' = TAFMessage.Station t
  /\ TAFMessage.DateTime t' = TAFMessage.DateTime t.

(** So are, besides, the tokens that were not decoded. *)
Definition TAF_frame {C : Collaborators} (t t' : TAFMessage.t) : Prop :=
  TAF_kept t t'
  /\ TAFMessage.NotDecodedTokens t' = TAFMessage.NotDecodedTokens t.



(** The same day and time of day in the calendar month after the month of
    [t]. *)
Definition sameDayNextMonth (t : time.Time) : time.Time :=
  if (time.Month t <? 12)%Z
  then time.mkTime (time.Year t) (time.Month t + 1) (time.Day t)
         (time.Hour t) (time.Minute t)
  else time.mkTime (time.Year t + 1) 1 (time.Day t) (time.Hour t)
         (time.Minute t).

(** The month rollover of [setTimeRange] and [addTempForecast]: an instant
    whose day of the month is below the day of [issue] is moved on by
    [AddDate(0, 1, 0)]. *)
Definition rollover (issue resolved : time.Time) : time.Time :=
  if (time.Day resolved <? time.Day issue)%Z then time.AddMonth resolved
  else resolved.


(** * Properties of the decoder *)

Set Implicit Arguments.

(** ** Reasoning about outcomes *)

Lemma bind_Ok {A B : Type} (x : result A) (f : A -> result B) (b : B) :
  bind x f = Ok b -> exists a, x = Ok a /\ f a = Ok b.
Proof.
  destruct x as [a| |]; simpl; intros H; try discriminate.
  exists a; split; [reflexivity | exact H].
Qed.

Lemma bind_not_OutOfFuel {A B : Type} (x : result A) (f : A -> result B) :
  x <> OutOfFuel -> (forall a, x = Ok a -> f a <> OutOfFuel) ->
  bind x f <> OutOfFuel.
Proof.
  destruct x as [a| |]; simpl; intros Hx Hf.
  - apply Hf; reflexivity.
  - discriminate.
  - congruence.
Qed.

(** Takes one step through a hypothesis [H : code = Ok _]: splits a [bind],
    a [match] or an [if] at its head. *)
Ltac step H :=
  match type of H with
  | bind _ _ = Ok _ =>
      let a := fresh "a" in
      let E := fresh "E" in
      apply bind_Ok in H; destruct H as (a & E & H)
  | (match ?x with _ => _ end) = Ok _ =>
      let E := fresh "E" in destruct x eqn:E
  | (if ?x then _ else _) = Ok _ =>
      let E := fresh "E" in destruct x eqn:E
  | Ok _ = Ok _ => inversion H; subst; clear H
  | Panic _ = Ok _ => discriminate H
  | OutOfFuel = Ok _ => discriminate H
  end.

Lemma index_Ok {A : Type} (a : list A) (i : nat) (x : A) :
  GoSlice.index a i = Ok x -> nth_error a i = Some x /\ (i < List.length a)%nat.
Proof.
  unfold GoSlice.index. destruct (nth_error a i) eqn:E; intros H; inversion H.
  subst. split; [reflexivity|]. apply nth_error_Some. congruence.
Qed.

Lemma index_not_OutOfFuel {A : Type} (a : list A) (i : nat) :
  GoSlice.index a i <> OutOfFuel.
Proof. unfold GoSlice.index. destruct (nth_error a i); discriminate. Qed.

Lemma from_not_OutOfFuel {A : Type} (a : list A) (i : nat) :
  GoSlice.from a i <> OutOfFuel.
Proof. unfold GoSlice.from. destruct (i <=? List.length a)%nat; discriminate. Qed.

Lemma from_Ok {A : Type} (a : list A) (i : nat) (r : list A) :
  GoSlice.from a i = Ok r -> r = skipn i a /\ (i <= List.length a)%nat.
Proof.
  unfold GoSlice.from. destruct (i <=? List.length a)%nat eqn:E; intros H;
    inversion H. split; [reflexivity | apply Nat.leb_le; exact E].
Qed.

(** ** [repeatWhile] moves the cursor forward only *)

Lemma repeatWhile_count {T : Type} (f : T -> string -> T * bool)
    (rest : list string) :
  forall (t : T) (count : nat) (t' : T) (count' : nat),
    repeatWhile f t count rest = (t', count') ->
    (count <= count' <= count + List.length rest)%nat.
Proof.
  induction rest as [|tok rest IH]; simpl; intros t count t' count' H.
  - inversion H; lia.
  - destruct (f t tok) as [t1 ok]. destruct ok.
    + apply IH in H. lia.
    + inversion H; lia.
Qed.

(** A property of the record that every call of [f] keeps is kept by the
    whole repetition. *)
Lemma repeatWhile_keeps {T : Type} (P : T -> Prop)
    (f : T -> string -> T * bool) (rest : list string) :
  (forall t tok, P t -> P (fst (f t tok))) ->
  forall (t : T) (count : nat),
    P t -> P (fst (repeatWhile f t count rest)).
Proof.
  intros Hf. induction rest as [|tok rest IH]; simpl; intros t count Ht.
  - exact Ht.
  - specialize (Hf t tok Ht). destruct (f t tok) as [t1 ok]. simpl in Hf.
    destruct ok; [apply IH; exact Hf | exact Hf].
Qed.

(** ** What the body walk of a METAR leaves alone *)

Section MetarFrame.
Context {C : Collaborators} {G : Globals}.

Lemma Metar_kept_trans (m1 m2 m3 : MetarMessage.t) :
  Metar_kept m1 m2 -> Metar_kept m2 m3 -> Metar_kept m1 m3.
Proof.
  unfold Metar_kept. intros (A1 & A2 & A3 & A4 & A5) (B1 & B2 & B3 & B4 & B5).
  repeat split; congruence.
Qed.

(** Closes a goal [Metar_frame m0 (fst (f m tok))] for a rule [f] that is a
    tree of tests ending in field updates. *)
Ltac frame_rule :=
  intros;
  repeat match goal with
         | |- context [match ?x with _ => _ end] => destruct x
         end;
  simpl; auto.

Lemma setTemperature_frame m0 m tok :
  Metar_frame m0 m -> Metar_frame m0 (fst (setTemperature m tok)).
Proof. unfold setTemperature, Metar_frame, Metar_kept. frame_rule. Qed.

Lemma appendRunwayVisualRange_frame m0 m tok :
  Metar_frame m0 m -> Metar_frame m0 (fst (appendRunwayVisualRange m tok)).
Proof. unfold appendRunwayVisualRange, Metar_frame, Metar_kept. frame_rule. Qed.

Lemma Metar_setVerticalVisibility_frame m0 m tok :
  Metar_frame m0 m -> Metar_frame m0 (fst (setVerticalVisibility m tok)).
Proof.
  unfold setVerticalVisibility, Metar_weatherCondition,
    Metar_setVerticalVisibility, Metar_frame, Metar_kept.
  frame_rule.
Qed.

Lemma Metar_ParseVisibility_frame m0 m toks :
  Metar_frame m0 m -> Metar_frame m0 (fst (ParseVisibility m toks)).
Proof.
  unfold ParseVisibility, Metar_weatherCondition, Metar_frame, Metar_kept.
  frame_rule.
Qed.

Lemma Metar_AppendPhenomena_frame m0 m tok :
  Metar_frame m0 m -> Metar_frame m0 (fst (AppendPhenomena m tok)).
Proof.
  unfold AppendPhenomena, Metar_weatherCondition, Metar_frame, Metar_kept.
  frame_rule.
Qed.

Lemma Metar_AppendCloud_frame m0 m tok :
  Metar_frame m0 m -> Metar_frame m0 (fst (AppendCloud m tok)).
Proof.
  unfold AppendCloud, Metar_weatherCondition, Metar_frame, Metar_kept.
  frame_rule.
Qed.

Lemma appendRecentPhenomena_frame m0 m tok :
  Metar_frame m0 m -> Metar_frame m0 (fst (appendRecentPhenomena m tok)).
Proof. unfold appendRecentPhenomena, Metar_frame, Metar_kept. frame_rule. Qed.

Lemma appendRunwayState_frame m0 m tok :
  Metar_frame m0 m -> Metar_frame m0 (fst (appendRunwayState m tok)).
Proof. unfold appendRunwayState, Metar_frame, Metar_kept. frame_rule. Qed.

Lemma setAltimetr_frame m0 m tok m' ok :
  Metar_frame m0 m -> setAltimetr m tok = Ok (m', ok) -> Metar_frame m0 m'.
Proof.
  unfold setAltimetr. intros F H.
  repeat step H; exact F.
Qed.

Lemma appendWindShears_loop_frame fuel tokens :
  forall m0 m count ok used m' ok' used',
    Metar_frame m0 m ->
    appendWindShears_loop fuel m tokens count ok used = Ok (m', ok', used') ->
    Metar_frame m0 m' /\ (used <= used')%nat
    /\ (ok' = false -> ok = false /\ used' = used).
Proof.
  induction fuel as [|fuel IH]; intros m0 m count ok used m' ok' used' F H;
    simpl in H.
  - repeat step H. split; [exact F | split; [lia | auto]].
  - step H. step H.
    + assert (Hgo : forall m1 u1 c1,
                Metar_frame m0 m1 -> (used <= u1)%nat ->
                appendWindShears_loop fuel m1 tokens c1 true u1
                = Ok (m', ok', used') ->
                Metar_frame m0 m' /\ (used <= used')%nat
                /\ (ok' = false -> ok = false /\ used' = used)).
      { intros m1 u1 c1 F1 Hu H1. apply IH with (m0 := m0) in H1; [|exact F1].
        destruct H1 as (H1 & H2 & H3). split; [exact H1|]. split; [lia|].
        intros Hk. destruct (H3 Hk); discriminate. }
      destruct (negb (Regexp.sub s 3 =? EmptyString)%string),
        (negb (Regexp.sub s 2 =? EmptyString)%string);
        (eapply Hgo; [| |exact H];
         [unfold Metar_frame, Metar_kept in *; simpl; exact F|lia]).
    + step H. split; [exact F | split; [lia | auto]].
Qed.

Lemma setMetarWeatherCondition_frame m0 m count tokens m' count' :
  Metar_frame m0 m ->
  setMetarWeatherCondition m count tokens = Ok (m', count') ->
  Metar_frame m0 m' /\ (count <= count')%nat.
Proof.
  unfold setMetarWeatherCondition. intros F H.
  step H. apply from_Ok in E as [-> Hle].
  pose proof (Metar_ParseVisibility_frame (skipn count tokens) F) as F1.
  destruct (ParseVisibility m (skipn count tokens)) as [m1 used]. simpl in F1.
  set (c1 := if (0 <? used)%nat then (count + used)%nat else count) in *.
  assert (Hc1 : (count <= c1)%nat) by (subst c1; destruct (0 <? used)%nat; lia).
  pose proof (repeatWhile_keeps (Metar_frame m0) appendRunwayVisualRange
                (skipn c1 tokens)
                (fun t tok => @appendRunwayVisualRange_frame m0 t tok)
                m1 c1 F1) as F2.
  destruct (repeatWhile appendRunwayVisualRange m1 c1 (skipn c1 tokens))
    as [m2 c2] eqn:E2.
  apply repeatWhile_count in E2. simpl in F2.
  assert (exists m3 c3,
    (match nth_error tokens c2 with
     | Some tok =>
         if (tok =? "//")%string
         then (MetarMessage.set_PhenomenaNotDefined true m2, S c2)
         else (m2, c2)
     | None => (m2, c2)
     end) = (m3, c3) /\ Metar_frame m0 m3 /\ (c2 <= c3)%nat) as (m3 & c3 & E3 & F3 & Hc3).
  { destruct (nth_error tokens c2) as [tok|];
      [destruct (tok =? "//")%string|]; eexists; eexists;
      (split; [reflexivity|]); split; auto. }
  rewrite E3 in H.
  pose proof (repeatWhile_keeps (Metar_frame m0) AppendPhenomena
                (skipn c3 tokens)
                (fun t tok => @Metar_AppendPhenomena_frame m0 t tok)
                m3 c3 F3) as F4.
  destruct (repeatWhile AppendPhenomena m3 c3 (skipn c3 tokens))
    as [m4 c4] eqn:E4.
  apply repeatWhile_count in E4. simpl in F4.
  assert (exists m5 c5,
    (match nth_error tokens c4 with
     | Some tok =>
         let '(m', ok) := setVerticalVisibility m4 tok in
         if ok then (m', S c4) else (m', c4)
     | None => (m4, c4)
     end) = (m5, c5) /\ Metar_frame m0 m5 /\ (c4 <= c5)%nat) as (m5 & c5 & E5 & F5 & Hc5).
  { destruct (nth_error tokens c4) as [tok|].
    - pose proof (Metar_setVerticalVisibility_frame tok F4) as F5.
      destruct (setVerticalVisibility m4 tok) as [m5 ok]. simpl in F5.
      destruct ok; eexists; eexists; (split; [reflexivity|]); split; auto.
    - eexists; eexists; (split; [reflexivity|]); split; auto. }
  rewrite E5 in H.
  pose proof (repeatWhile_keeps (Metar_frame m0) AppendCloud
                (skipn c5 tokens)
                (fun t tok => @Metar_AppendCloud_frame m0 t tok)
                m5 c5 F5) as F6.
  destruct (repeatWhile AppendCloud m5 c5 (skipn c5 tokens))
    as [m6 c6] eqn:E6.
  apply repeatWhile_count in E6. simpl in F6.
  step H. split; [exact F6 | lia].
Qed.

Lemma decodeMetar_groups_frame m count tokens m' count' :
  decodeMetar_groups m count tokens = Ok (m', count') ->
  Metar_frame m m' /\ (count <= count')%nat.
Proof.
  unfold decodeMetar_groups. intros H.
  apply bind_Ok in H as (rest & Erest & H).
  apply bind_Ok in H as ([w used] & Ew & H).
  apply bind_Ok in H as (tok & Etok & H).
  apply bind_Ok in H as ([m1 c1] & E1 & H).
  assert (F1 : Metar_frame m m1 /\ (count <= c1)%nat).
  { destruct (tok =? "CAVOK")%string.
    - step E1. split; [repeat split | lia].
    - apply setMetarWeatherCondition_frame with (m0 := m) in E1;
        [|repeat split]. destruct E1; split; [assumption | lia]. }
  destruct F1 as [F1 Hc1].
  apply bind_Ok in H as (tok2 & Etok2 & H).
  pose proof (setTemperature_frame tok2 F1) as F2.
  destruct (setTemperature m1 tok2) as [m2 ok2]. simpl in F2.
  apply bind_Ok in H as (tok3 & Etok3 & H).
  apply bind_Ok in H as ([m3 ok3] & E3 & H).
  apply (setAltimetr_frame _ F2) in E3.
  set (c3 := if ok3 then S (if ok2 then S c1 else c1)
             else if ok2 then S c1 else c1) in *.
  assert (Hc3 : (c1 <= c3)%nat) by (subst c3; destruct ok2, ok3; lia).
  pose proof (repeatWhile_keeps (Metar_frame m) appendRecentPhenomena
                (skipn c3 tokens)
                (fun t tok => @appendRecentPhenomena_frame m t tok)
                m3 c3 E3) as F4.
  destruct (repeatWhile appendRecentPhenomena m3 c3 (skipn c3 tokens))
    as [m4 c4] eqn:E4.
  apply repeatWhile_count in E4. simpl in F4.
  apply bind_Ok in H as ([[m5 ok5] used5] & E5 & H).
  apply (appendWindShears_loop_frame _ _ _ _ _ F4) in E5.
  destruct E5 as (F5 & _ & _).
  set (c5 := if ok5 then (c4 + used5)%nat else c4) in *.
  assert (Hc5 : (c4 <= c5)%nat) by (subst c5; destruct ok5; lia).
  pose proof (repeatWhile_keeps (Metar_frame m) appendRunwayState
                (skipn c5 tokens)
                (fun t tok => @appendRunwayState_frame m t tok)
                m5 c5 F5) as F6.
  destruct (repeatWhile appendRunwayState m5 c5 (skipn c5 tokens))
    as [m6 c6] eqn:E6.
  apply repeatWhile_count in E6. simpl in F6.
  step H. split; [exact F6 | lia].
Qed.

(** One turn of the body loop moves the cursor by at least one token; the
    token at the cursor that the groups leave behind, if any, is the one
    token added to the not-decoded list, and the cursor passes it by
    exactly one. *)
Lemma decodeMetar_body_spec m count tokens m' count' :
  (count < List.length tokens)%nat ->
  decodeMetar_body m count tokens = Ok (m', count') ->
  exists m1 c1,
    decodeMetar_groups m count tokens = Ok (m1, c1)
    /\ (count <= c1)%nat
    /\ MetarMessage.NotDecodedTokens m1 = MetarMessage.NotDecodedTokens m
    /\ Metar_kept m m'
    /\ ((exists tok, nth_error tokens c1 = Some tok
                     /\ count' = S c1
                     /\ MetarMessage.NotDecodedTokens m'
                        = MetarMessage.NotDecodedTokens m ++ [tok])
        \/ ((List.length tokens <= c1)%nat /\ count' = c1 /\ m' = m1)).
Proof.
  unfold decodeMetar_body. intros Hlt H.
  apply bind_Ok in H as ([m1 c1] & E1 & H).
  exists m1, c1. split; [exact E1|].
  apply decodeMetar_groups_frame in E1 as ((F1 & F3) & Hc1).
  split; [exact Hc1|]. split; [exact F3|].
  unfold Metar_notDecoded in H.
  destruct (c1 <? List.length tokens)%nat eqn:Elt.
  - apply bind_Ok in H as (tok & Etok & H). step H.
    apply index_Ok in Etok as [Etok _]. simpl.
    split; [exact F1|]. left. exists tok.
    rewrite F3. repeat split; assumption.
  - step H. apply Nat.ltb_ge in Elt.
    split; [exact F1|]. right. repeat split; assumption.
Qed.

Lemma decodeMetar_body_advances m count tokens m' count' :
  (count < List.length tokens)%nat ->
  decodeMetar_body m count tokens = Ok (m', count') ->
  (count < count')%nat.
Proof.
  intros Hlt H.
  destruct (@decodeMetar_body_spec _ _ _ _ _ Hlt H)
    as (m1 & c1 & _ & Hc1 & _ & _ & [(tok & _ & -> & _) | (Hge & -> & _)]);
    lia.
Qed.

Lemma decodeMetar_loop_frame fuel tokens :
  forall m count m',
    decodeMetar_loop fuel m count tokens = Ok m' -> Metar_kept m m'.
Proof.
  induction fuel as [|fuel IH]; intros m count m' H; simpl in H.
  - repeat step H. repeat split.
  - destruct (count <? List.length tokens)%nat eqn:Elt.
    + apply bind_Ok in H as ([m1 c1] & E1 & H).
      apply Nat.ltb_lt in Elt.
      destruct (@decodeMetar_body_spec _ _ _ _ _ Elt E1)
        as (_ & _ & _ & _ & _ & K1 & _).
      apply IH in H. exact (Metar_kept_trans K1 H).
    + step H. repeat split.
Qed.

Lemma decodeMetar_frame m tokens m' :
  decodeMetar m tokens = Ok m' -> Metar_kept m m'.
Proof.
  unfold decodeMetar. intros H.
  apply bind_Ok in H as (last & _ & H).
  destruct (last =? "NOSIG")%string;
    apply decodeMetar_loop_frame in H; exact H.
Qed.

End MetarFrame.

(** ** Segments of a token list *)

Section Segments.
Variable A : Type.
Implicit Types (l : list A) (lo mid hi : nat).

Lemma segment_nil l lo : segment lo lo l = [].
Proof. unfold segment. rewrite Nat.sub_diag. reflexivity. Qed.

Lemma segment_app l lo mid hi :
  (lo <= mid <= hi)%nat ->
  segment lo mid l ++ segment mid hi l = segment lo hi l.
Proof.
  intros H. unfold segment.
  replace (skipn mid l) with (skipn (mid - lo) (skipn lo l))
    by (rewrite skipn_skipn; f_equal; lia).
  replace (hi - lo)%nat with ((mid - lo) + (hi - mid))%nat by lia.
  generalize (skipn lo l) (mid - lo)%nat (hi - mid)%nat.
  intros x n k. revert x. induction n as [|n IH]; intros x; simpl.
  - reflexivity.
  - destruct x as [|a x]; simpl.
    + rewrite firstn_nil. reflexivity.
    + rewrite IH. reflexivity.
Qed.

Lemma segment_cons l lo hi (d : A) :
  (lo < hi <= List.length l)%nat ->
  segment lo hi l = nth lo l d :: segment (S lo) hi l.
Proof.
  intros H. unfold segment.
  replace (hi - lo)%nat with (S (hi - S lo)) by lia.
  assert (Hs : skipn lo l = nth lo l d :: skipn (S lo) l).
  { assert (Hlo : (lo < List.length l)%nat) by lia. clear H.
    revert l Hlo. induction lo as [|lo IH]; intros [|a l] Hlo; simpl in *;
      try lia; [reflexivity|]. apply IH. lia. }
  rewrite Hs. reflexivity.
Qed.

Lemma segment_length l lo hi :
  (lo <= hi <= List.length l)%nat -> List.length (segment lo hi l) = (hi - lo)%nat.
Proof.
  intros H. unfold segment. rewrite length_firstn, length_skipn. lia.
Qed.

Lemma segment_Forall (P : A -> Prop) l lo mid hi :
  (lo <= mid)%nat -> Forall P (segment lo hi l) -> Forall P (segment mid hi l).
Proof.
  intros H F. destruct (Nat.le_gt_cases mid hi) as [Hm|Hm].
  - rewrite <- (@segment_app l lo mid hi) in F by lia.
    apply Forall_app in F. apply F.
  - unfold segment. replace (hi - mid)%nat with 0%nat by lia. constructor.
Qed.

Lemma starts_app (slices1 slices2 : list (list A)) pos :
  starts pos (slices1 ++ slices2)
  = starts pos slices1
    ++ starts (pos + List.length (List.concat slices1)) slices2.
Proof.
  revert pos. induction slices1 as [|sl slices1 IH]; intros pos; simpl.
  - rewrite Nat.add_0_r. reflexivity.
  - rewrite IH, length_app, Nat.add_assoc. reflexivity.
Qed.

End Segments.

(** ** The section splitter of [NewMETAR] *)

Section MetarSplit.
Variables (tokens : list string) (count : nat).

Lemma splitRemarks_le :
  forall i remarks totalcount remarks' totalcount',
    (i < totalcount \/ i = 0)%nat ->
    splitRemarks tokens count i remarks totalcount = (remarks', totalcount') ->
    (totalcount' <= totalcount)%nat.
Proof.
  induction i as [|i IH]; simpl; intros remarks total remarks' total' Hi H.
  - inversion H; lia.
  - destruct (count <? S i)%nat; [|inversion H; lia].
    destruct (nth (S i) tokens EmptyString =? "RMK")%string;
      apply IH in H; lia.
Qed.


Variable hi : nat.
Hypothesis Hhi : (hi <= List.length tokens)%nat.

Let marker (p : nat) : Prop :=
  isMetarTrendStart (nth p tokens EmptyString) = true.

Lemma splitTrends_inv :
  forall i trends totalcount trends' totalcount',
    (i < totalcount \/ i = 0)%nat ->
    (totalcount <= hi)%nat ->
    List.concat trends = segment totalcount hi tokens ->
    Forall (fun sl => sl <> []) trends ->
    (forall p, In p (starts totalcount trends)
               <-> (totalcount <= p < hi)%nat /\ (count < p)%nat /\ marker p) ->
    (forall p, (i < p < totalcount)%nat -> ~ marker p) ->
    splitTrends tokens count i trends totalcount = (trends', totalcount') ->
    (totalcount' <= totalcount)%nat
    /\ List.concat trends' = segment totalcount' hi tokens
    /\ Forall (fun sl => sl <> []) trends'
    /\ (forall p, In p (starts totalcount' trends')
                  <-> (count < p < hi)%nat /\ marker p).
Proof.
  assert (Hexit : forall i trends totalcount,
    (i <= count)%nat ->
    (totalcount <= hi)%nat ->
    List.concat trends = segment totalcount hi tokens ->
    Forall (fun sl => sl <> []) trends ->
    (forall p, In p (starts totalcount trends)
               <-> (totalcount <= p < hi)%nat /\ (count < p)%nat /\ marker p) ->
    (forall p, (i < p < totalcount)%nat -> ~ marker p) ->
    (totalcount <= totalcount)%nat
    /\ List.concat trends = segment totalcount hi tokens
    /\ Forall (fun sl => sl <> []) trends
    /\ (forall p, In p (starts totalcount trends)
                  <-> (count < p < hi)%nat /\ marker p)).
  { intros i trends total Hi Hle Hcat Hne Hin Hno.
    split; [lia|]. split; [exact Hcat|]. split; [exact Hne|].
    intros p. rewrite Hin. split.
    - intros (H1 & H2 & H3). split; [lia | exact H3].
    - intros (H1 & H3). split; [|split; [lia | exact H3]].
      destruct (Nat.le_gt_cases total p) as [Hp|Hp]; [lia|].
      exfalso. apply (Hno p); [lia | exact H3]. }
  induction i as [|i IH];
    intros trends total trends' total' Hi Hle Hcat Hne Hin Hno H; simpl in H.
  - inversion H; subst. apply (Hexit 0%nat); auto; lia.
  - destruct (count <? S i)%nat eqn:Ec.
    + apply Nat.ltb_lt in Ec.
      assert (Hlt : (S i < total)%nat) by lia.
      destruct (isMetarTrendStart (nth (S i) tokens EmptyString)) eqn:Em.
      * apply IH in H.
        -- destruct H as (H1 & H2 & H3 & H4).
           split; [lia|]. split; [exact H2|]. split; [exact H3 | exact H4].
        -- lia.
        -- lia.
        -- simpl. rewrite Hcat. apply segment_app. lia.
        -- constructor; [|exact Hne].
           intros Hnil. apply (f_equal (@List.length string)) in Hnil.
           rewrite segment_length in Hnil by lia. simpl in Hnil. lia.
        -- intros p.
           assert (Hst : starts (S i) (segment (S i) total tokens :: trends)
                         = S i :: starts total trends).
           { cbn [starts]. rewrite segment_length by lia.
             do 2 f_equal. lia. }
           rewrite Hst. cbn [In]. rewrite Hin. split.
           ++ intros [<- | (H1 & H2 & H3)].
              ** split; [lia|]. split; [lia | exact Em].
              ** split; [lia|]. split; [lia | exact H3].
           ++ intros (H1 & H2 & H3).
              destruct (Nat.eq_dec p (S i)) as [->|Hp]; [left; reflexivity|].
              right. split; [|split; [lia | exact H3]].
              destruct (Nat.le_gt_cases total p) as [Hq|Hq]; [lia|].
              exfalso. apply (Hno p); [lia | exact H3].
        -- intros p Hp. lia.
      * apply IH in H; auto; try lia.
        intros p Hp. destruct (Nat.eq_dec p (S i)) as [->|Hq].
        -- unfold marker. rewrite Em. discriminate.
        -- apply Hno. lia.
    + apply Nat.ltb_ge in Ec. inversion H; subst.
      apply (Hexit (S i)); auto.
Qed.

End MetarSplit.

(** The trends that [NewMETAR] cuts out are consecutive pieces of the token
    list in message order, each begins at a TEMPO or BECMG token behind the
    header, and every such token before the remarks begins one. *)
Lemma Metar_split_spec (tokens : list string) (count : nat)
    (remarks : list string) (trends : list (list string)) (totalcount : nat) :
  Metar_split tokens count = (remarks, trends, totalcount) ->
  exists hi,
    (totalcount <= hi <= List.length tokens)%nat
    /\ List.concat trends = segment totalcount hi tokens
    /\ Forall (fun sl => sl <> []) trends
    /\ (forall p, In p (starts totalcount trends)
                  <-> (count < p < hi)%nat
                      /\ isMetarTrendStart (nth p tokens EmptyString) = true).
Proof.
  unfold Metar_split. intros H.
  destruct (splitRemarks tokens count (List.length tokens - 1) []
              (List.length tokens)) as [remarks1 hi] eqn:E1.
  destruct (splitTrends tokens count (hi - 1) [] hi) as [trends1 total1] eqn:E2.
  inversion H; subst. exists hi.
  apply splitRemarks_le in E1; [|lia].
  apply (@splitTrends_inv tokens count hi E1) in E2.
  - destruct E2 as (H1 & H2 & H3 & H4).
    split; [lia|]. split; [exact H2|]. split; [exact H3 | exact H4].
  - lia.
  - lia.
  - simpl. rewrite segment_nil. reflexivity.
  - constructor.
  - intros p. simpl. split; [intros [] | lia].
  - intros p Hp. lia.
Qed.


(** ** The section splitter of [findTrendsInMessage] *)

Lemma PROB_startsTrend tokens p : isPROB tokens p -> startsTrend tokens p.
Proof.
  unfold isPROB, startsTrend, isTrendStart. intros ->.
  rewrite Bool.orb_true_r. reflexivity.
Qed.

Lemma RMK_not_startsTrend tokens p : isRMK tokens p -> ~ startsTrend tokens p.
Proof. unfold isRMK, startsTrend. intros ->. discriminate. Qed.

Section TafSplit.
Variables (tokens : list string) (startposition : nat).

Lemma findTrends_body_inv i trends endposition :
  (startposition < i < endposition)%nat ->
  TAF_split_inv tokens startposition i trends endposition ->
  forall dec trends' endposition',
    findTrends_body tokens i trends endposition = (dec, trends', endposition') ->
    let i' := if dec then ((i - 1) - 1)%nat else (i - 1)%nat in
    (i' < endposition' \/ i' = 0)%nat
    /\ TAF_split_inv tokens startposition i' trends' endposition'.
Proof.
  intros Hi [(hi & Hhi & Hcat) Hne Hsound Hcomp] dec trends' e' H.
  unfold findTrends_body in H.
  destruct (isTrendStart (nth i tokens EmptyString)) eqn:Em.
  - (* a start marker at [i] *)
    assert (Hnew : forall q, (startposition <= q <= i)%nat -> (i - 1 <= q)%nat ->
              startsTrend tokens q ->
              (isPROB tokens q \/ ~ isPROB tokens (q - 1)) ->
              (q = i \/ isPROB tokens (i - 1)) ->
              let i' := (q - 1)%nat in
              (i' < q \/ i' = 0)%nat
              /\ TAF_split_inv tokens startposition i'
                   (segment q endposition tokens :: trends) q).
    { intros q Hq Hq1 Hmq Hpq Hwhich i'.
      assert (Hst : starts q (segment q endposition tokens :: trends)
                    = q :: starts endposition trends).
      { cbn [starts]. rewrite segment_length by lia. do 2 f_equal. lia. }
      split; [subst i'; lia|]. constructor.
      - exists hi. split; [lia|]. simpl. rewrite Hcat. apply segment_app. lia.
      - constructor; [|exact Hne].
        intros Hnil. apply (f_equal (@List.length string)) in Hnil.
        rewrite segment_length in Hnil by lia. simpl in Hnil. lia.
      - intros p. rewrite Hst. intros [<- | Hp].
        + split; [exact Hmq|]. split; [lia | exact Hpq].
        + apply Hsound. exact Hp.
      - intros k Hk Hks Hmk Hrmk. rewrite Hst. cbn [In].
        destruct (Nat.eq_dec k q) as [->|Hkq]; [left; left; reflexivity|].
        destruct (Nat.eq_dec k i) as [->|Hki].
        + right. destruct Hwhich as [->|Hprob]; [congruence|].
          assert (q = i - 1)%nat as -> by lia.
          split; [exact Hprob | left; reflexivity].
        + destruct (Hcomp k) as [Hin | (Hp & Hin)]; try assumption.
          * subst i'. lia.
          * left; right; exact Hin.
          * right. split; [exact Hp | right; exact Hin]. }
    destruct (HasPrefix (nth (i - 1) tokens EmptyString) "PROB") eqn:Ep.
    + (* the PROB token before it is the start *)
      assert (Hr : (nth (i - 1) tokens EmptyString =? "RMK")%string = false).
      { destruct (nth (i - 1) tokens EmptyString =? "RMK")%string eqn:Er;
          [|reflexivity].
        apply String.eqb_eq in Er. rewrite Er in Ep. discriminate. }
      rewrite Hr in H. inversion H; subst. cbv zeta.
      apply Hnew; try lia.
      * apply PROB_startsTrend. exact Ep.
      * left. exact Ep.
      * right. exact Ep.
    + assert (Hr : (nth i tokens EmptyString =? "RMK")%string = false).
      { destruct (nth i tokens EmptyString =? "RMK")%string eqn:Er;
          [|reflexivity].
        apply String.eqb_eq in Er. rewrite Er in Em. discriminate. }
      rewrite Hr in H. inversion H; subst. cbv zeta.
      apply Hnew; try lia.
      * exact Em.
      * right. unfold isPROB. rewrite Ep. discriminate.
  - (* no start marker at [i] *)
    destruct (nth i tokens EmptyString =? "RMK")%string eqn:Er;
      inversion H; subst; cbv zeta; (split; [lia|]).
    + apply String.eqb_eq in Er. constructor.
      * exists e'. split; [lia|]. rewrite segment_nil. reflexivity.
      * constructor.
      * intros p [].
      * intros k Hk Hks Hmk Hrmk. exfalso. apply (Hrmk i); [lia | exact Er].
    + constructor.
      * exists hi. split; [lia | exact Hcat].
      * exact Hne.
      * exact Hsound.
      * intros k Hk Hks Hmk Hrmk.
        destruct (Nat.eq_dec k i) as [->|Hki].
        -- unfold startsTrend in Hmk. congruence.
        -- apply Hcomp; try assumption. lia.
Qed.

End TafSplit.

Lemma TAF_split_inv_exit tokens startposition i trends endposition :
  (i <= startposition)%nat ->
  TAF_split_inv tokens startposition i trends endposition ->
  TAF_split_inv tokens startposition startposition trends endposition.
Proof.
  intros Hi [H1 H2 H3 H4]. constructor; try assumption.
  intros k Hk Hks. apply H4. lia. exact Hks.
Qed.

Lemma findTrends_loop_inv tokens startposition :
  forall n i trends endposition trends' endposition',
    (i <= n)%nat -> (i < endposition \/ i = 0)%nat ->
    TAF_split_inv tokens startposition i trends endposition ->
    findTrends_loop tokens startposition i trends endposition
    = (trends', endposition') ->
    TAF_split_inv tokens startposition startposition trends' endposition'.
Proof.
  induction n as [|n IH]; intros i trends e trends' e' Hn Hi Hinv H.
  - assert (i = 0)%nat as -> by lia. simpl in H. inversion H; subst.
    apply TAF_split_inv_exit with (i := 0%nat); [lia | exact Hinv].
  - destruct i as [|i1]; simpl in H.
    + inversion H; subst.
      apply TAF_split_inv_exit with (i := 0%nat); [lia | exact Hinv].
    + destruct (startposition <? S i1)%nat eqn:Es.
      * apply Nat.ltb_lt in Es.
        destruct (findTrends_body tokens (S i1) trends e)
          as [[dec trends1] e1] eqn:Eb.
        apply (@findTrends_body_inv tokens startposition (S i1) trends e) in Eb;
          [|lia|exact Hinv].
        cbv zeta in Eb. destruct Eb as [Hi1 Hinv1].
        destruct dec.
        -- replace (S i1 - 1 - 1)%nat with (i1 - 1)%nat in * by lia.
           destruct i1 as [|i2].
           ++ inversion H; subst.
              apply TAF_split_inv_exit with (i := 0%nat); [lia | exact Hinv1].
           ++ replace (S i2 - 1)%nat with i2 in * by lia.
              apply (IH i2 trends1 e1); try assumption. lia.
        -- replace (S i1 - 1)%nat with i1 in * by lia.
           apply (IH i1 trends1 e1); try assumption. lia.
      * apply Nat.ltb_ge in Es. inversion H; subst.
        apply TAF_split_inv_exit with (i := S i1); [exact Es | exact Hinv].
Qed.

(** The trends that [findTrendsInMessage] cuts out, for any token list and
    start position. *)
Lemma findTrends_loop_spec tokens startposition trends endposition :
  findTrends_loop tokens startposition (List.length tokens - 1) []
    (List.length tokens) = (trends, endposition) ->
  TAF_split_inv tokens startposition startposition trends endposition.
Proof.
  intros H.
  apply (@findTrends_loop_inv tokens startposition (List.length tokens)) in H;
    [exact H | lia | lia |].
  constructor.
  - exists (List.length tokens). split; [lia|]. rewrite segment_nil. reflexivity.
  - constructor.
  - intros p [].
  - intros k Hk. lia.
Qed.

(** ** The shared weather-condition walk *)

Section WeatherCondition.
Context {T : Type} {W : weatherCondition T}.
Variable P : T -> Prop.
Hypothesis keepVisibility : forall t toks, P t -> P (fst (ParseVisibility t toks)).
Hypothesis keepPhenomena : forall t tok, P t -> P (fst (AppendPhenomena t tok)).
Hypothesis keepVertical : forall t tok, P t -> P (fst (setVerticalVisibility t tok)).
Hypothesis keepCloud : forall t tok, P t -> P (fst (AppendCloud t tok)).

(** [decodeWeatherCondition] keeps what its four operations keep and never
    moves the cursor back. *)
Lemma decodeWeatherCondition_keeps t count tokens :
  P t ->
  P (fst (decodeWeatherCondition t count tokens))
  /\ (count <= snd (decodeWeatherCondition t count tokens))%nat.
Proof.
  intros Ht. unfold decodeWeatherCondition.
  assert (exists t1 c1,
    (if (count <? List.length tokens)%nat
     then let '(t', n) := ParseVisibility t (skipn count tokens) in
          (t', (count + n)%nat)
     else (t, count)) = (t1, c1) /\ P t1 /\ (count <= c1)%nat)
    as (t1 & c1 & -> & P1 & Hc1).
  { destruct (count <? List.length tokens)%nat.
    - pose proof (keepVisibility (skipn count tokens) Ht) as K.
      destruct (ParseVisibility t (skipn count tokens)) as [t' n].
      exists t', (count + n)%nat. repeat split; [exact K | lia].
    - exists t, count. repeat split; [exact Ht | lia]. }
  pose proof (repeatWhile_keeps P AppendPhenomena (skipn c1 tokens)
                keepPhenomena t1 c1 P1) as P2.
  destruct (repeatWhile AppendPhenomena t1 c1 (skipn c1 tokens))
    as [t2 c2] eqn:E2.
  apply repeatWhile_count in E2. simpl in P2.
  assert (exists t3 c3,
    (match nth_error tokens c2 with
     | Some tok =>
         let '(t', ok) := setVerticalVisibility t2 tok in
         if ok then (t', S c2) else (t', c2)
     | None => (t2, c2)
     end) = (t3, c3) /\ P t3 /\ (c2 <= c3)%nat)
    as (t3 & c3 & -> & P3 & Hc3).
  { destruct (nth_error tokens c2) as [tok|].
    - pose proof (keepVertical tok P2) as K.
      destruct (setVerticalVisibility t2 tok) as [t' ok].
      destruct ok; eexists; eexists; (split; [reflexivity|]);
        split; auto.
    - exists t2, c2. repeat split; [exact P2 | lia]. }
  pose proof (repeatWhile_keeps P AppendCloud (skipn c3 tokens)
                keepCloud t3 c3 P3) as P4.
  destruct (repeatWhile AppendCloud t3 c3 (skipn c3 tokens))
    as [t4 c4] eqn:E4.
  apply repeatWhile_count in E4. simpl in *. split; [exact P4 | lia].
Qed.

End WeatherCondition.

(** ** What the body walk of a TAF leaves alone *)

Lemma TAF_kept_trans {C : Collaborators} (t1 t2 t3 : TAFMessage.t) :
  TAF_kept t1 t2 -> TAF_kept t2 t3 -> TAF_kept t1 t3.
Proof.
  unfold TAF_kept.
  intros (A1 & A2 & A3 & A4 & A5 & A6) (B1 & B2 & B3 & B4 & B5 & B6).
  repeat split; congruence.
Qed.

Section TafFrame.
Context {C : Collaborators} {G : Globals}.

Ltac frame_rule :=
  intros;
  repeat match goal with
         | |- context [match ?x with _ => _ end] => destruct x
         end;
  simpl; auto.

Lemma TAF_ParseVisibility_frame t0 t toks :
  TAF_frame t0 t -> TAF_frame t0 (fst (ParseVisibility t toks)).
Proof.
  unfold ParseVisibility, TAF_weatherCondition, TAF_frame, TAF_kept.
  frame_rule.
Qed.

Lemma TAF_AppendPhenomena_frame t0 t tok :
  TAF_frame t0 t -> TAF_frame t0 (fst (AppendPhenomena t tok)).
Proof.
  unfold AppendPhenomena, TAF_weatherCondition, TAF_frame, TAF_kept.
  frame_rule.
Qed.

Lemma TAF_setVerticalVisibility_frame t0 t tok :
  TAF_frame t0 t -> TAF_frame t0 (fst (setVerticalVisibility t tok)).
Proof.
  unfold setVerticalVisibility, TAF_weatherCondition,
    TAF_setVerticalVisibility, TAF_frame, TAF_kept.
  frame_rule.
Qed.

Lemma TAF_AppendCloud_frame t0 t tok :
  TAF_frame t0 t -> TAF_frame t0 (fst (AppendCloud t tok)).
Proof.
  unfold AppendCloud, TAF_weatherCondition, TAF_frame, TAF_kept.
  frame_rule.
Qed.

Lemma addTempForecast_frame t0 t tok :
  TAF_frame t0 t -> TAF_frame t0 (fst (addTempForecast t tok)).
Proof. unfold addTempForecast, TAF_frame, TAF_kept. frame_rule. Qed.

Lemma decodeTAF_groups_frame t count tokens t' count' :
  decodeTAF_groups t count tokens = Ok (t', count') ->
  TAF_frame t t' /\ (count <= count')%nat.
Proof.
  unfold decodeTAF_groups. intros H.
  apply bind_Ok in H as (tok & Etok & H).
  apply bind_Ok in H as ([w used] & Ew & H).
  apply bind_Ok in H as (tok2 & Etok2 & H).
  assert (F0 : TAF_frame t (TAFMessage.set_Wind w t)) by (repeat split).
  assert (exists t1 c1,
    (if (tok2 =? "CAVOK")%string
     then (TAFMessage.set_CAVOK true (TAFMessage.set_Wind w t),
           S (count + used))
     else decodeWeatherCondition (TAFMessage.set_Wind w t) (count + used)
            tokens) = (t1, c1) /\ TAF_frame t t1 /\ (count <= c1)%nat)
    as (t1 & c1 & E1 & F1 & Hc1).
  { destruct (tok2 =? "CAVOK")%string.
    - eexists; eexists; split; [reflexivity|]. split; [repeat split | lia].
    - destruct (@decodeWeatherCondition_keeps _ _ (TAF_frame t)
                  (@TAF_ParseVisibility_frame t)
                  (@TAF_AppendPhenomena_frame t)
                  (@TAF_setVerticalVisibility_frame t)
                  (@TAF_AppendCloud_frame t)
                  (TAFMessage.set_Wind w t) (count + used)%nat tokens F0)
        as [K1 K2].
      destruct (decodeWeatherCondition (TAFMessage.set_Wind w t)
                  (count + used) tokens) as [t1 c1].
      exists t1, c1. simpl in *. repeat split; try apply K1. lia. }
  rewrite E1 in H.
  pose proof (repeatWhile_keeps (TAF_frame t) addTempForecast
                (skipn c1 tokens)
                (fun x tok => @addTempForecast_frame t x tok)
                t1 c1 F1) as F2.
  destruct (repeatWhile addTempForecast t1 c1 (skipn c1 tokens))
    as [t2 c2] eqn:E2.
  apply repeatWhile_count in E2. simpl in F2.
  step H. split; [exact F2 | lia].
Qed.

(** One turn of the body loop of a TAF: the counterpart of
    [decodeMetar_body_spec]. *)
Lemma decodeTAF_body_spec t count tokens t' count' :
  (count < List.length tokens)%nat ->
  decodeTAF_body t count tokens = Ok (t', count') ->
  exists t1 c1,
    decodeTAF_groups t count tokens = Ok (t1, c1)
    /\ (count <= c1)%nat
    /\ TAFMessage.NotDecodedTokens t1 = TAFMessage.NotDecodedTokens t
    /\ TAF_kept t t'
    /\ ((exists tok, nth_error tokens c1 = Some tok
                     /\ count' = S c1
                     /\ TAFMessage.NotDecodedTokens t'
                        = TAFMessage.NotDecodedTokens t ++ [tok])
        \/ ((List.length tokens <= c1)%nat /\ count' = c1 /\ t' = t1)).
Proof.
  unfold decodeTAF_body. intros Hlt H.
  apply bind_Ok in H as ([t1 c1] & E1 & H).
  exists t1, c1. split; [exact E1|].
  apply decodeTAF_groups_frame in E1 as ((F1 & F3) & Hc1).
  split; [exact Hc1|]. split; [exact F3|].
  unfold TAF_notDecoded in H.
  destruct (c1 <? List.length tokens)%nat eqn:Elt.
  - apply bind_Ok in H as (tok & Etok & H). step H.
    apply index_Ok in Etok as [Etok _]. simpl.
    split; [exact F1|]. left. exists tok.
    rewrite F3. repeat split; assumption.
  - step H. apply Nat.ltb_ge in Elt.
    split; [exact F1|]. right. repeat split; assumption.
Qed.

Lemma decodeTAF_body_advances t count tokens t' count' :
  (count < List.length tokens)%nat ->
  decodeTAF_body t count tokens = Ok (t', count') ->
  (count < count')%nat.
Proof.
  intros Hlt H.
  destruct (@decodeTAF_body_spec _ _ _ _ _ Hlt H)
    as (t1 & c1 & _ & Hc1 & _ & _ & [(tok & _ & -> & _) | (Hge & -> & _)]);
    lia.
Qed.

Lemma decodeTAF_loop_frame fuel tokens :
  forall t count t',
    decodeTAF_loop fuel t count tokens = Ok t' -> TAF_kept t t'.
Proof.
  induction fuel as [|fuel IH]; intros t count t' H; simpl in H.
  - repeat step H. repeat split.
  - destruct (count <? List.length tokens)%nat eqn:Elt.
    + apply bind_Ok in H as ([t1 c1] & E1 & H).
      apply Nat.ltb_lt in Elt.
      destruct (@decodeTAF_body_spec _ _ _ _ _ Elt E1)
        as (_ & _ & _ & _ & _ & K1 & _).
      apply IH in H. exact (TAF_kept_trans K1 H).
    + step H. repeat split.
Qed.

End TafFrame.

(** ** Anchored patterns *)

Lemma search_anchored r' pos s :
  (0 < pos)%nat -> search (Cat Bol r') pos s = None.
Proof.
  revert pos. induction s as [|c s IH]; intros pos Hpos; simpl.
  - destruct pos; [lia|]. reflexivity.
  - destruct pos; [lia|]. simpl. apply IH. lia.
Qed.

(** A pattern that begins with [^] is tried at the start of the text only. *)
Lemma find_anchored r' s :
  FindStringSubmatch (Cat Bol r') s
  = run (Cat Bol r') 0 s (repeat EmptyString (S (groups (Cat Bol r'))))
      (fun pos' _ c => Some (set_nth 0 (take (pos' - 0) s) c)).
Proof.
  unfold FindStringSubmatch. destruct s as [|c s]; cbn [search].
  - destruct (run _ _ _ _ _); reflexivity.
  - destruct (run _ _ _ _ _); [reflexivity|]. apply search_anchored. lia.
Qed.

(** Walks through a hypothesis that holds an unfolded match of a pattern
    against an unknown text, one byte at a time. *)
Ltac chew H :=
  repeat match type of H with
         | context [match ?s with EmptyString => _ | String _ _ => _ end] =>
             is_var s; destruct s; try discriminate H
         | context [if ?b then _ else _] =>
             destruct b eqn:?; try discriminate H
         | context [match ?x with Some _ => _ | None => _ end] =>
             destruct x eqn:?; try discriminate H
         end.

(** ** No loop of the decoder runs out of fuel *)

Section Fuel.
Context {C : Collaborators} {G : Globals}.

(** A match of the wind-shear pattern fills group 2 or group 3, so every
    turn of the loop of [appendWindShears] moves its cursor. *)
Lemma rxWindShear_groups s m :
  FindStringSubmatch rxWindShear s = Some m ->
  Regexp.sub m 2 <> EmptyString \/ Regexp.sub m 3 <> EmptyString.
Proof.
  intros H. unfold rxWindShear in H. cbn [seq] in H.
  rewrite find_anchored in H. cbn in H. chew H.
  all: inversion H; subst; cbn;
    try (left; discriminate); try (right; discriminate).
Qed.

Lemma slice_from_fuel s lo : slice_from s lo <> OutOfFuel.
Proof. unfold slice_from. destruct (_ <=? _)%nat; discriminate. Qed.

Lemma slice_to_fuel s hi : slice_to s hi <> OutOfFuel.
Proof. unfold slice_to. destruct (_ <=? _)%nat; discriminate. Qed.

Lemma slice_fuel s lo hi : slice s lo hi <> OutOfFuel.
Proof. unfold slice. destruct (_ && _); discriminate. Qed.

Create HintDb nofuel.
Hint Resolve index_not_OutOfFuel from_not_OutOfFuel slice_from_fuel
  slice_to_fuel slice_fuel : nofuel.

(** Splits a goal [code <> OutOfFuel] along the binds, matches and tests of
    the code. *)
Ltac no_fuel :=
  repeat first
    [ discriminate
    | solve [auto with nofuel]
    | apply bind_not_OutOfFuel; [|intros ? ?]
    | match goal with
      | |- (match ?x with _ => _ end) <> OutOfFuel => destruct x
      | |- (if ?x then _ else _) <> OutOfFuel => destruct x
      | |- (let '(_, _) := ?x in _) <> OutOfFuel => destruct x
      end ].

Lemma ParseWind_fuel w token : wind.ParseWind w token <> OutOfFuel.
Proof. unfold wind.ParseWind. no_fuel. Qed.

Lemma parseTime_fuel input : parseTime input <> OutOfFuel.
Proof. unfold parseTime. no_fuel. Qed.

Hint Resolve ParseWind_fuel parseTime_fuel : nofuel.

Lemma setDateTime_fuel trend input : setDateTime trend input <> OutOfFuel.
Proof. unfold setDateTime. no_fuel. Qed.

Lemma setAltimetr_fuel m input : setAltimetr m input <> OutOfFuel.
Proof. unfold setAltimetr. no_fuel. Qed.

Lemma setMetarWeatherCondition_fuel m count tokens :
  setMetarWeatherCondition m count tokens <> OutOfFuel.
Proof. unfold setMetarWeatherCondition. no_fuel. Qed.

Hint Resolve setDateTime_fuel setAltimetr_fuel
  setMetarWeatherCondition_fuel : nofuel.

Lemma periodsOfChanges_fuel rest :
  forall trend count, periodsOfChanges trend count rest <> OutOfFuel.
Proof.
  induction rest as [|tok rest IH]; intros trend count; simpl.
  - discriminate.
  - destruct (setPeriodOfChanges trend tok) as [t ok].
    destruct ok; [apply IH | discriminate].
Qed.

Lemma periodsOfChanges_count rest :
  forall trend count trend' count',
    periodsOfChanges trend count rest = Ok (trend', count') ->
    (count <= count')%nat.
Proof.
  induction rest as [|tok rest IH]; intros trend count trend' count' H;
    simpl in H.
  - discriminate.
  - destruct (setPeriodOfChanges trend tok) as [t ok]. destruct ok.
    + apply IH in H. lia.
    + inversion H. lia.
Qed.

Lemma appendWindShears_loop_fuel tokens :
  forall fuel m count ok used,
    (List.length tokens - count <= fuel)%nat ->
    appendWindShears_loop fuel m tokens count ok used <> OutOfFuel.
Proof.
  induction fuel as [|fuel IH]; intros m count ok used Hf; simpl.
  - apply bind_not_OutOfFuel; [apply from_not_OutOfFuel|].
    intros rest E. apply from_Ok in E as [-> Hle].
    assert (count = List.length tokens) as -> by lia.
    rewrite skipn_all. discriminate.
  - apply bind_not_OutOfFuel; [apply from_not_OutOfFuel|].
    intros rest E. apply from_Ok in E as [-> Hle].
    destruct (FindStringSubmatch rxWindShear (Join (skipn count tokens)))
      as [m0|] eqn:Em; [|discriminate].
    destruct (rxWindShear_groups _ Em) as [H2|H3].
    + apply String.eqb_neq in H2. rewrite H2. cbn [negb].
      destruct (negb (Regexp.sub m0 3 =? EmptyString)%string);
        apply IH; lia.
    + apply String.eqb_neq in H3. rewrite H3. cbn [negb].
      destruct (negb (Regexp.sub m0 2 =? EmptyString)%string);
        apply IH; lia.
Qed.

Lemma decodeMetar_groups_fuel m count tokens :
  decodeMetar_groups m count tokens <> OutOfFuel.
Proof.
  unfold decodeMetar_groups.
  apply bind_not_OutOfFuel; [apply from_not_OutOfFuel|]. intros rest Er.
  apply bind_not_OutOfFuel; [apply ParseWind_fuel|]. intros [w used] Ew.
  apply bind_not_OutOfFuel; [apply index_not_OutOfFuel|]. intros tok Etok.
  apply bind_not_OutOfFuel.
  { destruct (tok =? "CAVOK")%string;
      [discriminate | apply setMetarWeatherCondition_fuel]. }
  intros [m1 c1] E1.
  apply bind_not_OutOfFuel; [apply index_not_OutOfFuel|]. intros tok2 Etok2.
  destruct (setTemperature m1 tok2) as [m2 ok2].
  apply bind_not_OutOfFuel; [apply index_not_OutOfFuel|]. intros tok3 Etok3.
  apply bind_not_OutOfFuel; [apply setAltimetr_fuel|]. intros [m3 ok3] E3.
  destruct (repeatWhile appendRecentPhenomena _ _ _) as [m4 c4].
  apply bind_not_OutOfFuel.
  { apply appendWindShears_loop_fuel. lia. }
  intros [[m5 ok5] used5] E5. discriminate.
Qed.

Lemma decodeMetar_body_fuel m count tokens :
  decodeMetar_body m count tokens <> OutOfFuel.
Proof.
  unfold decodeMetar_body.
  apply bind_not_OutOfFuel; [apply decodeMetar_groups_fuel|].
  intros [m1 c1] _. unfold Metar_notDecoded. no_fuel.
Qed.

Lemma decodeMetar_loop_fuel tokens :
  forall fuel m count,
    (List.length tokens - count <= fuel)%nat ->
    decodeMetar_loop fuel m count tokens <> OutOfFuel.
Proof.
  induction fuel as [|fuel IH]; intros m count Hf; simpl;
    destruct (count <? List.length tokens)%nat eqn:Elt; try discriminate.
  - apply Nat.ltb_lt in Elt. lia.
  - apply Nat.ltb_lt in Elt.
    apply bind_not_OutOfFuel; [apply decodeMetar_body_fuel|].
    intros [m1 c1] E1. apply decodeMetar_body_advances in E1; [|exact Elt].
    apply IH. lia.
Qed.

Lemma decodeTAF_body_fuel t count tokens :
  decodeTAF_body t count tokens <> OutOfFuel.
Proof.
  unfold decodeTAF_body, decodeTAF_groups, TAF_notDecoded. no_fuel.
Qed.

Lemma decodeTAF_loop_fuel tokens :
  forall fuel t count,
    (List.length tokens - count <= fuel)%nat ->
    decodeTAF_loop fuel t count tokens <> OutOfFuel.
Proof.
  induction fuel as [|fuel IH]; intros t count Hf; simpl;
    destruct (count <? List.length tokens)%nat eqn:Elt; try discriminate.
  - apply Nat.ltb_lt in Elt. lia.
  - apply Nat.ltb_lt in Elt.
    apply bind_not_OutOfFuel; [apply decodeTAF_body_fuel|].
    intros [t1 c1] E1. apply decodeTAF_body_advances in E1; [|exact Elt].
    apply IH. lia.
Qed.

End Fuel.

(** ** The trend walk *)

Section TrendWalk.
Context {C : Collaborators} {G : Globals}.

(** A turn of the trend loop that reaches its end leaves the cursor where
    it was or further on; the loop's own [count++] then moves it on. *)
Lemma parseTrendData_body_count trend count tokens trend' count' :
  parseTrendData_body trend count tokens = Ok (Continue (trend', count')) ->
  (count <= count')%nat.
Proof.
  unfold parseTrendData_body. intros H.
  apply bind_Ok in H as (tok1 & _ & H).
  destruct (setProbability trend tok1) as [t1 ok1].
  apply bind_Ok in H as (tok2 & _ & H).
  destruct (setTypeOfTrend t1 tok2) as [t2 ok2].
  apply bind_Ok in H as ([t3 c3] & E3 & H).
  apply periodsOfChanges_count in E3.
  apply bind_Ok in H as (tok4 & _ & H).
  apply bind_Ok in H as ([t4 ok4] & _ & H).
  apply bind_Ok in H as (tok5 & _ & H).
  apply bind_Ok in H as ([w used] & _ & H).
  match type of H with
  | (if ?b then _ else _) = _ => destruct b
  end; [discriminate|].
  inversion H as [Hd]. clear H.
  match type of Hd with
  | decodeWeatherCondition ?t ?c ?toks = _ =>
      pose proof (@decodeWeatherCondition_keeps _ _ (fun _ => True)
                    (fun _ _ _ => I) (fun _ _ _ => I) (fun _ _ _ => I)
                    (fun _ _ _ => I) t c toks I) as [_ K]
  end.
  rewrite Hd in K. simpl in K. destruct ok1, ok2, ok4; lia.
Qed.

Lemma parseTrendData_body_fuel trend count tokens :
  parseTrendData_body trend count tokens <> OutOfFuel.
Proof.
  unfold parseTrendData_body.
  apply bind_not_OutOfFuel; [apply index_not_OutOfFuel|]. intros tok1 _.
  destruct (setProbability trend tok1) as [t1 ok1].
  apply bind_not_OutOfFuel; [apply index_not_OutOfFuel|]. intros tok2 _.
  destruct (setTypeOfTrend t1 tok2) as [t2 ok2].
  apply bind_not_OutOfFuel; [apply periodsOfChanges_fuel|]. intros [t3 c3] _.
  apply bind_not_OutOfFuel; [apply index_not_OutOfFuel|]. intros tok4 _.
  apply bind_not_OutOfFuel; [apply setDateTime_fuel|]. intros [t4 ok4] _.
  apply bind_not_OutOfFuel; [apply index_not_OutOfFuel|]. intros tok5 _.
  apply bind_not_OutOfFuel; [apply ParseWind_fuel|]. intros [w used] _.
  match goal with
  | |- (if ?b then _ else _) <> _ => destruct b
  end; discriminate.
Qed.

Lemma parseTrendData_loop_fuel tokens :
  forall fuel trend count,
    (List.length tokens - count <= fuel)%nat ->
    parseTrendData_loop fuel trend count tokens <> OutOfFuel.
Proof.
  induction fuel as [|fuel IH]; intros trend count Hf; simpl;
    destruct (count <? List.length tokens)%nat eqn:Elt; try discriminate.
  - apply Nat.ltb_lt in Elt. lia.
  - apply Nat.ltb_lt in Elt.
    apply bind_not_OutOfFuel; [apply parseTrendData_body_fuel|].
    intros [t1 | [t1 c1]] E1; [discriminate|].
    apply parseTrendData_body_count in E1. apply IH. lia.
Qed.

(** [parseTrendData] returns a trend or panics. *)
Lemma parseTrendData_fuel tokens : parseTrendData tokens <> OutOfFuel.
Proof. apply parseTrendData_loop_fuel. lia. Qed.

Lemma obscurations_count rest :
  forall RMK count RMK' count',
    obscurations RMK count rest = (RMK', count') -> (count <= count')%nat.
Proof.
  induction rest as [rest IH] using (well_founded_induction
    (well_founded_ltof _ (@List.length string))).
  intros RMK count RMK' count' H.
  destruct rest as [|tok [|next rest']]; simpl in H; try (inversion H; lia).
  destruct (next =? "OBSC")%string; [|inversion H; lia].
  apply IH in H; [lia|]. unfold ltof. simpl. lia.
Qed.

Lemma parseRemarks_body_count RMK count tokens RMK' count' :
  parseRemarks_body RMK count tokens = Ok (RMK', count') ->
  (count < count')%nat.
Proof.
  unfold parseRemarks_body. intros H.
  apply bind_Ok in H as (tok & _ & H).
  apply bind_Ok in H as ([R1 c1] & E1 & H).
  assert (Hc1 : (count <= c1)%nat).
  { destruct (FindStringSubmatch rxWindOnRWY tok);
      [destruct (negb _)|]; try (inversion E1; lia).
    apply bind_Ok in E1 as (rw & _ & E1).
    apply bind_Ok in E1 as (input & _ & E1).
    apply bind_Ok in E1 as ([w used] & _ & E1). inversion E1; lia. }
  match type of H with
  | (let '(_, _) := ?x in _) = _ => destruct x as [R2 c2] eqn:E2
  end.
  assert (Hc2 : (c1 <= c2)%nat).
  { destruct (nth_error tokens c1) as [tk|];
      [destruct (HasPrefix tk "QBB")|]; inversion E2; lia. }
  destruct (obscurations R2 c2 (skipn c2 tokens)) as [R3 c3] eqn:E3.
  apply obscurations_count in E3.
  apply bind_Ok in H as ([R4 c4] & E4 & H).
  assert (Hc4 : (c3 <= c4)%nat).
  { destruct (nth_error tokens c3) as [tk|];
      [destruct (HasPrefix tk "QFE")|]; try (inversion E4; lia).
    apply bind_Ok in E4 as (q & _ & E4). inversion E4; lia. }
  inversion H; lia.
Qed.

Lemma parseRemarks_body_fuel RMK count tokens :
  parseRemarks_body RMK count tokens <> OutOfFuel.
Proof.
  unfold parseRemarks_body.
  apply bind_not_OutOfFuel; [apply index_not_OutOfFuel|]. intros tok _.
  apply bind_not_OutOfFuel.
  { destruct (FindStringSubmatch rxWindOnRWY tok);
      [destruct (negb _)|]; try discriminate.
    apply bind_not_OutOfFuel; [apply slice_from_fuel|]. intros rw _.
    apply bind_not_OutOfFuel.
    { destruct (_ <? _)%nat; [|discriminate].
      apply bind_not_OutOfFuel; [apply index_not_OutOfFuel|].
      intros; discriminate. }
    intros input _.
    apply bind_not_OutOfFuel; [apply ParseWind_fuel|]. intros [w used] _.
    discriminate. }
  intros [R1 c1] _.
  match goal with
  | |- (let '(_, _) := ?x in _) <> _ => destruct x as [R2 c2]
  end.
  destruct (obscurations R2 c2 (skipn c2 tokens)) as [R3 c3].
  apply bind_not_OutOfFuel; [|intros [R4 c4] _; discriminate].
  destruct (nth_error tokens c3) as [tk|];
    [destruct (HasPrefix tk "QFE")|]; try discriminate.
  apply bind_not_OutOfFuel; [apply slice_fuel|]. intros; discriminate.
Qed.

Lemma parseRemarks_loop_fuel tokens :
  forall fuel RMK count,
    (List.length tokens - count <= fuel)%nat ->
    parseRemarks_loop fuel RMK count tokens <> OutOfFuel.
Proof.
  induction fuel as [|fuel IH]; intros RMK count Hf; simpl;
    destruct (count <? List.length tokens)%nat eqn:Elt; try discriminate.
  - apply Nat.ltb_lt in Elt. lia.
  - apply bind_not_OutOfFuel; [apply parseRemarks_body_fuel|].
    intros [R1 c1] E1. apply parseRemarks_body_count in E1. apply IH. lia.
Qed.

Lemma parseRemarks_fuel tokens : parseRemarks tokens <> OutOfFuel.
Proof.
  unfold parseRemarks. destruct tokens as [|tok tokens]; [discriminate|].
  apply bind_not_OutOfFuel; [|intros; discriminate].
  apply parseRemarks_loop_fuel. lia.
Qed.

End TrendWalk.

(** ** The whole decode *)

Section Decode.
Context {C : Collaborators} {G : Globals}.

Lemma appendTrends_spec trends :
  forall m m',
    appendTrends m trends = Ok m' ->
    (MetarMessage.RawData m' = MetarMessage.RawData m
     /\ MetarMessage.NIL m' = MetarMessage.NIL m
     /\ MetarMessage.Station m' = MetarMessage.Station m
     /\ MetarMessage.DateTime m' = MetarMessage.DateTime m)
    /\ exists ts,
         Forall2 (fun trendstr trend => parseTrendData trendstr = Ok trend)
           trends ts
         /\ MetarMessage.TREND m' = MetarMessage.TREND m ++ ts.
Proof.
  induction trends as [|trendstr trends IH]; intros m m' H; simpl in H.
  - step H. split; [repeat split|]. exists []. split; [constructor|].
    rewrite app_nil_r. reflexivity.
  - apply bind_Ok in H as (m1 & E1 & H). unfold appendTrend in E1.
    apply bind_Ok in E1 as (trend & Et & E1). step E1.
    apply IH in H as (R & ts & F & T). simpl in *.
    split; [exact R|]. exists (trend :: ts). split.
    + constructor; assumption.
    + rewrite T, <- app_assoc. reflexivity.
Qed.

Lemma appendTrends_fuel trends :
  forall m, appendTrends m trends <> OutOfFuel.
Proof.
  induction trends as [|trendstr trends IH]; intros m; simpl.
  - discriminate.
  - apply bind_not_OutOfFuel; [|intros; apply IH].
    unfold appendTrend. apply bind_not_OutOfFuel;
      [apply parseTrendData_fuel | intros; discriminate].
Qed.

Lemma TAF_appendTrends_spec trends :
  forall t t',
    TAF_appendTrends t trends = Ok t' ->
    (TAFMessage.RawData t' = TAFMessage.RawData t
     /\ TAFMessage.NIL t' = TAFMessage.NIL t
     /\ TAFMessage.CNL t' = TAFMessage.CNL t
     /\ TAFMessage.Station t' = TAFMessage.Station t
     /\ TAFMessage.DateTime t' = TAFMessage.DateTime t)
    /\ exists ts,
         Forall2 (fun trendstr trend => parseTrendData trendstr = Ok trend)
           trends ts
         /\ TAFMessage.TREND t' = TAFMessage.TREND t ++ ts.
Proof.
  induction trends as [|trendstr trends IH]; intros t t' H; simpl in H.
  - step H. split; [repeat split|]. exists []. split; [constructor|].
    rewrite app_nil_r. reflexivity.
  - apply bind_Ok in H as (trend & Et & H).
    apply IH in H as (R & ts & F & T). simpl in *.
    split; [exact R|]. exists (trend :: ts). split.
    + constructor; assumption.
    + rewrite T, <- app_assoc. reflexivity.
Qed.

Lemma TAF_appendTrends_fuel trends :
  forall t, TAF_appendTrends t trends <> OutOfFuel.
Proof.
  induction trends as [|trendstr trends IH]; intros t; simpl.
  - discriminate.
  - apply bind_not_OutOfFuel; [apply parseTrendData_fuel | intros; apply IH].
Qed.

Lemma setTimeRange_frame t fromStr toStr t' :
  setTimeRange t fromStr toStr = Ok t' -> TAF_frame t t'.
Proof.
  unfold setTimeRange. intros H.
  apply bind_Ok in H as (hh & _ & H).
  apply bind_Ok in H as (t1 & E1 & H).
  assert (F1 : TAF_frame t t1).
  { destruct (hh =? "24")%string.
    - apply bind_Ok in E1 as (dd & _ & E1). step E1. repeat split.
    - step E1. repeat split. }
  step H.
  repeat match goal with
         | |- context [if ?b then _ else _] => destruct b
         end; exact F1.
Qed.

Unset Implicit Arguments.

(** What a decode of [NewMETAR] that returns has gone through. *)
Lemma NewMETAR_inv inputtext m err :
  NewMETAR inputtext = Ok (m, err) ->
  MetarMessage.RawData m = inputtext
  /\ (err = Some notValidMessage /\ Metar_notValid m = true
        /\ m = fst (NewMETAR_header inputtext)
      \/ err = None /\ Metar_notValid m = false
         /\ MetarMessage.NIL m = true
         /\ m = fst (NewMETAR_header inputtext)
      \/ err = None /\ Metar_notValid m = false
         /\ MetarMessage.NIL m = false
         /\ exists remarks trends totalcount,
              Metar_split (Split inputtext)
                (Metar_headerCount (snd (NewMETAR_header inputtext)))
              = (remarks, trends, totalcount)
              /\ Forall2
                   (fun trendstr trend => parseTrendData trendstr = Ok trend)
                   trends (MetarMessage.TREND m)).
Proof.
  unfold NewMETAR. intros H.
  destruct (NewMETAR_header inputtext) as [h headermap] eqn:Eh.
  assert (Hraw : MetarMessage.RawData h = inputtext
                 /\ MetarMessage.TREND h = []).
  { replace h with (fst (NewMETAR_header inputtext)) by (rewrite Eh; reflexivity).
    split; reflexivity. }
  destruct Hraw as [Hraw Htrend]. simpl fst; simpl snd.
  destruct (Metar_notValid h) eqn:Ev.
  - inversion H; subst m err. split; [exact Hraw|]. left. repeat split.
    exact Ev.
  - destruct (MetarMessage.NIL h) eqn:En.
    + inversion H; subst m err. split; [exact Hraw|]. right; left.
      repeat split; assumption.
    + rewrite Hraw in H.
      destruct (Metar_split (Split inputtext) (Metar_headerCount headermap))
        as [[remarks trends] totalcount] eqn:Es.
      apply bind_Ok in H as (m1 & E1 & H).
      apply bind_Ok in H as (RMK & ER & H).
      apply bind_Ok in H as (body & Eb & H).
      apply bind_Ok in H as (m2 & E2 & H).
      inversion H; subst m2 err. clear H.
      apply appendTrends_spec in E1 as ((R1 & N1 & S1 & D1) & ts & F & T1).
      apply decodeMetar_frame in E2 as (R2 & T2 & N2 & S2 & D2).
      simpl in R2, T2, N2, S2, D2.
      split; [congruence|]. right; right.
      split; [reflexivity|]. split.
      { unfold Metar_notValid in *. rewrite S2, D2, S1, D1. exact Ev. }
      split; [congruence|].
      exists remarks, trends, totalcount. split; [reflexivity|].
      rewrite T2, T1, Htrend. exact F.
Qed.

(** What a decode of [NewTAF] that returns has gone through. *)
Lemma NewTAF_inv inputtext t :
  NewTAF inputtext = Ok t ->
  TAFMessage.RawData t = inputtext
  /\ (TAF_notValid t = true
        /\ t = TAFMessage.set_NotDecodedTokens [inputtext]
                 (fst (NewTAF_header inputtext))
      \/ TAF_notValid t = false /\ TAFMessage.NIL t = true
         /\ t = fst (NewTAF_header inputtext)
      \/ TAF_notValid t = false /\ TAFMessage.NIL t = false
         /\ TAFMessage.CNL t = true
      \/ TAF_notValid t = false /\ TAFMessage.NIL t = false
         /\ TAFMessage.CNL t = false
         /\ exists trends endposition,
              findTrends_loop (Split inputtext)
                (TAF_headerCount (snd (NewTAF_header inputtext)))
                (List.length (Split inputtext) - 1) []
                (List.length (Split inputtext))
              = (trends, endposition)
              /\ Forall2
                   (fun trendstr trend => parseTrendData trendstr = Ok trend)
                   trends (TAFMessage.TREND t)).
Proof.
  unfold NewTAF. intros H.
  destruct (NewTAF_header inputtext) as [h headermap] eqn:Eh.
  assert (Hraw : TAFMessage.RawData h = inputtext
                 /\ TAFMessage.TREND h = []
                 /\ TAFMessage.NotDecodedTokens h = []).
  { replace h with (fst (NewTAF_header inputtext)) by (rewrite Eh; reflexivity).
    split; [reflexivity|]. split; reflexivity. }
  destruct Hraw as (Hraw & Htrend & Hnd). simpl fst; simpl snd.
  destruct (TAF_notValid h) eqn:Ev.
  - inversion H; subst t. split; [exact Hraw|]. left.
    rewrite Hnd, Hraw. split; [exact Ev | reflexivity].
  - destruct (TAFMessage.NIL h) eqn:En.
    + inversion H; subst t. split; [exact Hraw|]. right; left.
      repeat split; assumption.
    + apply bind_Ok in H as (t1 & E1 & H).
      apply setTimeRange_frame in E1
        as ((R1 & T1 & N1 & C1 & S1 & D1) & _).
      assert (Ev1 : TAF_notValid t1 = false).
      { unfold TAF_notValid in *. rewrite S1, D1. exact Ev. }
      destruct (TAFMessage.CNL t1) eqn:Ec.
      * inversion H; subst t. split; [congruence|]. right; right; left.
        repeat split; congruence.
      * rewrite R1, Hraw in H.
        apply bind_Ok in H as ([t2 endposition] & E2 & H).
        apply bind_Ok in H as (body & Eb & H).
        unfold findTrendsInMessage in E2.
        destruct (findTrends_loop (Split inputtext)
                    (TAF_headerCount headermap)
                    (List.length (Split inputtext) - 1) []
                    (List.length (Split inputtext)))
          as [trends e] eqn:Es.
        apply bind_Ok in E2 as (t3 & E3 & E2).
        inversion E2; subst t3 e. clear E2.
        apply TAF_appendTrends_spec in E3
          as ((R3 & N3 & C3 & S3 & D3) & ts & F & T3).
        apply decodeTAF_loop_frame in H
          as (R4 & T4 & N4 & C4 & S4 & D4).
        split; [congruence|]. right; right; right.
        split. { unfold TAF_notValid in *. rewrite S4, D4, S3, D3. exact Ev1. }
        split; [congruence|]. split; [congruence|].
        exists trends, endposition. split; [reflexivity|].
        rewrite T4, T3, T1, Htrend. exact F.
Qed.

(** [NewMETAR] and [NewTAF] return or panic on every input: the fuel of
    their loops is never used up. *)
Lemma NewMETAR_fuel inputtext : NewMETAR inputtext <> OutOfFuel.
Proof.
  unfold NewMETAR.
  destruct (NewMETAR_header inputtext) as [h headermap].
  destruct (Metar_notValid h); [discriminate|].
  destruct (MetarMessage.NIL h); [discriminate|].
  destruct (Metar_split _ _) as [[remarks trends] totalcount].
  apply bind_not_OutOfFuel; [apply appendTrends_fuel|]. intros m1 _.
  apply bind_not_OutOfFuel; [apply parseRemarks_fuel|]. intros RMK _.
  apply bind_not_OutOfFuel.
  { unfold GoSlice.sub. destruct (_ && _); discriminate. }
  intros body _.
  apply bind_not_OutOfFuel; [|intros; discriminate].
  unfold decodeMetar.
  apply bind_not_OutOfFuel; [apply index_not_OutOfFuel|]. intros last _.
  destruct (last =? "NOSIG")%string; apply decodeMetar_loop_fuel; lia.
Qed.

Lemma NewTAF_fuel inputtext : NewTAF inputtext <> OutOfFuel.
Proof.
  unfold NewTAF.
  destruct (NewTAF_header inputtext) as [h headermap].
  destruct (TAF_notValid h); [discriminate|].
  destruct (TAFMessage.NIL h); [discriminate|].
  apply bind_not_OutOfFuel.
  { unfold setTimeRange.
    apply bind_not_OutOfFuel; [apply slice_from_fuel|]. intros hh _.
    apply bind_not_OutOfFuel; [|intros; discriminate].
    destruct (hh =? "24")%string; [|discriminate].
    apply bind_not_OutOfFuel; [apply slice_to_fuel | intros; discriminate]. }
  intros t1 _. destruct (TAFMessage.CNL t1); [discriminate|].
  apply bind_not_OutOfFuel.
  { unfold findTrendsInMessage. destruct (findTrends_loop _ _ _ _ _).
    apply bind_not_OutOfFuel; [apply TAF_appendTrends_fuel|].
    intros; discriminate. }
  intros [t2 endposition] _.
  apply bind_not_OutOfFuel.
  { unfold GoSlice.sub. destruct (_ && _); discriminate. }
  intros body _. apply decodeTAF_loop_fuel. lia.
Qed.

End Decode.

(** ** Calendar resolution *)









Lemma daysIn_28 m y : (28 <= time.daysIn m y)%Z.
Proof.
  unfold time.daysIn.
  destruct (m =? 2)%Z; [destruct (time.isLeap y); lia|].
  destruct (_ || _); lia.
Qed.

(** [AddDate(0, 1, 0)] of a day up to the 28th is the same day of the next
    calendar month. *)
Lemma AddMonth_next t :
  (time.Day t <= 28)%Z -> time.AddMonth t = sameDayNextMonth t.
Proof.
  intros Hd. unfold time.AddMonth, sameDayNextMonth.
  destruct (time.Month t <? 12)%Z.
  - pose proof (daysIn_28 (time.Month t + 1) (time.Year t)).
    destruct (time.Day t <=? _)%Z eqn:E; [reflexivity|].
    apply Z.leb_gt in E. lia.
  - pose proof (daysIn_28 1 (time.Year t + 1)).
    destruct (time.Day t <=? _)%Z eqn:E; [reflexivity|].
    apply Z.leb_gt in E. lia.
Qed.



Section Resolution.
Context {C : Collaborators} {G : Globals}.


(** [setTimeRange] resolves the begin with [time.Parse] and the end as
    [parseTime] does, and then applies the month rollover to both. *)
Lemma setTimeRange_rollover t fromStr toStr t' vt err :
  setTimeRange t fromStr toStr = Ok t' ->
  parseTime toStr = Ok (vt, err) ->
  TAFMessage.ValidFrom t'
  = rollover (TAFMessage.DateTime t)
      (fst (time.Parse time.layout_2006010215
              (CurYearStr ++ CurMonthStr ++ fromStr)%string))
  /\ TAFMessage.ValidTo t' = rollover (TAFMessage.DateTime t) vt.
Proof.
  intros H HP.
  unfold setTimeRange in H. unfold parseTime in HP.
  apply bind_Ok in H as (hh & Ehh & H). rewrite Ehh in HP. cbn [bind] in HP.
  apply bind_Ok in H as (t1 & E1 & H).
  assert (E : t1 = TAFMessage.set_ValidTo vt
                     (TAFMessage.set_ValidFrom
                        (fst (time.Parse time.layout_2006010215
                                (CurYearStr ++ CurMonthStr ++ fromStr)%string))
                        t)).
  { destruct (hh =? "24")%string.
    - apply bind_Ok in E1 as (dd & Edd & E1). rewrite Edd in HP.
      cbn [bind] in HP. cbv zeta in HP.
      destruct (time.Parse _ _) as [p e]. inversion HP; subst.
      inversion E1. reflexivity.
    - inversion HP as [HP']. rewrite HP' in E1. inversion E1. reflexivity. }
  subst t1. inversion H; subst t'. clear H. unfold rollover.
  set (vf := fst (time.Parse time.layout_2006010215
                    (CurYearStr ++ CurMonthStr ++ fromStr)%string)).
  cbn [TAFMessage.ValidFrom TAFMessage.ValidTo TAFMessage.DateTime
       TAFMessage.set_ValidFrom TAFMessage.set_ValidTo].
  destruct (time.Day vf <? time.Day (TAFMessage.DateTime t))%Z;
    cbn [TAFMessage.ValidFrom TAFMessage.ValidTo TAFMessage.DateTime
         TAFMessage.set_ValidFrom TAFMessage.set_ValidTo];
    destruct (time.Day vt <? time.Day (TAFMessage.DateTime t))%Z;
    cbn [TAFMessage.ValidFrom TAFMessage.ValidTo TAFMessage.DateTime
         TAFMessage.set_ValidFrom TAFMessage.set_ValidTo];
    split; reflexivity.
Qed.


End Resolution.

(** * The claims *)

Section Claims.
Context {C : Collaborators} {G : Globals}.

(** C10. A token string that [Wind.ParseWind] does not match makes it
    return 0 tokens consumed and leaves every field of the receiver as it
    was: nothing is written before the match test has passed. *)
Theorem ParseWind_no_match (w : wind.Wind) (token : string) :
  MatchString wind.rx token = false ->
  wind.ParseWind w token = Ok (w, 0%nat).
Proof.
  intros H. unfold wind.ParseWind. rewrite H. reflexivity.
Qed.

(** C9. Decoding the [RAW()] text of a decoded record, with the same
    reference date, gives the record of the first decode again; this holds
    of [NewMETAR] (record and error) and of [NewTAF]. *)
Theorem redecode_own_raw_text :
  (forall inputtext m err,
      NewMETAR inputtext = Ok (m, err) ->
      NewMETAR (Metar_RAW m) = Ok (m, err))
  /\ (forall inputtext t,
         NewTAF inputtext = Ok t -> NewTAF (TAF_RAW t) = Ok t).
Proof.
  split.
  - intros inputtext m err H. unfold Metar_RAW.
    destruct (NewMETAR_inv _ _ _ H) as [-> _]. exact H.
  - intros inputtext t H. unfold TAF_RAW.
    destruct (NewTAF_inv _ _ H) as [-> _]. exact H.
Qed.

(** C7. The Trend list of a decoded message holds one Trend per trend
    group that the splitter cut out, in the order of the groups in the
    message: the groups are consecutive pieces of the token list from left
    to right, and the n-th Trend is the decode of the n-th group. *)
Theorem trends_in_message_order :
  (forall inputtext m,
      NewMETAR inputtext = Ok (m, None) ->
      MetarMessage.NIL m = false ->
      exists remarks trends totalcount hi,
        Metar_split (Split inputtext)
          (Metar_headerCount (snd (NewMETAR_header inputtext)))
        = (remarks, trends, totalcount)
        /\ List.concat trends = segment totalcount hi (Split inputtext)
        /\ Forall2 (fun trendstr trend => parseTrendData trendstr = Ok trend)
             trends (MetarMessage.TREND m))
  /\ (forall inputtext t,
         NewTAF inputtext = Ok t ->
         TAF_notValid t = false ->
         TAFMessage.NIL t = false ->
         TAFMessage.CNL t = false ->
         exists trends endposition hi,
           findTrends_loop (Split inputtext)
             (TAF_headerCount (snd (NewTAF_header inputtext)))
             (List.length (Split inputtext) - 1) []
             (List.length (Split inputtext))
           = (trends, endposition)
           /\ List.concat trends = segment endposition hi (Split inputtext)
           /\ Forall2
                (fun trendstr trend => parseTrendData trendstr = Ok trend)
                trends (TAFMessage.TREND t)).
Proof.
  split.
  - intros inputtext m H Hnil.
    destruct (NewMETAR_inv _ _ _ H)
      as [_ [(E & _) | [(_ & _ & E & _) | (_ & _ & _ & R)]]];
      [discriminate | congruence |].
    destruct R as (remarks & trends & totalcount & Es & F).
    pose proof Es as Es'. apply Metar_split_spec in Es' as (hi & _ & Hcat & _).
    exists remarks, trends, totalcount, hi. repeat split; assumption.
  - intros inputtext t H Hv Hnil Hcnl.
    destruct (NewTAF_inv _ _ H)
      as [_ [(E & _) | [(_ & E & _) | [(_ & _ & E) | (_ & _ & _ & R)]]]];
      [congruence | congruence | congruence |].
    destruct R as (trends & endposition & Es & F).
    pose proof Es as Es'.
    apply findTrends_loop_spec in Es' as [(hi & _ & Hcat) _ _ _].
    exists trends, endposition, hi. repeat split; assumption.
Qed.


(** C8, as amended. Every turn of the body walks ([decodeMetar],
    [decodeTAF]) and of the trend walk ([parseTrendData]) that comes to
    its end moves the cursor on by at least one token. In a body walk the
    token left at the cursor when the groups are done is added to the
    not-decoded tokens and the cursor passes it by exactly one; in the
    trend walk the loop's own increment passes it and nothing records it.
    With as many turns as there are tokens no walk is left unfinished. *)
Theorem walk_advances :
  (forall m count tokens m' count',
      (count < List.length tokens)%nat ->
      decodeMetar_body m count tokens = Ok (m', count') ->
      (count < count')%nat
      /\ exists m1 c1,
           decodeMetar_groups m count tokens = Ok (m1, c1)
           /\ (count <= c1)%nat
           /\ MetarMessage.NotDecodedTokens m1
              = MetarMessage.NotDecodedTokens m
           /\ ((exists tok, nth_error tokens c1 = Some tok
                            /\ count' = S c1
                            /\ MetarMessage.NotDecodedTokens m'
                               = MetarMessage.NotDecodedTokens m ++ [tok])
               \/ ((List.length tokens <= c1)%nat /\ count' = c1
                   /\ m' = m1)))
  /\ (forall t count tokens t' count',
         (count < List.length tokens)%nat ->
         decodeTAF_body t count tokens = Ok (t', count') ->
         (count < count')%nat
         /\ exists t1 c1,
              decodeTAF_groups t count tokens = Ok (t1, c1)
              /\ (count <= c1)%nat
              /\ TAFMessage.NotDecodedTokens t1
                 = TAFMessage.NotDecodedTokens t
              /\ ((exists tok, nth_error tokens c1 = Some tok
                               /\ count' = S c1
                               /\ TAFMessage.NotDecodedTokens t'
                                  = TAFMessage.NotDecodedTokens t ++ [tok])
                  \/ ((List.length tokens <= c1)%nat /\ count' = c1
                      /\ t' = t1)))
  /\ (forall trend count tokens trend' count',
         parseTrendData_body trend count tokens
         = Ok (Continue (trend', count')) ->
         (count < S count')%nat)
  /\ (forall m tokens,
         decodeMetar_loop (List.length tokens) m 0 tokens <> OutOfFuel)
  /\ (forall t tokens,
         decodeTAF_loop (List.length tokens) t 0 tokens <> OutOfFuel)
  /\ (forall tokens,
         parseTrendData_loop (List.length tokens) Trend.zero 0 tokens
         <> OutOfFuel).
Proof.
  repeat apply conj.
  - intros m count tokens m' count' Hlt H.
    split; [eapply decodeMetar_body_advances; eassumption|].
    pose proof H as H'. apply decodeMetar_body_spec in H'; [|exact Hlt].
    destruct H'
      as (m1 & c1 & H1 & H2 & H3 & _ & H5).
    exists m1, c1. repeat split; assumption.
  - intros t count tokens t' count' Hlt H.
    split; [eapply decodeTAF_body_advances; eassumption|].
    pose proof H as H'. apply decodeTAF_body_spec in H'; [|exact Hlt].
    destruct H'
      as (t1 & c1 & H1 & H2 & H3 & _ & H5).
    exists t1, c1. repeat split; assumption.
  - intros trend count tokens trend' count' H.
    apply parseTrendData_body_count in H. lia.
  - intros m tokens. apply decodeMetar_loop_fuel. lia.
  - intros t tokens. apply decodeTAF_loop_fuel. lia.
  - intros tokens. apply parseTrendData_loop_fuel. lia.
Qed.


(** C5, as amended. In the TAF validity window ([setTimeRange]) and in a
    temperature forecast ([addTempForecast]) an instant resolved to a day
    of the month below the day of the issue instant is moved on by one
    calendar month ([AddDate(0, 1, 0)], which for a day up to the 28th is
    the same day of the next month), and an instant on a day not below it
    is kept. The DDHH/DDHH window of a trend is resolved into the reference
    month as it stands. *)
Theorem month_rollover :
  (forall t fromStr toStr t' vt err,
      setTimeRange t fromStr toStr = Ok t' ->
      parseTime toStr = Ok (vt, err) ->
      TAFMessage.ValidFrom t'
      = rollover (TAFMessage.DateTime t)
          (fst (time.Parse time.layout_2006010215
                  (CurYearStr ++ CurMonthStr ++ fromStr)%string))
      /\ TAFMessage.ValidTo t' = rollover (TAFMessage.DateTime t) vt)
  /\ (forall t input matches,
         FindStringSubmatch rxTempForecast input = Some matches ->
         exists tf,
           addTempForecast t input
           = (TAFMessage.set_Temperature (TAFMessage.Temperature t ++ [tf]) t,
              true)
           /\ TemperatureForecast.DateTime tf
              = rollover (TAFMessage.DateTime t)
                  (if String.eqb (drop 2 (Regexp.sub matches 4)) "24Z"
                   then time.AddHour
                          (fst (time.Parse time.layout_2006010215
                                  (CurYearStr ++ CurMonthStr
                                   ++ take 2 (Regexp.sub matches 4) ++ "23")%string))
                   else fst (time.Parse time.layout_2006010215Z
                               (CurYearStr ++ CurMonthStr
                                ++ Regexp.sub matches 4)%string)))
  /\ (forall issue resolved,
         (time.Day resolved < time.Day issue)%Z ->
         rollover issue resolved = time.AddMonth resolved
         /\ ((time.Day resolved <= 28)%Z ->
             rollover issue resolved = sameDayNextMonth resolved))
  /\ (forall issue resolved,
         (time.Day issue <= time.Day resolved)%Z ->
         rollover issue resolved = resolved)
  /\ (forall trend input trend' ok,
         setDateTime trend input = Ok (trend', ok) ->
         ok = true ->
         exists matches,
           FindStringSubmatch rxDateTime input = Some matches
           /\ parseTime (Regexp.sub matches 1) = Ok (Trend.FM trend', None)
           /\ parseTime (Regexp.sub matches 2) = Ok (Trend.TL trend', None)).
Proof.
  repeat apply conj.
  - intros t fromStr toStr t' vt err H HP.
    exact (setTimeRange_rollover _ _ _ _ _ _ H HP).
  - intros t input matches Hm. unfold addTempForecast. rewrite Hm.
    eexists. split; [reflexivity|]. unfold rollover.
    cbn [TemperatureForecast.DateTime]. reflexivity.
  - intros issue resolved Hlt. unfold rollover.
    apply Z.ltb_lt in Hlt. rewrite Hlt. split; [reflexivity|].
    apply AddMonth_next.
  - intros issue resolved Hle. unfold rollover.
    apply Z.ltb_ge in Hle. rewrite Hle. reflexivity.
  - intros trend input trend' ok H ->. unfold setDateTime in H.
    destruct (FindStringSubmatch rxDateTime input) as [matches|];
      [|discriminate].
    exists matches. split; [reflexivity|].
    destruct (negb _); [|discriminate].
    apply bind_Ok in H as ([t1 e1] & E1 & H).
    destruct e1 as [e1|]; cbv beta iota zeta in H;
      apply bind_Ok in H as ([t2 e2] & E2 & H);
      destruct e2 as [e2|]; try discriminate.
    inversion H; subst trend'.
    cbn [Trend.FM Trend.TL Trend.set_FM Trend.set_TL].
    split; assumption.
Qed.

End Claims.

(** ** The claims on concrete messages *)

Module Run.
Import Sample.

(** C1. On the trend tokens BECMG 2526/2526 0500 FG the two calendar
    errors of the window 2526/2526 are written to the process log only:
    the record that [parseTrendData] returns is a [Trend], which has no
    error list, with both instants at zero, the visibility of "0500" and
    the phenomenon FG. On the temperature forecast TX05/2526Z of a TAF
    issued on the 25th the failed instant is not left at zero either: the
    month rollover moves the zero instant to February 1 of year 1. *)
Theorem trend_calendar_failure_not_recorded :
  @parseTrendData collaborators may2023 ["BECMG"; "2526/2526"; "0500"; "FG"]
  = Ok (@Trend.set_Phenomena_ collaborators
          [mkPhenomenon false "FG" EmptyString]
          (@Trend.set_Visibility_ collaborators ["0500"]
             (Trend.set_Type_ BECMG Trend.zero)))
  /\ @setDateTime collaborators may2023 Trend.zero "2526/2526"
     = Ok (Trend.zero, false)
  /\ TAFMessage.Temperature
       (fst (@addTempForecast collaborators may2023
               (TAFMessage.set_DateTime (time.mkTime 2023 5 25 11 0)
                  (@TAFMessage.new collaborators "TAF"))
               "TX05/2526Z"))
     = [TemperatureForecast.mk 5 (time.mkTime 1 2 1 0 0) true false].
Proof. repeat split; vm_compute; reflexivity. Qed.

(** C2. On a message with no header, here HELLO, [NewMETAR] returns the
    error with a record whose not-decoded tokens are empty, while [NewTAF]
    returns a record whose not-decoded tokens hold the raw text. *)
Theorem invalid_header_asymmetry (C : Collaborators) :
  @NewMETAR C may2023 "HELLO"
  = Ok (MetarMessage.new "HELLO", Some notValidMessage)
  /\ MetarMessage.NotDecodedTokens (@MetarMessage.new C "HELLO") = []
  /\ @NewTAF C may2023 "HELLO"
     = Ok (TAFMessage.set_NotDecodedTokens ["HELLO"] (TAFMessage.new "HELLO")).
Proof. repeat split; vm_compute; reflexivity. Qed.

(** C3. [NewMETAR] panics on a message that ends with its wind group, and
    on one that ends with its header; [NewTAF] panics on a message with no
    validity window. This holds whatever the collaborators and the
    reference date are. *)
Theorem decode_panics_on_short_input (C : Collaborators) (G : Globals) :
  NewMETAR "UUEE 010000Z 31005MPS" = Panic IndexOutOfRange
  /\ NewMETAR "UUEE 010000Z" = Panic IndexOutOfRange
  /\ NewTAF "UUEE 010000Z" = Panic SliceBoundsOutOfRange.
Proof. repeat split; vm_compute; reflexivity. Qed.


(** C5, the claim as stated fails: in a TAF issued on the 25th the trend
    window 0106/0112 resolves to day 1 of the reference month, May, and is
    not moved on to June. *)
Lemma trend_window_not_rolled_over :
  exists t trend,
    @NewTAF collaborators may2023
      "UUEE 251100Z 2512/2612 18005MPS CAVOK TEMPO 0106/0112 0500" = Ok t
    /\ time.Day (TAFMessage.DateTime t) = 25%Z
    /\ TAFMessage.TREND t = [trend]
    /\ Trend.FM trend = time.mkTime 2023 5 1 6 0
    /\ Trend.TL trend = time.mkTime 2023 5 1 12 0
    /\ Trend.FM trend <> time.AddMonth (time.mkTime 2023 5 1 6 0).
Proof.
  eexists. eexists. split; [vm_compute; reflexivity|].
  repeat split. discriminate.
Qed.


(** C8, the claim as stated fails: the token XXX that the trend walk of
    TEMPO XXX matches with nothing is passed and is in no list of
    not-decoded tokens. *)
Lemma trend_walk_drops_unmatched_token :
  exists m,
    @NewMETAR collaborators may2023
      "UUEE 010000Z 31005MPS 10/05 Q1013 TEMPO XXX" = Ok (m, None)
    /\ MetarMessage.TREND m = [Trend.set_Type_ TEMPO Trend.zero]
    /\ MetarMessage.NotDecodedTokens m = [].
Proof. eexists. split; [vm_compute; reflexivity|]. split; reflexivity. Qed.

(** The end of a validity window on the last day of a month, 3024 in June
    for a TAF issued on the 30th: the hour-24 rule gives July 1, 00:00, and
    the month rollover, which sees day 1 below day 30, moves it to
    August 1. *)
Example validity_end_on_last_day_of_month :
  exists t,
    @NewTAF collaborators june2023 "UUEE 301100Z 3012/3024 CNL" = Ok t
    /\ TAFMessage.ValidTo t = time.mkTime 2023 8 1 0 0.
Proof. eexists. split; [vm_compute; reflexivity | reflexivity]. Qed.

(** A TEMPO behind RMK belongs to the remarks and begins no trend, and a
    TEMPO that is the first token behind the header is not looked at: it
    stays in the main section. *)
Example metar_TEMPO_in_remarks_or_first :
  Metar_split
    ["UUEE"; "010000Z"; "31005MPS"; "Q1013"; "RMK"; "WHT"; "TEMPO"; "GRN"] 2
  = (["RMK"; "WHT"; "TEMPO"; "GRN"], [], 4%nat)
  /\ Metar_split ["UUEE"; "010000Z"; "TEMPO"; "0500"] 2 = ([], [], 4%nat).
Proof. split; reflexivity. Qed.

(** The end 0124 of a validity window in a TAF issued on May 31: the
    hour-24 rule gives May 2, 00:00, whose day is below the issue day, and
    the month rollover moves it to June 2, 00:00. *)
Example validity_end_in_next_month :
  exists t,
    @NewTAF collaborators may2023 "UUEE 311100Z 3112/0124 CNL" = Ok t
    /\ TAFMessage.ValidTo t = time.mkTime 2023 6 2 0 0.
Proof. eexists. split; [vm_compute; reflexivity | reflexivity]. Qed.

(** The begin 0124 of a validity window in a TAF issued on the 2nd: the
    parse fails, and the rollover moves the zero instant to February 1 of
    year 1. *)
Example validity_begin_hour24_rolled :
  exists t,
    @NewTAF collaborators may2023 "UUEE 021100Z 0124/0206 CNL" = Ok t
    /\ TAFMessage.ValidFrom t = time.mkTime 1 2 1 0 0.
Proof. eexists. split; [vm_compute; reflexivity | reflexivity]. Qed.

(** *** The theorems at work *)

Lemma ParseWind_no_match_witness :
  wind.ParseWind wind.zero "BKN020" = Ok (wind.zero, 0%nat).
Proof. apply ParseWind_no_match. reflexivity. Defined.

Lemma redecode_own_raw_text_witness :
  exists m err,
    @NewMETAR collaborators may2023
      "UUEE 010000Z 31005MPS 0500 FG 10/05 Q1013 BECMG 0500 FG" = Ok (m, err)
    /\ @NewMETAR collaborators may2023 (Metar_RAW m) = Ok (m, err).
Proof.
  eexists. eexists. split; [vm_compute; reflexivity|].
  apply (proj1 (@redecode_own_raw_text collaborators may2023)
           "UUEE 010000Z 31005MPS 0500 FG 10/05 Q1013 BECMG 0500 FG").
  vm_compute. reflexivity.
Defined.

Lemma trends_in_message_order_witness :
  exists m,
    @NewMETAR collaborators may2023
      "UUEE 010000Z 31005MPS 10/05 Q1013 BECMG 0500 TEMPO FG" = Ok (m, None)
    /\ exists remarks trends totalcount hi,
         Metar_split
           (Split "UUEE 010000Z 31005MPS 10/05 Q1013 BECMG 0500 TEMPO FG")
           (Metar_headerCount
              (snd (@NewMETAR_header collaborators may2023
                      "UUEE 010000Z 31005MPS 10/05 Q1013 BECMG 0500 TEMPO FG")))
         = (remarks, trends, totalcount)
         /\ List.concat trends
            = segment totalcount hi
                (Split "UUEE 010000Z 31005MPS 10/05 Q1013 BECMG 0500 TEMPO FG")
         /\ Forall2
              (fun trendstr trend =>
                 @parseTrendData collaborators may2023 trendstr = Ok trend)
              trends (MetarMessage.TREND m).
Proof.
  eexists. split; [vm_compute; reflexivity|].
  apply (proj1 (@trends_in_message_order collaborators may2023)
           "UUEE 010000Z 31005MPS 10/05 Q1013 BECMG 0500 TEMPO FG").
  - vm_compute. reflexivity.
  - reflexivity.
Defined.


Lemma walk_advances_witness :
  (0 < 1)%nat
  /\ exists m1 c1,
       @decodeMetar_groups collaborators (MetarMessage.new "FOO") 0 ["FOO"]
       = Ok (m1, c1)
       /\ (0 <= c1)%nat
       /\ MetarMessage.NotDecodedTokens m1
          = MetarMessage.NotDecodedTokens (@MetarMessage.new collaborators "FOO")
       /\ ((exists tok, nth_error ["FOO"] c1 = Some tok
                        /\ 1%nat = S c1
                        /\ MetarMessage.NotDecodedTokens
                             (MetarMessage.set_NotDecodedTokens ["FOO"]
                                (@MetarMessage.new collaborators "FOO"))
                           = MetarMessage.NotDecodedTokens
                               (@MetarMessage.new collaborators "FOO")
                             ++ [tok])
           \/ ((List.length ["FOO"] <= c1)%nat /\ 1%nat = c1
               /\ MetarMessage.set_NotDecodedTokens ["FOO"]
                    (@MetarMessage.new collaborators "FOO") = m1)).
Proof.
  apply (proj1 (@walk_advances collaborators may2023)).
  - simpl. lia.
  - vm_compute. reflexivity.
Defined.


Lemma month_rollover_witness :
  rollover (time.mkTime 2023 5 25 11 0) (time.mkTime 2023 5 1 6 0)
  = time.mkTime 2023 6 1 6 0.
Proof.
  destruct (proj1 (proj2 (proj2 (@month_rollover collaborators may2023)))
              (time.mkTime 2023 5 25 11 0) (time.mkTime 2023 5 1 6 0))
    as [_ H].
  - reflexivity.
  - apply H. discriminate.
Defined.

End Run.
